(** * Dataverse extractor: a shallow embedding of [dataverse.py]

    The script authenticates, asks three questions on the console, queries
    the business units, and for every matching unit that the checkpoint does
    not list yet fetches its detail rows, inlines up to five images, renames
    the fields and appends the records to a JSON file, updating the
    checkpoint after each unit.

    The embedding follows the script function by function.  Effects are
    threaded through a state monad over a [world] (console input, files,
    history of observable events); the answers of the outside world come from
    an [env] of oracles that may depend on the whole history.  [exit(1)] and
    Python exceptions are two distinct abnormal outcomes, because
    [except Exception] catches the second and not the first.

    What the script takes from its libraries is taken as given: the case
    conversion and the trimming of text are parameters of the embedding
    ([Text]), and whether a file can be opened for writing is an answer of
    the outside world, as the replies of the network are. *)

From Stdlib Require Import ZArith NArith Ascii String List Lia.
From Stdlib.Strings Require Import Byte.
From stdpp Require Import base option list strings gmap pretty.

Local Open Scope Z_scope.

(** ** Text

    A text is the [string] of the bytes of its UTF-8 encoding.  Splitting at
    a comma and the substring test give the same answers on the encodings as
    on the texts, since no character's encoding occurs inside or across those
    of others.  [str.upper] and [str.strip] follow the Unicode tables; the
    embedding does not define them ([Text], below), it only says what they do
    on ASCII text, where they are the functions of this module. *)

Module Py.

(** The text is ASCII: every byte is below 128. *)
Fixpoint is_ascii (s : string) : bool :=
  match s with
  | EmptyString => true
  | String c r => (N_of_ascii c <? 128)%N && is_ascii r
  end.

Definition ascii_upper_char (c : ascii) : ascii :=
  let n := N_of_ascii c in
  if ((97 <=? n) && (n <=? 122))%N then ascii_of_N (n - 32) else c.

(** [str.upper] on ASCII text. *)
Fixpoint ascii_upper (s : string) : string :=
  match s with
  | EmptyString => EmptyString
  | String c r => String (ascii_upper_char c) (ascii_upper r)
  end.

(** The ASCII characters [str.strip] removes: tab, line feed, vertical tab,
    form feed, carriage return, the four separators 28..31 and the space. *)
Definition ascii_isspace (c : ascii) : bool :=
  let n := N_of_ascii c in
  (((9 <=? n) && (n <=? 13)) || ((28 <=? n) && (n <=? 31)) || (n =? 32))%N.

Fixpoint ascii_lstrip (s : string) : string :=
  match s with
  | EmptyString => EmptyString
  | String c r => if ascii_isspace c then ascii_lstrip r else s
  end.

Fixpoint ascii_rstrip (s : string) : string :=
  match s with
  | EmptyString => EmptyString
  | String c r =>
      match ascii_rstrip r with
      | EmptyString => if ascii_isspace c then EmptyString else String c EmptyString
      | r' => String c r'
      end
  end.

(** [str.strip] on ASCII text. *)
Definition ascii_strip (s : string) : string := ascii_rstrip (ascii_lstrip s).

(** [s.split(sep)] for a one-character separator: never an empty list. *)
Fixpoint split (sep : ascii) (s : string) : list string :=
  match s with
  | EmptyString => [EmptyString]
  | String c r =>
      if Ascii.eqb c sep then EmptyString :: split sep r
      else match split sep r with
           | [] => [String c EmptyString]
           | w :: ws => String c w :: ws
           end
  end.

(** [needle in hay] on strings. *)
Fixpoint contains (needle hay : string) : bool :=
  String.prefix needle hay ||
  match hay with
  | EmptyString => false
  | String _ r => contains needle r
  end.

End Py.

(** [str.upper] and [str.strip], the two methods of the library whose
    result depends on the Unicode tables.  The script is embedded over any
    two such functions, so what is proved of it does not depend on what they
    do to a text. *)
Class Text : Type := {
  str_upper : string → string;
  str_strip : string → string;
}.


(** ** JSON scalars and records

    The fields of the API rows are scalars; numbers are the integers, which
    is all the script itself ever writes ([total_rows]). *)

Inductive value : Type :=
  | VNull
  | VBool (b : bool)
  | VNum (n : Z)
  | VStr (s : string).

#[global] Instance value_eq_dec : EqDecision value.
Proof. solve_decision. Defined.

(** A JSON object with scalar fields, as the API rows, the output records
    and the checkpoint entries are. *)
Abbreviation dict := (gmap string value).

(** [dict.get(key, default)] *)
Definition get (d : dict) (key : string) (default : value) : value :=
  match d !! key with Some v => v | None => default end.

Module PyValue.

(** How an f-string renders a scalar. *)
Definition str (v : value) : string :=
  match v with
  | VNull => "None"
  | VBool true => "True"
  | VBool false => "False"
  | VNum n => pretty n
  | VStr s => s
  end.

(** Truth value of a scalar in a condition. *)
Definition truthy (v : value) : bool :=
  match v with
  | VNull => false
  | VBool b => b
  | VNum n => negb (n =? 0)
  | VStr s => negb (String.eqb s "")
  end.

(** The numeric reading under which [True == 1] and [False == 0]. *)
Definition as_number (v : value) : option Z :=
  match v with
  | VBool b => Some (Z.b2z b)
  | VNum n => Some n
  | _ => None
  end.

(** [a == b] *)
Definition eq (a b : value) : bool :=
  match as_number a, as_number b with
  | Some x, Some y => x =? y
  | None, None => bool_decide (a = b)
  | _, _ => false
  end.

End PyValue.

(** ** The month table *)

(** The dict literal, in source order. *)
Definition month_mapping : list (string * string) :=
  [ ("01", "JAN"); ("JANUARY", "JAN"); ("JAN", "JAN");
    ("02", "FEB"); ("FEBRUARY", "FEB"); ("FEB", "FEB");
    ("03", "MAR"); ("MARCH", "MAR"); ("MAR", "MAR");
    ("04", "APR"); ("APRIL", "APR"); ("APR", "APR");
    ("05", "MAY"); ("MAY", "MAY");
    ("06", "JUN"); ("JUNE", "JUN"); ("JUN", "JUN");
    ("07", "JUL"); ("JULY", "JUL"); ("JUL", "JUL");
    ("08", "AUG"); ("AUGUST", "AUG"); ("AUG", "AUG");
    ("09", "SEP"); ("SEPTEMBER", "SEP"); ("SEP", "SEP");
    ("10", "OCT"); ("OCTOBER", "OCT"); ("OCT", "OCT");
    ("11", "NOV"); ("NOVEMBER", "NOV"); ("NOV", "NOV");
    ("12", "DEC"); ("DECEMBER", "DEC"); ("DEC", "DEC") ].

(** [table[key]] on a dict literal given as its item list. *)
Fixpoint lookup_item (table : list (string * string)) (key : string)
  : option string :=
  match table with
  | [] => None
  | (k, v) :: rest => if String.eqb k key then Some v else lookup_item rest key
  end.

(** [[key for key, value in month_mapping.items() if value == name]] *)
Definition keys_with_value (table : list (string * string)) (name : string)
  : list string :=
  map fst (filter (λ kv, bool_decide (snd kv = name)) table).

(** [input(...).strip().upper()] of line 93. *)
Definition normalize_month `{!Text} (line : string) : string :=
  str_upper (str_strip line).

(** ** Outcomes, events and the world *)

Inductive exn_kind : Type :=
  | RequestException   (* requests.exceptions.RequestException and subclasses *)
  | KeyError
  | TypeError
  | EOFError
  | FileNotFoundError
  | OtherException.    (* any other subclass of Exception *)

#[global] Instance exn_kind_eq_dec : EqDecision exn_kind.
Proof. solve_decision. Defined.

(** An exception: its class and the text [str(e)] gives. *)
Record exn : Type := Exn { exn_class : exn_kind; exn_text : string }.

(** How a call ends: normally, by [exit(code)] (SystemExit, which
    [except Exception] lets through), or by an exception. *)
Inductive outcome (A : Type) : Type :=
  | Returned (a : A)
  | SysExit (code : Z)
  | Raised (e : exn).
Arguments Returned {A} a.
Arguments SysExit {A} code.
Arguments Raised {A} e.

(** What an observer of the process sees, newest first in [history]. *)
Inductive event : Type :=
  | Print (text : string)
  | Input (prompt : string) (line : option string)
  | ClientInit                                     (* msal.ConfidentialClientApplication(...) *)
  | TokenRequest                                   (* app.acquire_token_for_client(...) *)
  | UnitsQuery                                     (* GET .../businessunits?fetchXml=... *)
  | DetailQuery (unit_id : value) (year month : string)  (* GET .../crd8d_qr2s?fetchXml=... *)
  | ImageDownload (url : string).                  (* GET of a blob URL *)

(** The calls into [msal] and [requests], all that may leave the machine:
    the construction of the MSAL client, which may look its authority up, the
    token request, and the requests made with [requests.get]. *)
Definition is_network_call (e : event) : bool :=
  match e with
  | ClientInit | TokenRequest | UnitsQuery | DetailQuery _ _ _
  | ImageDownload _ => true
  | _ => false
  end.

#[global] Instance event_eq_dec : EqDecision event.
Proof. solve_decision. Defined.

(** The requests made with [requests.get]: Dataverse queries and blob
    downloads. *)
Definition is_http_get (e : event) : bool :=
  match e with
  | UnitsQuery | DetailQuery _ _ _ | ImageDownload _ => true
  | _ => false
  end.

(** A JSON file holds an array of objects; the store maps a path to the
    array last dumped there.  The files are the script's own: it is their
    only writer, and the array it dumps after [seek(0)] extends the one it
    has just read, so the new text covers the old one and leaves no stale
    tail.  A file of the store can be read; whether a path can be opened for
    writing is for the outside world to say ([open_error], below). *)
Record world : Type := World {
  stdin : list string;
  files : gmap string (list dict);
  history : list event;
}.

Inductive token_outcome : Type :=
  | TokenResult (result : dict)
  | TokenError (e : exn).

Inductive http_outcome : Type :=
  | HttpRows (rows : list dict)     (* response.json().get("value", []) *)
  | HttpError (e : exn).            (* requests.get / raise_for_status / json raised *)

Inductive image_outcome : Type :=
  | ImageContent (content : list byte)
  | ImageError (e : exn).

(** The outside world.  Every answer may depend on all that happened
    before it. *)
Record env : Type := Env {
  client_init : list event -> option exn;
  token_reply : list event -> token_outcome;
  units_reply : list event -> http_outcome;
  detail_reply : list event -> value -> string -> string -> http_outcome;
  image_reply : list event -> string -> image_outcome;
  (* what [open(path, "w")] or [open(path, "r+")] raises, if it raises: the
     path may name no directory, be empty or too long, or be protected *)
  open_error : list event -> string -> option exn;
}.

(** ** The monad of the script *)

Definition M (A : Type) : Type := world -> outcome A * world.

#[global] Instance M_ret : MRet M := λ A a w, (Returned a, w).

#[global] Instance M_bind : MBind M := λ A B f m w,
  match m w with
  | (Returned a, w') => f a w'
  | (SysExit code, w') => (SysExit code, w')
  | (Raised e, w') => (Raised e, w')
  end.

Definition emit (e : event) : M unit := λ w,
  (Returned (), World (stdin w) (files w) (e :: history w)).

Definition print (text : string) : M unit := emit (Print text).

(** [input(prompt)]: reading past the end of the input raises EOFError. *)
Definition input (prompt : string) : M string := λ w,
  match stdin w with
  | line :: rest =>
      (Returned line, World rest (files w) (Input prompt (Some line) :: history w))
  | [] =>
      (Raised (Exn EOFError "EOF when reading a line"),
       World [] (files w) (Input prompt None :: history w))
  end.

Definition exit {A} (code : Z) : M A := λ w, (SysExit code, w).

Definition raise {A} (e : exn) : M A := λ w, (Raised e, w).

(** [try: body  except Exception as e: handler(e)] *)
Definition try_except {A} (body : M A) (handler : exn -> M A) : M A := λ w,
  match body w with
  | (Raised e, w') => handler e w'
  | r => r
  end.

(** The answer of an oracle at the present history. *)
Definition ask {A} (oracle : list event -> A) : M A := λ w,
  (Returned (oracle (history w)), w).

(** [os.path.exists(path)] *)
Definition path_exists (path : string) : M bool := λ w,
  (Returned (bool_decide (is_Some (files w !! path))), w).

(** [json.load(open(path))] *)
Definition read_json (path : string) : M (list dict) := λ w,
  match files w !! path with
  | Some data => (Returned data, w)
  | None =>
      (Raised (Exn FileNotFoundError
                 ("[Errno 2] No such file or directory: '" +:+ path +:+ "'")), w)
  end.

(** [json.dump(data, open(path, "w"))], and the dump after [seek(0)] into a
    file opened with ["r+"]: when the file cannot be opened the exception of
    [open] is raised and nothing is written. *)
Definition write_json (E : env) (path : string) (data : list dict) : M unit := λ w,
  match open_error E (history w) path with
  | Some e => (Raised e, w)
  | None => (Returned (), World (stdin w) (<[path := data]> (files w)) (history w))
  end.

(** [for x in xs: body(state, x)] with the loop-carried [state]. *)
Fixpoint for_fold {A S} (xs : list A) (state : S) (body : S -> A -> M S) : M S :=
  match xs with
  | [] => mret state
  | x :: rest => state' ← body state x; for_fold rest state' body
  end.

(** [for x in xs: body(x)] *)
Definition for_each {A} (xs : list A) (body : A -> M unit) : M unit :=
  for_fold xs () (λ _ x, body x).

(** A pure computation that may raise, run inside [M]. *)
Definition lift {A} (r : outcome A) : M A := λ w, (r, w).

(** [for x in xs: ys.append(body(x))] *)
Fixpoint for_map {A B} (xs : list A) (body : A -> M B) : M (list B) :=
  match xs with
  | [] => mret []
  | x :: rest => y ← body x; ys ← for_map rest body; mret (y :: ys)
  end.

(** ** Base64 *)

Definition b64_alphabet : string :=
  "ABCDEFGHIJKLMNOPQRSTUVWXYZabcdefghijklmnopqrstuvwxyz0123456789+/".

Definition b64_digit (n : N) : ascii :=
  match String.get (N.to_nat n) b64_alphabet with
  | Some c => c
  | None => "="%char
  end.

(** [base64.b64encode(content).decode("utf-8")] *)
Fixpoint b64encode (content : list byte) : string :=
  match content with
  | [] => ""
  | [a] =>
      let n := (Byte.to_N a * 65536)%N in
      String (b64_digit (n / 262144)) (String (b64_digit ((n / 4096) mod 64)) "==")
  | [a; b] =>
      let n := (Byte.to_N a * 65536 + Byte.to_N b * 256)%N in
      String (b64_digit (n / 262144)) (String (b64_digit ((n / 4096) mod 64))
        (String (b64_digit ((n / 64) mod 64)) "="))
  | a :: b :: c :: rest =>
      let n := (Byte.to_N a * 65536 + Byte.to_N b * 256 + Byte.to_N c)%N in
      String (b64_digit (n / 262144)) (String (b64_digit ((n / 4096) mod 64))
        (String (b64_digit ((n / 64) mod 64)) (String (b64_digit (n mod 64))
          (b64encode rest))))
  end.

(** ** [get_access_token] *)

(** Returns the token, or Python's [None] (here [VNull]) when the function
    body falls off its end. *)
Definition get_access_token (E : env) : M value :=
  emit ClientInit;;
  failure ← ask (client_init E);
  match failure with
  | Some e => raise e
  | None =>
      try_except
        (emit TokenRequest;;
         reply ← ask (token_reply E);
         match reply with
         | TokenError e => raise e
         | TokenResult result =>
             match result !! "access_token" with
             | Some token =>
                 print "Dataverse access token acquired successfully!";;
                 mret token
             | None =>
                 let error_description :=
                   get result "error_description"
                       (VStr "No error description provided.") in
                 print ("Failed to acquire Dataverse token: "
                        +:+ PyValue.str error_description);;
                 exit 1
             end
         end)
        (λ e,
           print ("Dataverse: Error during authentication: " +:+ exn_text e);;
           mret VNull)
  end.

(** ** [download_and_convert_to_base64] *)

(** [None] is Python's [None]. *)
Definition download_and_convert_to_base64 (E : env) (image_url : string)
  : M (option string) :=
  try_except
    (print ("Attempting to download image from: " +:+ image_url);;
     emit (ImageDownload image_url);;
     reply ← ask (λ h, image_reply E h image_url);
     match reply with
     | ImageError e => raise e
     | ImageContent content =>
         let base64_image := b64encode content in
         print ("Successfully downloaded and converted image: " +:+ image_url);;
         mret (Some base64_image)
     end)
    (λ e,
       match exn_class e with
       | RequestException =>
           print ("Error downloading image from " +:+ image_url +:+ ": "
                  +:+ exn_text e);;
           mret None
       | _ => raise e
       end).

(** ** The image loop (lines 267-277) *)

Definition base_url : string := "https://tnbsl.blob.core.windows.net/qr2image/".

Definition blob_attribute (i : nat) : string := "crd8d_gambar" +:+ pretty i +:+ "_blob".

Definition base64_key (i : nat) : string := "gambar" +:+ pretty i +:+ "_base64".

(** [blob_attribute in row and row[blob_attribute]] *)
Definition blob_present (row : dict) (i : nat) : bool :=
  match row !! blob_attribute i with
  | Some v => PyValue.truthy v
  | None => false
  end.

Definition image_url_of (row : dict) (i : nat) : string :=
  base_url +:+ PyValue.str (get row (blob_attribute i) VNull).

(** One turn of [for i in range(1, 6)]; the row is updated in place. *)
Definition process_slot (E : env) (row : dict) (i : nat) : M dict :=
  if blob_present row i then
    let image_url := image_url_of row i in
    base64_image ← download_and_convert_to_base64 E image_url;
    match base64_image with
    | Some (String c r) => mret (<[base64_key i := VStr (String c r)]> row)
    | _ => print ("Failed to process image: " +:+ image_url);; mret row
    end
  else mret row.

Definition enrich_row (E : env) (row : dict) : M dict :=
  for_fold (seq 1 5) row (process_slot E).

(** [for row in related_data: ...] *)
Definition enrich_rows (E : env) (related_data : list dict) : M (list dict) :=
  for_map related_data (enrich_row E).

(** ** The field table and the remapping *)

(** The dict literal [key_mapping], in source order. *)
Definition key_mapping : list (string * string) :=
  [
    ("crd8d_audit", "audit");
    ("crd8d_catatan", "catatan");
    ("crd8d_gantipecu@OData.Community.Display.V1.FormattedValue", "gantipecu");
    ("crd8d_id", "id");
    ("crd8d_jenamalampu@OData.Community.Display.V1.FormattedValue", "jenamalampu");
    ("crd8d_jenamaxlampu@OData.Community.Display.V1.FormattedValue", "jenamaxlampu");
    ("crd8d_jenamaxpecu@OData.Community.Display.V1.FormattedValue", "jenamaxpecu");
    ("crd8d_jeniskerja@OData.Community.Display.V1.FormattedValue", "jeniskerja");
    ("crd8d_jenislampu@OData.Community.Display.V1.FormattedValue", "jenislampu");
    ("crd8d_jenispemasanganbaru@OData.Community.Display.V1.FormattedValue", "jenispemasanganbaru");
    ("crd8d_jenisxlampu@OData.Community.Display.V1.FormattedValue", "jenisxlampu");
    ("crd8d_kapasiti@OData.Community.Display.V1.FormattedValue", "kapasiti");
    ("crd8d_kategorilampu@OData.Community.Display.V1.FormattedValue", "kategorilampu");
    ("crd8d_kodlampu@OData.Community.Display.V1.FormattedValue", "kodlampu");
    ("crd8d_kodxlampu@OData.Community.Display.V1.FormattedValue", "kodxlampu");
    ("crd8d_lampumanyala@OData.Community.Display.V1.FormattedValue", "lampumanyala");
    ("crd8d_lampurosak@OData.Community.Display.V1.FormattedValue", "lampurosak");
    ("crd8d_location", "location");
    ("crd8d_namajalan", "namajalan");
    ("crd8d_noreport", "noreport");
    ("crd8d_nosiri", "nosiri");
    ("crd8d_notiang", "notiang");
    ("crd8d_perihalkerja", "perihalkerja");
    ("crd8d_qr2id", "qr2id");
    ("crd8d_tahunxpecu@OData.Community.Display.V1.FormattedValue", "tahunxpecu");
    ("crd8d_tarikh", "tarikh");
    ("crd8d_waktu@OData.Community.Display.V1.FormattedValue", "waktu");
    ("createdon", "createdon");
    ("modifiedon", "modifiedon");
    ("crd8d_nosn", "nosn");
    ("crd8d_carakawalan@OData.Community.Display.V1.FormattedValue", "carakawalan");
    ("_createdby_value@OData.Community.Display.V1.FormattedValue", "_createdby_value");
    ("_modifiedby_value@OData.Community.Display.V1.FormattedValue", "_modifiedby_value");
    ("_owningbusinessunit_value@OData.Community.Display.V1.FormattedValue", "_owningbusinessunit_value");
    ("crd8d_lokasikawalanmasa", "lokasikawalanmasa");
    ("crd8d_namapemegangakaun", "namapemegangakaun");
    ("crd8d_noakaun", "noakaun");
    ("_crd8d_admin_value@OData.Community.Display.V1.FormattedValue", "admin_name");
    ("_crd8d_chargeman_value@OData.Community.Display.V1.FormattedValue", "chargeman_name");
    ("crd8d_chargemanno", "chargeman_number");
    ("crd8d_ssmregistrationno", "ssm_registration_number");
    ("crd8d_tnbvendorno", "tnb_vendor_number");
    ("zon.crd8d_businessarea", "business_area");
    ("zon.crd8d_sub_business_area", "sub_business_area");
    ("zon.crd8d_negeri@OData.Community.Display.V1.FormattedValue", "negeri");
    ("zon.crd8d_kod", "kod");
    ("zon.crd8d_region@OData.Community.Display.V1.FormattedValue", "region");
    ("zon.crd8d_engineer@OData.Community.Display.V1.FormattedValue", "engineer_name");
    ("zon.crd8d_engineerno", "engineer_number");
    ("zon.crd8d_technician@OData.Community.Display.V1.FormattedValue", "technician_name");
    ("zon.crd8d_technicianno", "technician_number");
    ("zon.crd8d_weekend@OData.Community.Display.V1.FormattedValue", "weekend");
    ("crd8d_workorderstatus@OData.Community.Display.V1.FormattedValue", "workorderstatus");
    ("gambar1_base64", "image1_full");
    ("gambar2_base64", "image2_full");
    ("gambar3_base64", "image3_full");
    ("gambar4_base64", "image4_full");
    ("gambar5_base64", "image5_full")
  ].

(** [{new_key: combined_row.get(old_key, "") for old_key, new_key in
    key_mapping.items()}] *)
Definition remap_row (key_mapping : list (string * string)) (combined_row : dict)
  : dict :=
  foldl (λ acc kv, <[snd kv := get combined_row (fst kv) (VStr "")]> acc)
        ∅ key_mapping.

(** [{**business_unit, **row}]: the row's fields win. *)
Definition combine (business_unit row : dict) : dict := row ∪ business_unit.

(** ** The checkpoint *)

Definition checkpoint_file (month_name year_input : string) : string :=
  "processed_business_units_" +:+ month_name +:+ "_" +:+ year_input +:+ ".json".

Definition load_checkpoint (CHECKPOINT_FILE : string) : M (list dict) :=
  present ← path_exists CHECKPOINT_FILE;
  if (present : bool) then read_json CHECKPOINT_FILE else mret [].

Definition save_checkpoint (E : env) (CHECKPOINT_FILE : string)
    (processed_units : list dict) : M unit :=
  write_json E CHECKPOINT_FILE processed_units.

Definition key_error {A} (key : string) : outcome A :=
  Raised (Exn KeyError ("'" +:+ key +:+ "'")).

(** [any(unit["business_unit_id"] == business_unit_id for unit in
    processed_units)] *)
Fixpoint any_processed (business_unit_id : value) (processed_units : list dict)
  : outcome bool :=
  match processed_units with
  | [] => Returned false
  | unit :: rest =>
      match (unit : dict) !! "business_unit_id" with
      | None => key_error "business_unit_id"
      | Some v =>
          if PyValue.eq v business_unit_id then Returned true
          else any_processed business_unit_id rest
      end
  end.

(** Lines 408-411: the first entry of that id gets the new row count. *)
Fixpoint set_total_rows (business_unit_id : value) (total_rows_processed : Z)
    (processed_units : list dict) : outcome (list dict) :=
  match processed_units with
  | [] => Returned []
  | unit :: rest =>
      match (unit : dict) !! "business_unit_id" with
      | None => key_error "business_unit_id"
      | Some v =>
          if PyValue.eq v business_unit_id
          then Returned (<["total_rows" := VNum total_rows_processed]> unit :: rest)
          else
            match set_total_rows business_unit_id total_rows_processed rest with
            | Returned rest' => Returned (unit :: rest')
            | SysExit code => SysExit code
            | Raised e => Raised e
            end
      end
  end.

Definition checkpoint_entry (business_unit_id business_unit_name : value)
    (total_rows_processed : Z) : dict :=
  <["total_rows" := VNum total_rows_processed]>
    (<["business_unit_name" := business_unit_name]>
       (<["business_unit_id" := business_unit_id]> ∅)).

(** Lines 399-411 on the loaded list. *)
Definition update_checkpoint (business_unit_id business_unit_name : value)
    (total_rows_processed : Z) (processed_units : list dict)
  : outcome (list dict) :=
  match any_processed business_unit_id processed_units with
  | Returned false =>
      Returned (processed_units ++
                [checkpoint_entry business_unit_id business_unit_name
                                  total_rows_processed])
  | Returned true =>
      set_total_rows business_unit_id total_rows_processed processed_units
  | SysExit code => SysExit code
  | Raised e => Raised e
  end.

(** ** [remap_and_save_data] *)

(** Lines 372-380: create the file with one record, or read the array,
    append and dump it again. *)
Definition append_record (E : env) (file_name : string) (remapped_row : dict)
  : M unit :=
  present ← path_exists file_name;
  if negb present then write_json E file_name [remapped_row]
  else
    existing_data ← read_json file_name;
    write_json E file_name (existing_data ++ [remapped_row]).

(** [enumerate(related_data)] *)
Definition enumerate {A} (xs : list A) : list (nat * A) :=
  zip (seq 0 (length xs)) xs.

(** The body of the row loop, lines 358-387; the state is
    [total_rows_processed]. *)
Definition save_row (E : env) (file_name : string) (business_unit_name : value)
    (business_unit : dict) (key_mapping : list (string * string))
    (total_rows_processed : Z) (indexed_row : nat * dict) : M Z :=
  let index := fst indexed_row in
  let row := snd indexed_row in
  try_except
    (let combined_row := combine business_unit row in
     let remapped_row := remap_row key_mapping combined_row in
     print ("Appending row " +:+ pretty (index + 1)%nat
            +:+ " for business unit '" +:+ PyValue.str business_unit_name +:+ "'.");;
     append_record E file_name remapped_row;;
     mret (total_rows_processed + 1))
    (λ e,
       print ("Error processing row " +:+ pretty (index + 1)%nat
              +:+ " for business unit '" +:+ PyValue.str business_unit_name
              +:+ "': " +:+ exn_text e);;
       mret total_rows_processed).

Definition output_file (business_unit_name business_unit_negeri : value)
    (month_name year_input : string) : string :=
  PyValue.str business_unit_name +:+ "_" +:+ PyValue.str business_unit_negeri
  +:+ "_" +:+ month_name +:+ "_" +:+ year_input +:+ ".json".

(** Lines 397-413: load the checkpoint, update it, save it. *)
Definition record_processed (E : env) (CHECKPOINT_FILE : string)
    (business_unit_id business_unit_name : value) (total_rows_processed : Z)
  : M unit :=
  processed_units ← load_checkpoint CHECKPOINT_FILE;
  processed_units' ←
    lift (update_checkpoint business_unit_id business_unit_name
                            total_rows_processed processed_units);
  save_checkpoint E CHECKPOINT_FILE processed_units'.

(** [year_input] and [CHECKPOINT_FILE] are the variables the nested function
    captures. *)
Definition remap_and_save_data (E : env) (year_input CHECKPOINT_FILE : string)
    (related_data : list dict) (business_unit : dict)
    (key_mapping : list (string * string)) (month_name : string) : M unit :=
  let business_unit_name := get business_unit "name" (VStr "Unknown") in
  let business_unit_id := get business_unit "businessunitid" (VStr "unknown_id") in
  let business_unit_negeri :=
    get business_unit "zon.crd8d_negeri@OData.Community.Display.V1.FormattedValue"
        (VStr "Unknown") in
  total_rows_processed ←
    match related_data with
    | [] =>
        print ("No data retrieved for business unit '"
               +:+ PyValue.str business_unit_name +:+ "'. No file will be saved.");;
        mret 0
    | _ =>
        let file_name :=
          output_file business_unit_name business_unit_negeri month_name year_input in
        total ← for_fold (enumerate related_data) 0
                  (save_row E file_name business_unit_name business_unit key_mapping);
        try_except
          (final_data ← read_json file_name;
           print ("Total rows saved in '" +:+ file_name +:+ "': "
                  +:+ pretty (length final_data)))
          (λ e,
             print ("Error reading final JSON file '" +:+ file_name +:+ "': "
                    +:+ exn_text e));;
        mret total
    end;
  record_processed E CHECKPOINT_FILE business_unit_id business_unit_name
                   total_rows_processed;;
  if 0 <? total_rows_processed then
    print ("Saved combined data for business unit '"
           +:+ PyValue.str business_unit_name +:+ "' and updated checkpoint.")
  else
    print ("No data processed for business unit '"
           +:+ PyValue.str business_unit_name +:+ "', but checkpoint updated.").

(** ** [fetch_business_units_and_related_data] *)

Definition type_name (v : value) : string :=
  match v with
  | VNull => "NoneType"
  | VBool _ => "bool"
  | VNum _ => "int"
  | VStr _ => "str"
  end.

(** [any(name in business_unit_name for name in business_unit_names)];
    [in] needs a string on its right. *)
Fixpoint any_name_in (business_unit_names : list string)
    (business_unit_name : value) : outcome bool :=
  match business_unit_names with
  | [] => Returned false
  | name :: rest =>
      match business_unit_name with
      | VStr s =>
          if Py.contains name s then Returned true
          else any_name_in rest business_unit_name
      | v =>
          Raised (Exn TypeError
                    ("argument of type '" +:+ type_name v +:+ "' is not iterable"))
      end
  end.

(** Line 120, after the [.upper()] of line 91. *)
Definition business_unit_names_of `{!Text} (business_unit_names_input : string)
  : list string :=
  map str_strip (Py.split "," business_unit_names_input).

(** Lines 167-175. *)
Definition select_matching (business_unit_names : list string)
    (business_units : list dict) : M (list dict) :=
  for_fold business_units []
    (λ matching_business_units business_unit,
       let business_unit_name := get business_unit "name" (VStr "Unknown") in
       hit ← lift (any_name_in business_unit_names business_unit_name);
       if (hit : bool) then
         print ("Found matching business unit: " +:+ PyValue.str business_unit_name);;
         mret (matching_business_units ++ [business_unit])
       else mret matching_business_units).

(** [response.raise_for_status(); response.json().get("value", [])] *)
Definition rows_of (reply : http_outcome) : M (list dict) :=
  match reply with
  | HttpRows rows => mret rows
  | HttpError e => raise e
  end.

(** The body of the loop over the matching units, lines 183-421. *)
Definition process_unit (E : env)
    (year_input month_numeric month_name CHECKPOINT_FILE : string)
    (processed_units : list dict) (business_unit : dict) : M unit :=
  let business_unit_id := get business_unit "businessunitid" (VStr "unknown_id") in
  let business_unit_name := get business_unit "name" (VStr "Unknown") in
  skip ← lift (any_processed business_unit_id processed_units);
  if (skip : bool) then
    print ("Skipping already processed business unit: "
           +:+ PyValue.str business_unit_name)
  else
    print ("Processing business unit: " +:+ PyValue.str business_unit_name);;
    emit (DetailQuery business_unit_id year_input month_numeric);;
    reply ← ask (λ h, detail_reply E h business_unit_id year_input month_numeric);
    related_data ← rows_of reply;
    match related_data with
    | [] =>
        print ("No data retrieved for business unit '"
               +:+ PyValue.str business_unit_name +:+ "'.")
    | _ =>
        print ("Total rows retrieved for business unit '"
               +:+ PyValue.str business_unit_name +:+ "': "
               +:+ pretty (length related_data))
    end;;
    related_data ← enrich_rows E related_data;
    remap_and_save_data E year_input CHECKPOINT_FILE
                        related_data business_unit key_mapping month_name.

(** The [try] block, lines 156-421. *)
Definition fetch_and_process `{!Text} (E : env)
    (business_unit_names_input year_input month_numeric month_name : string)
  : M unit :=
  let CHECKPOINT_FILE := checkpoint_file month_name year_input in
  let business_unit_names := business_unit_names_of business_unit_names_input in
  emit UnitsQuery;;
  reply ← ask (units_reply E);
  business_units ← rows_of reply;
  print ("Total business units retrieved: " +:+ pretty (length business_units));;
  processed_units ← load_checkpoint CHECKPOINT_FILE;
  matching_business_units ← select_matching business_unit_names business_units;
  match matching_business_units with
  | [] =>
      print ("No matching business unit found for input: "
             +:+ business_unit_names_input)
  | _ =>
      for_each matching_business_units
        (process_unit E year_input month_numeric month_name CHECKPOINT_FILE
                      processed_units)
  end.

(** [[...][0]] of line 96. *)
Definition month_numeric_of (month_name : string) : outcome string :=
  match keys_with_value month_mapping month_name with
  | key :: _ => Returned key
  | [] => Raised (Exn OtherException "list index out of range")
  end.

(** Lines 95-101: the pair [(month_numeric, month_name)], or [exit(1)]. *)
Definition resolve_month (month_input : string) : M (string * string) :=
  match lookup_item month_mapping month_input with
  | Some month_name =>
      month_numeric ← lift (month_numeric_of month_name);
      print ("Month numeric: " +:+ month_numeric +:+ ", Month name: " +:+ month_name);;
      mret (month_numeric, month_name)
  | None =>
      print ("Invalid month input: " +:+ month_input
             +:+ ". Please enter a valid month.");;
      exit 1
  end.

(** The whole function.  The token only goes into the request headers, which
    the oracles stand for. *)
Definition fetch_business_units_and_related_data `{!Text} (E : env) : M unit :=
  access_token ← get_access_token E;
  names_line ← input "Enter the business unit names (comma-separated): ";
  let business_unit_names_input := str_upper names_line in
  year_input ← input "Enter the year (e.g., 2024): ";
  month_line ← input "Enter the month (e.g., March/Mar/03): ";
  let month_input := normalize_month month_line in
  '(month_numeric, month_name) ← resolve_month month_input;
  try_except
    (fetch_and_process E business_unit_names_input year_input
                       month_numeric month_name)
    (λ e,
       match exn_class e with
       | RequestException => print ("Error fetching data: " +:+ exn_text e)
       | _ => print ("Unexpected error: " +:+ exn_text e)
       end).

(** * Vocabulary of the properties *)

(** ** Runs *)

Definition result {A} (r : outcome A * world) : outcome A := fst r.
Definition final {A} (r : outcome A * world) : world := snd r.

(** The process has ended: by [exit], or by an exception nobody caught. *)
Definition terminated {A} (o : outcome A) : Prop :=
  match o with
  | Returned _ => False
  | _ => True
  end.

(** [w'] comes after [w]: the events [new] happened in between. *)
Definition extends_by (new : list event) (w w' : world) : Prop :=
  history w' = new ++ history w.

(** The network calls among the events [new], newest first. *)
Definition network_calls (new : list event) : list event :=
  List.filter is_network_call new.

(** The network calls of the authenticator, newest first: the construction
    of the MSAL client and, if it could be built, the one token request. *)
Definition token_traffic (E : env) (w : world) : list event :=
  match client_init E (ClientInit :: history w) with
  | None => [TokenRequest; ClientInit]
  | Some _ => [ClientInit]
  end.

(** Every run of [c] relates the world it starts in to the one it ends in. *)
Definition respects (R : world → world → Prop) {A} (c : M A) : Prop :=
  ∀ w, R w (final (c w)).

Definition is_detail_query (ev : event) : bool :=
  match ev with
  | DetailQuery _ _ _ => true
  | _ => false
  end.

(** A relation between worlds that is a preorder and that neither the
    console nor a request other than a detail query disturbs. *)
Class Observer (R : world → world → Prop) : Prop := {
  observer_preorder :: PreOrder R;
  observer_emit ev w : is_detail_query ev = false → R w (final (emit ev w));
  observer_input prompt w : R w (final (input prompt w));
}.

(** ** Text

    On ASCII text [str.upper] and [str.strip] are the functions of [Py]. *)
Definition agrees_on_ascii (T : Text) : Prop :=
  ∀ s, Py.is_ascii s = true →
       str_upper s = Py.ascii_upper s ∧ str_strip s = Py.ascii_strip s.

(** The path can be opened for writing, whenever it is asked for. *)
Definition opens (E : env) (path : string) : Prop :=
  ∀ h, open_error E h path = None.

(** ** The month table *)

(** The three spellings of each month: two-digit number, full name,
    three-letter abbreviation. *)
Definition calendar : list (string * string * string) :=
  [ ("01", "JANUARY", "JAN"); ("02", "FEBRUARY", "FEB"); ("03", "MARCH", "MAR");
    ("04", "APRIL", "APR"); ("05", "MAY", "MAY"); ("06", "JUNE", "JUN");
    ("07", "JULY", "JUL"); ("08", "AUGUST", "AUG"); ("09", "SEPTEMBER", "SEP");
    ("10", "OCTOBER", "OCT"); ("11", "NOVEMBER", "NOV"); ("12", "DECEMBER", "DEC") ].

Definition accepted_forms : list string :=
  flat_map (λ m, [m.1.1; m.1.2; m.2]) calendar.

(** What [resolve_month] returns; it does not depend on the world. *)
Definition resolution (month_input : string) : outcome (string * string) :=
  match lookup_item month_mapping month_input with
  | Some month_name =>
      match month_numeric_of month_name with
      | Returned month_numeric => Returned (month_numeric, month_name)
      | SysExit code => SysExit code
      | Raised e => Raised e
      end
  | None => SysExit 1
  end.

(** ** The unit resolver *)

(** [needle] occurs in [hay]. *)
Definition substring_of (needle hay : string) : Prop :=
  ∃ before after, hay = before +:+ needle +:+ after.

(** The reading of the unit resolver that ignores the case of both sides. *)
Definition matches_ignoring_case `{!Text} (term unit_name : string) : bool :=
  Py.contains (str_upper term) (str_upper unit_name).

(** The name the script takes for a unit, when it is text. *)
Definition text_named (business_unit : dict) : Prop :=
  ∃ s, get business_unit "name" (VStr "Unknown") = VStr s.

(** [any(name in s for name in business_unit_names)] on a text [s], as a
    boolean. *)
Definition name_hit (business_unit_names : list string) (business_unit : dict)
  : bool :=
  match get business_unit "name" (VStr "Unknown") with
  | VStr s => existsb (λ name, Py.contains name s) business_unit_names
  | _ => false
  end.

(** ** The checkpoint *)

(** The ids of the entries of a checkpoint, position by position; an entry
    without the key has none. *)
Definition entry_ids (processed_units : list dict) : list (option value) :=
  (λ unit : dict, unit !! "business_unit_id") <$> processed_units.

(** At most one entry per unit id, ids being compared as the script
    compares them. *)
Definition unique_ids (processed_units : list dict) : Prop :=
  ∀ i j vi vj,
    entry_ids processed_units !! i = Some (Some vi) →
    entry_ids processed_units !! j = Some (Some vj) →
    PyValue.eq vi vj = true → i = j.

(** The lists built by checkpoint updates alone: the empty list of a
    missing file, and what an update makes of one of them.  The checkpoint
    file holds such a list unless the output file of a unit has its name, in
    which case output records are appended to it as well. *)
Inductive script_checkpoint : list dict → Prop :=
  | checkpoint_missing : script_checkpoint []
  | checkpoint_updated id name total processed_units updated :
      script_checkpoint processed_units →
      update_checkpoint id name total processed_units = Returned updated →
      script_checkpoint updated.

(** The array a path holds; no file, no entries. *)
Definition stored (w : world) (path : string) : list dict :=
  default [] (files w !! path).

(** The entry is one of the unit of id [u]. *)
Definition entry_of (u : value) (unit : dict) : bool :=
  match unit !! "business_unit_id" with
  | Some v => PyValue.eq v u
  | None => false
  end.

(** Some entry of the list is one of the unit of id [u]. *)
Definition listed (u : value) (processed_units : list dict) : Prop :=
  Exists (λ unit, entry_of u unit = true) processed_units.

(** The event is a detail query for the unit of id [u]. *)
Definition queries (u : value) (ev : event) : bool :=
  match ev with
  | DetailQuery v _ _ => PyValue.eq v u
  | _ => false
  end.

(** Between [w] and [w'] no detail query for the unit [u] was made, and the
    entries of [u] in the file [path] are what they were. *)
Definition frame (u : value) (path : string) (w w' : world) : Prop :=
  (∃ new, extends_by new w w' ∧ Forall (λ ev, queries u ev = false) new) ∧
  List.filter (entry_of u) (stored w' path) = List.filter (entry_of u) (stored w path).

(** If the file [path] had at most one entry per unit id in [w], it has in
    [w']. *)
Definition keeps_unique (path : string) (w w' : world) : Prop :=
  unique_ids (stored w path) → unique_ids (stored w' path).

(** ** The image loop *)

(** The output field of image slot [i]. *)
Definition image_key (i : nat) : string := "image" +:+ pretty i +:+ "_full".



(** ** Sample environments and worlds *)

(** The text functions of the samples: those of ASCII text, which is what
    the samples type in. *)
#[global] Instance ascii_text : Text :=
  {| str_upper := Py.ascii_upper; str_strip := Py.ascii_strip |}.

(** An environment that answers the token request with [reply] and has
    nothing else to say. *)
Definition token_env (reply : token_outcome) : env :=
  {| client_init := λ _, None;
     token_reply := λ _, reply;
     units_reply := λ _, HttpRows [];
     detail_reply := λ _ _ _ _, HttpRows [];
     image_reply := λ _ _, ImageContent [];
     open_error := λ _ _, None |}.

Definition sample_unit : dict :=
  <["name" := VStr "ACME NORTH"]> (<["businessunitid" := VStr "u1"]> ∅).

Definition sample_row : dict :=
  <["crd8d_gambar1_blob" := VStr "a.png"]>
    (<["crd8d_gambar3_blob" := VStr "bad.png"]> (<["crd8d_id" := VStr "r1"]> ∅)).

(** Every download succeeds but that of [bad.png]. *)
Definition sample_env : env :=
  {| client_init := λ _, None;
     token_reply := λ _, TokenResult (<["access_token" := VStr "t"]> ∅);
     units_reply := λ _, HttpRows [sample_unit];
     detail_reply := λ _ _ _ _, HttpRows [sample_row];
     image_reply := λ _ url,
       if String.eqb url (base_url +:+ "bad.png")
       then ImageError (Exn RequestException "404 Client Error")
       else ImageContent [x4d; x61; x6e]%byte;
     open_error := λ _ _, None |}.

(** A world in which March 2024 has been run before for [sample_unit]. *)
Definition sample_rerun_world : world :=
  {| stdin := ["acme"; "2024"; "march"];
     files := {[ checkpoint_file "MAR" "2024"
                 := [checkpoint_entry (VStr "u1") (VStr "ACME NORTH") 2] ]};
     history := [] |}.

(** ** Further vocabulary *)

#[global] Instance exn_eq_dec : EqDecision exn.
Proof. solve_decision. Defined.

#[global] Instance outcome_eq_dec {A} `{EqDecision A} : EqDecision (outcome A).
Proof. solve_decision. Defined.

(** A text of ASCII blanks only, characters [str.strip] removes. *)
Fixpoint blank (s : string) : bool :=
  match s with
  | EmptyString => true
  | String c r => Py.ascii_isspace c && blank r
  end.

(** The three spellings of a month of the calendar. *)
Definition spellings (m : string * string * string) : list string :=
  [m.1.1; m.1.2; m.2].

(** The line the selection loop prints for a selected unit. *)
Definition found_line (business_unit : dict) : event :=
  Print ("Found matching business unit: "
         +:+ PyValue.str (get business_unit "name" (VStr "Unknown"))).

(** The blob downloads among the events [new], newest first. *)
Definition downloads (new : list event) : list event :=
  List.filter (λ ev, match ev with ImageDownload _ => true | _ => false end) new.

(** The five image slots, [range(1, 6)]. *)
Definition slots : list nat := seq 1 5.

(** Every failure of a blob download is a request error, as those of
    [requests.get] and [raise_for_status] are. *)
Definition request_errors_only (E : env) : Prop :=
  ∀ h url e, image_reply E h url = ImageError e → exn_class e = RequestException.

(** ** Reading Base64 back *)

Fixpoint index_in (c : ascii) (s : string) : N :=
  match s with
  | EmptyString => 0%N
  | String d r => if Ascii.eqb c d then 0%N else N.succ (index_in c r)
  end.

(** The six bits a Base64 character stands for; the padding stands for
    none. *)
Definition b64_value (c : ascii) : N :=
  if Ascii.eqb c "=" then 0%N else index_in c b64_alphabet.

Definition to_byte (n : N) : byte := default x00 (Byte.of_N n).

(** The bytes of one group of four characters. *)
Definition b64_group (c1 c2 c3 c4 : ascii) : list byte :=
  let n := (b64_value c1 * 262144 + b64_value c2 * 4096
            + b64_value c3 * 64 + b64_value c4)%N in
  let whole :=
    [to_byte (n / 65536); to_byte ((n / 256) mod 256); to_byte (n mod 256)] in
  if Ascii.eqb c3 "=" then take 1 whole
  else if Ascii.eqb c4 "=" then take 2 whole
  else whole.

(** [base64.b64decode] on the texts [b64encode] writes. *)
Fixpoint b64decode (text : string) : list byte :=
  match text with
  | String c1 (String c2 (String c3 (String c4 rest))) =>
      b64_group c1 c2 c3 c4 ++ b64decode rest
  | _ => []
  end.

(** The abbreviations of the month table, which name the checkpoint and
    output files. *)
Definition month_names : list string :=
  ["JAN"; "FEB"; "MAR"; "APR"; "MAY"; "JUN";
   "JUL"; "AUG"; "SEP"; "OCT"; "NOV"; "DEC"].

(** ** How a run ends *)

(** The command returns or raises, it never ends the process. *)
Definition never_exits {A} (c : M A) : Prop :=
  ∀ w code, result (c w) ≠ SysExit code.

(** The exception [input] raises at the end of the input. *)
Definition end_of_input : exn := Exn EOFError "EOF when reading a line".


(** What a run has printed and read when it enters the [try] block, newest
    first. *)
Definition prologue (names year line month_numeric month_name : string)
  : list event :=
  [ Print ("Month numeric: " +:+ month_numeric +:+ ", Month name: " +:+ month_name);
    Input "Enter the month (e.g., March/Mar/03): " (Some line);
    Input "Enter the year (e.g., 2024): " (Some year);
    Input "Enter the business unit names (comma-separated): " (Some names) ].

(** The line the unit loop prints for a unit it skips. *)
Definition skipped_line (business_unit : dict) : event :=
  Print ("Skipping already processed business unit: "
         +:+ PyValue.str (get business_unit "name" (VStr "Unknown"))).

(** The environment [E] with one answer to every units query. *)
Definition with_units_reply (E : env) (reply : http_outcome) : env :=
  {| client_init := client_init E;
     token_reply := token_reply E;
     units_reply := λ _, reply;
     detail_reply := detail_reply E;
     image_reply := image_reply E;
     open_error := open_error E |}.


(** The environment [E] in which the path [locked] cannot be opened for
    writing, and every other path can. *)
Definition with_locked_path (E : env) (locked : string) (e : exn) : env :=
  {| client_init := client_init E;
     token_reply := token_reply E;
     units_reply := units_reply E;
     detail_reply := detail_reply E;
     image_reply := image_reply E;
     open_error := λ _ path, if String.eqb path locked then Some e else None |}.

(** The environment [E] with one answer to every detail query. *)
Definition with_detail_reply (E : env) (reply : http_outcome) : env :=
  {| client_init := client_init E;
     token_reply := token_reply E;
     units_reply := units_reply E;
     detail_reply := λ _ _ _ _, reply;
     image_reply := image_reply E;
     open_error := open_error E |}.

(** * Properties *)

(** The tables stay folded when a run is simplified. *)
#[local] Arguments normalize_month : simpl never.
#[local] Arguments remap_row : simpl never.
#[local] Arguments pretty : simpl never.

(** Unfolds the monad of the script at the head of a run. *)
Ltac step :=
  unfold result, final, mbind, M_bind, mret, M_ret, emit, print, ask, exit,
    raise, lift, try_except, path_exists, read_json, write_json;
  simpl.

Lemma extends_by_nil w : extends_by [] w w.
Proof. reflexivity. Qed.

Lemma extends_by_cons ev new w s f h :
  h = new ++ history w → extends_by (ev :: new) w (World s f (ev :: h)).
Proof. unfold extends_by. simpl. by intros ->. Qed.

Lemma extends_by_trans new1 new2 w1 w2 w3 :
  extends_by new1 w1 w2 → extends_by new2 w2 w3 → extends_by (new2 ++ new1) w1 w3.
Proof. unfold extends_by. intros H1 H2. by rewrite H2, H1, app_assoc. Qed.

(** ** Equations of the monad *)

Lemma bind_run {A B} (m : M A) (f : A → M B) w :
  (m ≫= f) w =
  match m w with
  | (Returned a, w') => f a w'
  | (SysExit code, w') => (SysExit code, w')
  | (Raised e, w') => (Raised e, w')
  end.
Proof. reflexivity. Qed.

Lemma for_fold_nil {A S} (state : S) (body : S → A → M S) w :
  for_fold [] state body w = (Returned state, w).
Proof. reflexivity. Qed.

Lemma for_fold_cons {A S} x (rest : list A) (state : S) (body : S → A → M S) w :
  for_fold (x :: rest) state body w =
  match body state x w with
  | (Returned state', w') => for_fold rest state' body w'
  | (SysExit code, w') => (SysExit code, w')
  | (Raised e, w') => (Raised e, w')
  end.
Proof. reflexivity. Qed.

Lemma for_map_cons {A B} x (rest : list A) (body : A → M B) w :
  for_map (x :: rest) body w =
  match body x w with
  | (Returned y, w') =>
      match for_map rest body w' with
      | (Returned ys, w'') => (Returned (y :: ys), w'')
      | (SysExit code, w'') => (SysExit code, w'')
      | (Raised e, w'') => (Raised e, w'')
      end
  | (SysExit code, w') => (SysExit code, w')
  | (Raised e, w') => (Raised e, w')
  end.
Proof.
  simpl. rewrite bind_run. destruct (body x w) as [[y| |] w']; [|done..].
  rewrite bind_run. by destruct (for_map rest body w') as [[ys| |] w''].
Qed.

(** ** The month table *)

Lemma lookup_item_key table key v :
  lookup_item table key = Some v → (key, v) ∈ table.
Proof.
  induction table as [|[k v'] rest IH]; simpl; [done|].
  destruct (String.eqb_spec k key) as [->|_].
  - intros [= ->]. apply list_elem_of_here.
  - intros H. apply list_elem_of_further, IH, H.
Qed.

Lemma month_keys_accepted : month_mapping.*1 ⊆ accepted_forms.
Proof. apply (bool_decide_unpack _). vm_compute. exact I. Qed.

Lemma accepted_keys_mapped :
  Forall (λ s, is_Some (lookup_item month_mapping s)) accepted_forms.
Proof. apply (bool_decide_unpack _). vm_compute. exact I. Qed.

Lemma lookup_item_accepts s :
  is_Some (lookup_item month_mapping s) ↔ s ∈ accepted_forms.
Proof.
  split.
  - intros [v Hv]. apply lookup_item_key in Hv.
    apply month_keys_accepted. apply (list_elem_of_fmap_2 fst) in Hv. exact Hv.
  - intros Hs. pose proof accepted_keys_mapped as H.
    rewrite Forall_forall in H. apply H, Hs.
Qed.

Lemma resolve_month_result month_input w :
  result (resolve_month month_input w) = resolution month_input.
Proof.
  unfold resolve_month, resolution.
  destruct (lookup_item month_mapping month_input) as [name|]; [|done].
  step. by destruct (month_numeric_of name).
Qed.

(** C7: the two-digit number, the full name and the abbreviation of a month
    all resolve to the same pair, the two-digit number with the
    abbreviation; so "03", "MARCH" and "MAR" all give ("03", "MAR"). *)
Theorem month_forms_resolve_alike :
  Forall (λ m, ∀ w,
            let canonical := Returned (m.1.1, m.2) in
            result (resolve_month m.1.1 w) = canonical ∧
            result (resolve_month m.1.2 w) = canonical ∧
            result (resolve_month m.2 w) = canonical)
         calendar
  ∧ ∀ w, result (resolve_month "03" w) = Returned ("03", "MAR")
       ∧ result (resolve_month "MARCH" w) = Returned ("03", "MAR")
       ∧ result (resolve_month "MAR" w) = Returned ("03", "MAR").
Proof.
  split.
  - unfold calendar. repeat constructor; rewrite resolve_month_result; reflexivity.
  - intros w. repeat split; rewrite resolve_month_result; reflexivity.
Qed.


(** ** The remapping *)

Lemma remap_fold_other (km : list (string * string)) (c acc : dict) k :
  k ∉ km.*2 →
  foldl (λ acc kv, <[snd kv := get c (fst kv) (VStr "")]> acc) acc km !! k = acc !! k.
Proof.
  revert acc. induction km as [|[old new] rest IH]; intros acc Hk; [done|].
  simpl in *. apply not_elem_of_cons in Hk as [Hne Hk].
  rewrite IH by done. by rewrite lookup_insert_ne.
Qed.

Lemma remap_fold_dest (km : list (string * string)) (c acc : dict) old new :
  NoDup km.*2 → (old, new) ∈ km →
  foldl (λ acc kv, <[snd kv := get c (fst kv) (VStr "")]> acc) acc km !! new
  = Some (get c old (VStr "")).
Proof.
  revert acc. induction km as [|[old' new'] rest IH]; intros acc Hnd Hin.
  - by apply elem_of_nil in Hin.
  - simpl in *. apply NoDup_cons in Hnd as [Hfresh Hnd].
    apply elem_of_cons in Hin as [[= <- <-]|Hin].
    + rewrite remap_fold_other by done. by rewrite lookup_insert_eq.
    + by apply IH.
Qed.

Lemma remap_fold_dom (km : list (string * string)) (c acc : dict) :
  dom (foldl (λ acc kv, <[snd kv := get c (fst kv) (VStr "")]> acc) acc km)
  = list_to_set km.*2 ∪ dom acc.
Proof.
  revert acc. induction km as [|[old new] rest IH]; intros acc; simpl.
  - set_solver.
  - rewrite IH, dom_insert_L. set_solver.
Qed.

Lemma key_mapping_destinations_distinct : NoDup key_mapping.*2.
Proof. apply (bool_decide_unpack _). vm_compute. exact I. Qed.

Lemma remap_row_lookup (c : dict) old new :
  (old, new) ∈ key_mapping →
  remap_row key_mapping c !! new = Some (get c old (VStr "")).
Proof. apply remap_fold_dest, key_mapping_destinations_distinct. Qed.

Lemma remap_row_dom (c : dict) :
  dom (remap_row key_mapping c) = list_to_set key_mapping.*2.
Proof. unfold remap_row. rewrite remap_fold_dom. set_solver. Qed.

(** C9: whatever the merged record, the output record has exactly the
    destination keys of the table; each holds the value of its source field
    when the merged record has that field, and the empty string when not. *)
Theorem remapping_is_total (combined_row : dict) :
  let output_record := remap_row key_mapping combined_row in
  Forall (λ kv, output_record !! snd kv =
                Some (match combined_row !! fst kv with
                      | Some v => v
                      | None => VStr ""
                      end))
         key_mapping
  ∧ dom output_record = list_to_set key_mapping.*2.
Proof.
  split; [|apply remap_row_dom].
  apply Forall_forall. intros [old new] Hin. by apply remap_row_lookup.
Qed.

(** ** The output file *)

(** [append_record] dumps the stored array with the record after it. *)
Lemma append_record_run E file_name (r : dict) w :
  append_record E file_name r w
  = write_json E file_name (stored w file_name ++ [r]) w.
Proof.
  unfold append_record, stored. rewrite bind_run. unfold path_exists.
  destruct (files w !! file_name) as [prior|] eqn:Hfile.
  - rewrite bool_decide_eq_true_2 by eauto. simpl.
    rewrite bind_run. unfold read_json. by rewrite Hfile.
  - by rewrite bool_decide_eq_false_2 by (intros [? [=]]).
Qed.


(** Appending touches no other file. *)
Lemma append_record_other_files E (file_name other : string) (r : dict) (w : world) :
  other ≠ file_name →
  files (final (append_record E file_name r w)) !! other = files w !! other.
Proof.
  intros Hne. rewrite append_record_run. unfold write_json, final.
  destruct (open_error E (history w) file_name); [done|].
  cbn [snd files]. by rewrite lookup_insert_ne.
Qed.


(** ** Equality of scalars *)

Lemma py_eq_sym a b : PyValue.eq a b = PyValue.eq b a.
Proof.
  unfold PyValue.eq.
  destruct (PyValue.as_number a), (PyValue.as_number b); try done.
  - apply Z.eqb_sym.
  - apply bool_decide_ext. naive_solver.
Qed.

Lemma py_eq_trans a b c :
  PyValue.eq a b = true → PyValue.eq b c = true → PyValue.eq a c = true.
Proof.
  unfold PyValue.eq.
  destruct (PyValue.as_number a), (PyValue.as_number b),
    (PyValue.as_number c); try done.
  - intros ->%Z.eqb_eq ->%Z.eqb_eq. apply Z.eqb_refl.
  - intros ->%bool_decide_eq_true. done.
Qed.

(** ** The checkpoint list *)

Lemma unique_ids_nil : unique_ids [].
Proof. intros i j vi vj Hi. done. Qed.

Lemma unique_ids_singleton (unit : dict) : unique_ids [unit].
Proof.
  intros [|i] [|j] vi vj Hi Hj _; try done.
Qed.

Lemma any_processed_false id cp :
  any_processed id cp = Returned false →
  Forall (λ o, ∃ v, o = Some v ∧ PyValue.eq v id = false) (entry_ids cp).
Proof.
  induction cp as [|unit rest IH]; simpl; [constructor|].
  destruct (unit !! "business_unit_id") as [v|] eqn:Hv; [|done].
  destruct (PyValue.eq v id) eqn:Heq; [done|].
  intros H. constructor; [by exists v | by apply IH].
Qed.

Lemma entry_ids_cons (unit : dict) rest :
  entry_ids (unit :: rest) = unit !! "business_unit_id" :: entry_ids rest.
Proof. reflexivity. Qed.

Lemma set_total_rows_ids id total cp cp' :
  set_total_rows id total cp = Returned cp' → entry_ids cp' = entry_ids cp.
Proof.
  revert cp'. induction cp as [|unit rest IH]; intros cp'; simpl.
  - by intros [= <-].
  - destruct (unit !! "business_unit_id") as [v|] eqn:Hv; [|done].
    destruct (PyValue.eq v id).
    + intros [= <-]. rewrite !entry_ids_cons.
      rewrite lookup_insert_ne by done. by rewrite Hv.
    + destruct (set_total_rows id total rest) as [rest'| |]; try done.
      intros [= <-]. rewrite !entry_ids_cons. by rewrite Hv, (IH rest').
Qed.

Lemma set_total_rows_returns id total cp :
  any_processed id cp = Returned true →
  ∃ cp', set_total_rows id total cp = Returned cp'.
Proof.
  induction cp as [|unit rest IH]; simpl; [done|].
  destruct (unit !! "business_unit_id") as [v|]; [|done].
  destruct (PyValue.eq v id); [eauto|].
  intros H. destruct (IH H) as [rest' ->]. eauto.
Qed.

Lemma any_processed_returns id cp :
  Forall (λ unit : dict, is_Some (unit !! "business_unit_id")) cp →
  ∃ b, any_processed id cp = Returned b.
Proof.
  induction 1 as [|unit rest [v Hv] _ IH]; simpl; [eauto|].
  rewrite Hv. destruct (PyValue.eq v id); eauto.
Qed.

Lemma unique_ids_same_ids cp cp' :
  entry_ids cp' = entry_ids cp → unique_ids cp → unique_ids cp'.
Proof. unfold unique_ids. by intros ->. Qed.

Lemma unique_ids_append id (unit : dict) cp :
  unit !! "business_unit_id" = Some id →
  any_processed id cp = Returned false →
  unique_ids cp → unique_ids (cp ++ [unit]).
Proof.
  intros Hid Hnone Huniq i j vi vj Hi Hj Heq.
  apply any_processed_false in Hnone. rewrite Forall_lookup in Hnone.
  unfold entry_ids in Hi, Hj. rewrite fmap_app in Hi, Hj. simpl in *.
  rewrite Hid in Hi, Hj. fold (entry_ids cp) in Hi, Hj.
  destruct (decide (i < length (entry_ids cp))%nat) as [Hli|Hli];
    destruct (decide (j < length (entry_ids cp))%nat) as [Hlj|Hlj].
  - rewrite lookup_app_l in Hi, Hj by done. by eapply Huniq.
  - rewrite lookup_app_l in Hi by done.
    rewrite lookup_app_r in Hj by lia.
    destruct (j - length (entry_ids cp))%nat; [|done]. injection Hj as <-.
    destruct (Hnone _ _ Hi) as (v & [= <-] & Hv). congruence.
  - rewrite lookup_app_l in Hj by done.
    rewrite lookup_app_r in Hi by lia.
    destruct (i - length (entry_ids cp))%nat; [|done]. injection Hi as <-.
    destruct (Hnone _ _ Hj) as (v & [= <-] & Hv).
    rewrite py_eq_sym in Heq. congruence.
  - rewrite lookup_app_r in Hi, Hj by lia.
    destruct (i - length (entry_ids cp))%nat eqn:Ei; [|done].
    destruct (j - length (entry_ids cp))%nat eqn:Ej; [|done]. lia.
Qed.

Lemma checkpoint_entry_id id name total :
  checkpoint_entry id name total !! "business_unit_id" = Some id.
Proof.
  unfold checkpoint_entry.
  rewrite !lookup_insert_ne by done. by rewrite lookup_insert_eq.
Qed.

Lemma update_checkpoint_unique id name total cp updated :
  unique_ids cp →
  update_checkpoint id name total cp = Returned updated →
  unique_ids updated ∧
  (updated = cp ++ [checkpoint_entry id name total]
   ∨ entry_ids updated = entry_ids cp).
Proof.
  intros Huniq. unfold update_checkpoint.
  destruct (any_processed id cp) as [[]| |] eqn:Hany; try done.
  - intros Hset. pose proof (set_total_rows_ids _ _ _ _ Hset) as Hids.
    split; [|by right]. by eapply unique_ids_same_ids.
  - intros [= <-]. split; [|by left].
    eapply unique_ids_append; eauto using checkpoint_entry_id.
Qed.

Lemma update_checkpoint_returns id name total cp :
  Forall is_Some (entry_ids cp) →
  ∃ updated, update_checkpoint id name total cp = Returned updated.
Proof.
  intros Hwf. unfold entry_ids in Hwf. rewrite Forall_fmap in Hwf.
  unfold update_checkpoint.
  destruct (any_processed_returns id _ Hwf) as [[] Hany]; rewrite Hany; [|eauto].
  by apply set_total_rows_returns.
Qed.

(** A list built from the empty list by checkpoint updates alone carries
    an id in every entry, and no id twice. *)
Lemma script_checkpoint_sound cp :
  script_checkpoint cp → Forall is_Some (entry_ids cp) ∧ unique_ids cp.
Proof.
  induction 1 as [|id name total cp updated _ [IHwf IHuniq] Hupd].
  - split; [constructor | apply unique_ids_nil].
  - destruct (update_checkpoint_unique _ _ _ _ _ IHuniq Hupd) as [Huniq Hshape].
    split; [|done]. destruct Hshape as [->| ->]; [|done].
    unfold entry_ids in *. rewrite fmap_app. apply Forall_app. split; [done|].
    repeat constructor. simpl. rewrite checkpoint_entry_id. eauto.
Qed.

(** C6: the empty checkpoint has at most one entry per unit id, and an
    update of a checkpoint that has, gives one that has: it either appends
    the entry of a unit no entry of which is there, or leaves the ids as they
    are, position by position; it returns whenever every entry carries its
    id. *)
Theorem checkpoint_update_keeps_ids_unique
    (business_unit_id business_unit_name : value) (total_rows_processed : Z)
    (processed_units : list dict) :
  unique_ids processed_units →
  let update :=
    update_checkpoint business_unit_id business_unit_name
                      total_rows_processed processed_units in
  unique_ids []
  ∧ (Forall is_Some (entry_ids processed_units) →
     ∃ updated, update = Returned updated)
  ∧ ∀ updated, update = Returned updated →
      unique_ids updated ∧
      (updated = processed_units ++
                 [checkpoint_entry business_unit_id business_unit_name
                                   total_rows_processed]
       ∨ entry_ids updated = entry_ids processed_units).
Proof.
  intros Huniq update. subst update.
  split; [apply unique_ids_nil|]. split.
  - apply update_checkpoint_returns.
  - intros updated. by apply update_checkpoint_unique.
Qed.

(** The theorem at a checkpoint of one entry whose unit is processed again:
    the entry is updated in place. *)
Lemma checkpoint_update_keeps_ids_unique_witness :
  let cp := [checkpoint_entry (VStr "u1") (VStr "ACME") 2] in
  unique_ids cp ∧
  ∀ updated, update_checkpoint (VStr "u1") (VStr "ACME") 5 cp = Returned updated →
             unique_ids updated.
Proof.
  intros cp. split; [apply unique_ids_singleton|].
  intros updated Hupd.
  exact (proj1 (proj2 (proj2 (checkpoint_update_keeps_ids_unique
                                (VStr "u1") (VStr "ACME") 5 cp
                                (unique_ids_singleton _))) updated Hupd)).
Defined.


(** ** Substrings *)

Lemma append_cons c (s t : string) : String c s +:+ t = String c (s +:+ t).
Proof. reflexivity. Qed.

Lemma prefix_append (a b : string) :
  String.prefix a b = true ↔ ∃ after, b = a +:+ after.
Proof.
  revert b. induction a as [|c a IH]; intros [|c' b]; simpl.
  - split; [intros _; by exists "" | done].
  - split; [intros _; by exists (String c' b) | done].
  - split; [done | intros [after [=]]].
  - destruct (ascii_dec c c') as [->|Hne].
    + rewrite IH. split; intros [after H]; exists after.
      * by rewrite append_cons, H.
      * rewrite append_cons in H. by injection H.
    + split; [done|]. intros [after H]. rewrite append_cons in H.
      injection H as -> _. done.
Qed.

Lemma contains_nil needle : Py.contains needle "" = String.prefix needle "" || false.
Proof. reflexivity. Qed.

Lemma contains_cons needle c hay :
  Py.contains needle (String c hay)
  = String.prefix needle (String c hay) || Py.contains needle hay.
Proof. reflexivity. Qed.

Lemma contains_substring (needle hay : string) :
  Py.contains needle hay = true ↔ substring_of needle hay.
Proof.
  unfold substring_of. induction hay as [|c hay IH].
  - rewrite contains_nil, orb_false_r, prefix_append. split.
    + intros [after H]. by exists "", after.
    + intros ([|c before] & after & H); [by exists after | done].
  - rewrite contains_cons, orb_true_iff, prefix_append, IH. split.
    + intros [[after H]|(before & after & H)].
      * by exists "", after.
      * exists (String c before), after. by rewrite append_cons, H.
    + intros ([|c' before] & after & H).
      * left. by exists after.
      * right. exists before, after. rewrite append_cons in H. by injection H.
Qed.

(** ** The unit resolver *)

Lemma any_name_in_text names s :
  any_name_in names (VStr s)
  = Returned (existsb (λ name, Py.contains name s) names).
Proof.
  induction names as [|name rest IH]; simpl; [done|].
  destruct (Py.contains name s); [done|]. exact IH.
Qed.

Lemma name_hit_spec names (business_unit : dict) :
  name_hit names business_unit = true ↔
  ∃ term s, term ∈ names ∧ get business_unit "name" (VStr "Unknown") = VStr s
            ∧ substring_of term s.
Proof.
  unfold name_hit. split.
  - destruct (get business_unit "name" (VStr "Unknown")) as [| | |s]; try done.
    intros (term & Hin & Hc)%existsb_exists.
    exists term, s. rewrite <- list_elem_of_In in Hin.
    by rewrite <- contains_substring.
  - intros (term & s & Hin & -> & Hsub). apply existsb_exists.
    exists term. rewrite <- list_elem_of_In. by rewrite contains_substring.
Qed.

Lemma select_matching_returns names units w :
  Forall text_named units →
  ∃ w', select_matching names units w
        = (Returned (List.filter (name_hit names) units), w').
Proof.
  intros Htext. unfold select_matching.
  match goal with |- context [for_fold _ _ ?b] => set (body := b) end.
  enough (∀ acc w, ∃ w', for_fold units acc body w
                         = (Returned (acc ++ List.filter (name_hit names) units), w'))
    as H by apply (H []).
  clear w. induction Htext as [|bu rest [s Hs] _ IH]; intros acc w.
  - exists w. by rewrite for_fold_nil, app_nil_r.
  - rewrite for_fold_cons.
    assert (∃ w1, body acc bu w
                  = (Returned (if name_hit names bu then acc ++ [bu] else acc), w1))
      as [w1 ->].
    { unfold body, name_hit. step. rewrite Hs, any_name_in_text.
      destruct (existsb _ names); eauto. }
    simpl. destruct (name_hit names bu).
    + edestruct (IH (acc ++ [bu])) as [w' ->]. exists w'. by rewrite <- app_assoc.
    + apply IH.
Qed.

(** C2, as the script has it: among units whose name is text, a unit is
    selected exactly when one of the terms of the upper-cased input, stripped
    of surrounding blanks, occurs in the unit's name as it is stored.  The
    name itself is not case-folded. *)
Theorem unit_selected_iff_term_in_stored_name `{!Text}
    (input_line : string) (business_units : list dict) (w : world) :
  Forall text_named business_units →
  let business_unit_names := business_unit_names_of (str_upper input_line) in
  ∃ matching,
    result (select_matching business_unit_names business_units w)
    = Returned matching ∧
    ∀ business_unit,
      business_unit ∈ matching ↔
      business_unit ∈ business_units ∧
      ∃ term s, term ∈ business_unit_names ∧
                get business_unit "name" (VStr "Unknown") = VStr s ∧
                substring_of term s.
Proof.
  intros Htext names.
  destruct (select_matching_returns names business_units w Htext) as [w' ->].
  eexists. split; [reflexivity|]. intros bu.
  rewrite list_elem_of_In, filter_In, <- list_elem_of_In, name_hit_spec. done.
Qed.

Lemma unit_selected_iff_term_in_stored_name_witness :
  ∃ matching,
    result (select_matching (business_unit_names_of (str_upper "acme, north"))
              [<["name" := VStr "ACME NORTH"]> ∅ ; <["name" := VStr "Acme South"]> ∅]
              (World [] ∅ []))
    = Returned matching ∧
    ∀ business_unit,
      business_unit ∈ matching ↔
      business_unit ∈ [<["name" := VStr "ACME NORTH"]> (∅ : dict);
                       <["name" := VStr "Acme South"]> ∅] ∧
      ∃ term s, term ∈ business_unit_names_of (str_upper "acme, north") ∧
                get business_unit "name" (VStr "Unknown") = VStr s ∧
                substring_of term s.
Proof.
  apply (unit_selected_iff_term_in_stored_name "acme, north").
  repeat constructor; eexists; vm_compute; reflexivity.
Defined.

(** C2 as the claim words it fails, whatever [str.upper] and [str.strip] do
    outside ASCII: with the input [acme], the unit named [Acme South]
    contains the term when case is ignored, and is not selected. *)
Lemma case_insensitive_selection_fails :
  ¬ ∃ T : Text, agrees_on_ascii T ∧
      ∀ (input_line unit_name : string),
        any_name_in (business_unit_names_of (str_upper input_line))
                    (VStr unit_name)
        = Returned true ↔
        ∃ term, term ∈ map str_strip (Py.split "," input_line) ∧
                matches_ignoring_case term unit_name = true.
Proof.
  intros (T & Hascii & H). destruct (H "acme" "Acme South") as [_ Hsel].
  assert (Hupper : ∀ s, Py.is_ascii s = true → str_upper s = Py.ascii_upper s)
    by (intros s Hs; by destruct (Hascii s Hs)).
  assert (Hstrip : ∀ s, Py.is_ascii s = true → str_strip s = Py.ascii_strip s)
    by (intros s Hs; by destruct (Hascii s Hs)).
  assert (Hfalse : any_name_in (business_unit_names_of (str_upper "acme"))
                     (VStr "Acme South") = Returned false).
  { unfold business_unit_names_of. rewrite (Hupper "acme") by reflexivity.
    change (Py.split "," (Py.ascii_upper "acme")) with ["ACME"]. cbn [map].
    rewrite (Hstrip "ACME") by reflexivity. vm_compute. reflexivity. }
  rewrite Hsel in Hfalse; [discriminate|].
  exists "acme". split.
  - change (Py.split "," "acme") with ["acme"]. cbn [map].
    rewrite (Hstrip "acme") by reflexivity.
    change (Py.ascii_strip "acme") with "acme". apply list_elem_of_here.
  - unfold matches_ignoring_case.
    rewrite (Hupper "acme"), (Hupper "Acme South") by reflexivity.
    vm_compute. reflexivity.
Qed.

(** ** The authenticator *)

Lemma get_access_token_with_token E w reply token :
  client_init E (ClientInit :: history w) = None →
  token_reply E (TokenRequest :: ClientInit :: history w) = TokenResult reply →
  reply !! "access_token" = Some token →
  result (get_access_token E w) = Returned token.
Proof.
  intros Hinit Hreply Htoken. unfold get_access_token. step.
  rewrite Hinit. simpl. rewrite Hreply. simpl. by rewrite Htoken.
Qed.

Lemma get_access_token_without_token E w reply :
  client_init E (ClientInit :: history w) = None →
  token_reply E (TokenRequest :: ClientInit :: history w) = TokenResult reply →
  reply !! "access_token" = None →
  result (get_access_token E w) = SysExit 1.
Proof.
  intros Hinit Hreply Htoken. unfold get_access_token. step.
  rewrite Hinit. simpl. rewrite Hreply. simpl. by rewrite Htoken.
Qed.

(** C3, where the script departs from it: when the token request raises, the
    handler prints the error and the function falls off its end, so the
    caller gets Python's None, and the process goes on. *)
Theorem get_access_token_returns_none_on_exception E w e :
  client_init E (ClientInit :: history w) = None →
  token_reply E (TokenRequest :: ClientInit :: history w) = TokenError e →
  get_access_token E w
  = (Returned VNull,
     World (stdin w) (files w)
           (Print ("Dataverse: Error during authentication: " +:+ exn_text e)
            :: TokenRequest :: ClientInit :: history w)).
Proof.
  intros Hinit Hreply. unfold get_access_token. step.
  rewrite Hinit. simpl. by rewrite Hreply.
Qed.

Lemma get_access_token_returns_none_on_exception_witness :
  result (get_access_token
            (token_env (TokenError (Exn RequestException "connection refused")))
            (World [] ∅ []))
  = Returned VNull.
Proof.
  unfold result.
  rewrite (get_access_token_returns_none_on_exception
             (token_env (TokenError (Exn RequestException "connection refused")))
             (World [] ∅ []) (Exn RequestException "connection refused")
             eq_refl eq_refl).
  reflexivity.
Defined.


(** ** Runs that end at the month prompt *)

#[local] Arguments lookup_item : simpl never.

Lemma history_cons (a : event) l new h : l = new ++ h → a :: l = (a :: new) ++ h.
Proof. by intros ->. Qed.

Lemma history_nil (h : list event) : h = [] ++ h.
Proof. reflexivity. Qed.

Ltac history := unfold extends_by; simpl; repeat (eapply history_cons); apply history_nil.

(** With a month that is not in the table the run ends at line 101, or
    earlier in the authenticator; the calls it has made are those of the
    authenticator, and it has written no file. *)
Lemma invalid_month_run `{!Text} E w names year line rest :
  stdin w = names :: year :: line :: rest →
  lookup_item month_mapping (normalize_month line) = None →
  let run := fetch_business_units_and_related_data E w in
  (result run = SysExit 1 ∨
   ∃ e, result run = Raised e ∧ client_init E (ClientInit :: history w) = Some e)
  ∧ files (final run) = files w
  ∧ ∃ new, extends_by new w (final run) ∧ network_calls new = token_traffic E w.
Proof.
  intros Hin Hmonth. destruct w as [inp fs h]. simpl in Hin. subst inp.
  unfold fetch_business_units_and_related_data, get_access_token, token_traffic.
  step.
  destruct (client_init E (ClientInit :: h)) as [e|] eqn:Hinit; simpl.
  { split; [right; eauto|]. split; [done|]. eexists. split; [history|]. done. }
  destruct (token_reply E (TokenRequest :: ClientInit :: h)) as [reply|e]; simpl.
  - destruct (reply !! "access_token") as [token|]; simpl.
    + unfold input, resolve_month. simpl. rewrite Hmonth. step.
      split; [by left|]. split; [done|]. eexists. split; [history|]. done.
    + split; [by left|]. split; [done|]. eexists. split; [history|]. done.
  - unfold input, resolve_month. simpl. rewrite Hmonth. step.
    split; [by left|]. split; [done|]. eexists. split; [history|]. done.
Qed.

(** C1, as the script has it: with an invalid month the process ends
    without any Dataverse query or image download; the network calls of the
    run are those of the authenticator, made before the prompts: the
    construction of the MSAL client and, if the client could be built, the
    one token request. *)
Theorem invalid_month_ends_before_any_query `{!Text} E w names year line rest :
  stdin w = names :: year :: line :: rest →
  lookup_item month_mapping (normalize_month line) = None →
  let run := fetch_business_units_and_related_data E w in
  terminated (result run) ∧
  ∃ new, extends_by new w (final run) ∧
         network_calls new = token_traffic E w ∧
         Forall (λ ev, is_http_get ev = false) new.
Proof.
  intros Hin Hmonth run.
  destruct (invalid_month_run E w names year line rest Hin Hmonth)
    as (Hend & _ & new & Hnew & Htraffic).
  fold run in Hend, Hnew. split.
  - destruct Hend as [->|(e & -> & _)]; exact I.
  - exists new. split; [done|]. split; [done|].
    apply Forall_forall. intros ev Hev.
    destruct (is_http_get ev) eqn:Hget; [|done].
    assert (Hnet : ev ∈ network_calls new).
    { unfold network_calls. rewrite list_elem_of_In, filter_In, <- list_elem_of_In.
      split; [done|]. by destruct ev. }
    rewrite Htraffic in Hnet. unfold token_traffic in Hnet.
    destruct (client_init E _);
      repeat (apply elem_of_cons in Hnet as [->|Hnet]; [done|]);
      by apply elem_of_nil in Hnet.
Qed.

Lemma invalid_month_ends_before_any_query_witness :
  let E := token_env (TokenResult (<["access_token" := VStr "t"]> ∅)) in
  let w := World ["ACME"; "2024"; "13"] ∅ [] in
  let run := fetch_business_units_and_related_data E w in
  terminated (result run) ∧
  ∃ new, extends_by new w (final run) ∧
         network_calls new = token_traffic E w ∧
         Forall (λ ev, is_http_get ev = false) new.
Proof.
  apply (invalid_month_ends_before_any_query _ _ "ACME" "2024" "13" []).
  - reflexivity.
  - vm_compute. reflexivity.
Defined.

(** C1 as the claim words it fails, whatever [str.upper] and [str.strip] do
    outside ASCII: the token request is a network call, and it is made
    before the month is read. *)
Lemma invalid_month_follows_token_request :
  ¬ ∃ T : Text, agrees_on_ascii T ∧
      ∀ E w names year line rest,
        stdin w = names :: year :: line :: rest →
        lookup_item month_mapping (normalize_month line) = None →
        ∀ new,
          extends_by new w (final (fetch_business_units_and_related_data E w)) →
          Forall (λ ev, is_network_call ev = false) new.
Proof.
  intros (T & Hascii & H).
  pose (E := token_env (TokenResult (<["access_token" := VStr "t"]> ∅))).
  pose (w := World ["ACME"; "2024"; "13"] ∅ []).
  assert (Hmonth : lookup_item month_mapping (normalize_month "13") = None).
  { unfold normalize_month. destruct (Hascii "13" eq_refl) as [_ ->].
    change (Py.ascii_strip "13") with "13".
    destruct (Hascii "13" eq_refl) as [-> _]. reflexivity. }
  destruct (invalid_month_run E w "ACME" "2024" "13" [] eq_refl Hmonth)
    as (_ & _ & new & Hnew & Htraffic).
  specialize (H E w "ACME" "2024" "13" [] eq_refl Hmonth new Hnew).
  rewrite Forall_forall in H.
  assert (Hreq : TokenRequest ∈ network_calls new).
  { rewrite Htraffic. apply list_elem_of_here. }
  unfold network_calls in Hreq.
  rewrite list_elem_of_In, filter_In, <- list_elem_of_In in Hreq.
  destruct Hreq as [Hreq _]. specialize (H TokenRequest Hreq). discriminate H.
Qed.

(** C10: a month number written with one digit is not a key of the table,
    and the process ends there (with status 1, unless the MSAL client could
    not even be built); the keys of the table are exactly the two-digit
    numbers, the full names and the abbreviations. *)
Theorem month_without_leading_zero_is_rejected `{!Text}
    (d : nat) E w names year line rest :
  (1 ≤ d ≤ 9)%nat →
  stdin w = names :: year :: line :: rest →
  normalize_month line = pretty d →
  let run := fetch_business_units_and_related_data E w in
  lookup_item month_mapping (pretty d) = None
  ∧ terminated (result run)
  ∧ (result run = SysExit 1 ∨
     ∃ e, result run = Raised e ∧ client_init E (ClientInit :: history w) = Some e)
  ∧ ∀ s, is_Some (lookup_item month_mapping s) ↔ s ∈ accepted_forms.
Proof.
  intros Hd Hin Hline run.
  assert (Hkey : lookup_item month_mapping (pretty d) = None).
  { assert (Hcase : In d (seq 1 9)) by (apply in_seq; lia).
    simpl in Hcase.
    repeat (destruct Hcase as [<-|Hcase]; [vm_compute; reflexivity|]).
    destruct Hcase. }
  split; [exact Hkey|].
  rewrite <- Hline in Hkey.
  destruct (invalid_month_run E w names year line rest Hin Hkey) as (Hend & _).
  fold run in Hend. split; [|split; [exact Hend | apply lookup_item_accepts]].
  destruct Hend as [->|(e & -> & _)]; exact I.
Qed.

Lemma month_without_leading_zero_is_rejected_witness :
  let run :=
    fetch_business_units_and_related_data
      (token_env (TokenResult (<["access_token" := VStr "t"]> ∅)))
      (World ["ACME"; "2024"; "3"] ∅ []) in
  lookup_item month_mapping "3" = None ∧ result run = SysExit 1.
Proof.
  destruct (month_without_leading_zero_is_rejected 3
              (token_env (TokenResult (<["access_token" := VStr "t"]> ∅)))
              (World ["ACME"; "2024"; "3"] ∅ []) "ACME" "2024" "3" [])
    as (Hkey & _ & Hend & _).
  - lia.
  - reflexivity.
  - vm_compute. reflexivity.
  - split; [exact Hkey|]. vm_compute. reflexivity.
Defined.


(** ** Base64 *)

Lemma list_ind3 {A} (P : list A → Prop) :
  P [] → (∀ a, P [a]) → (∀ a b, P [a; b]) →
  (∀ a b c rest, P rest → P (a :: b :: c :: rest)) →
  ∀ l, P l.
Proof.
  intros H0 H1 H2 H3. fix IH 1.
  intros [|a [|b [|c rest]]]; [exact H0 | apply H1 | apply H2 | apply H3, IH].
Qed.

Lemma b64_digit_values :
  Forall (λ k, b64_value (b64_digit k) = k ∧ Ascii.eqb (b64_digit k) "=" = false)
         (N.of_nat <$> seq 0 64).
Proof. apply (bool_decide_unpack _). vm_compute. exact I. Qed.

Lemma b64_digit_value k :
  (k < 64)%N →
  b64_value (b64_digit k) = k ∧ Ascii.eqb (b64_digit k) "=" = false.
Proof.
  intros Hk. pose proof b64_digit_values as H. rewrite Forall_forall in H.
  apply H. rewrite <- (N2Nat.id k). apply list_elem_of_fmap_2.
  apply list_elem_of_In, in_seq. lia.
Qed.

Lemma to_byte_to_N a : to_byte (Byte.to_N a) = a.
Proof. unfold to_byte. by rewrite Byte.of_to_N. Qed.

Ltac div_lia := zify; Z.to_euclidean_division_equations; lia.

Lemma b64_group_of_three a b c :
  let n := (Byte.to_N a * 65536 + Byte.to_N b * 256 + Byte.to_N c)%N in
  b64_group (b64_digit (n / 262144)) (b64_digit ((n / 4096) mod 64))
            (b64_digit ((n / 64) mod 64)) (b64_digit (n mod 64))
  = [a; b; c].
Proof.
  intros n. pose proof (Byte.to_N_bounded a). pose proof (Byte.to_N_bounded b).
  pose proof (Byte.to_N_bounded c).
  unfold b64_group.
  destruct (b64_digit_value (n / 262144)) as [-> _]; [subst n; div_lia|].
  destruct (b64_digit_value ((n / 4096) mod 64)) as [-> _]; [div_lia|].
  destruct (b64_digit_value ((n / 64) mod 64)) as [-> ->]; [div_lia|].
  destruct (b64_digit_value (n mod 64)) as [-> ->]; [div_lia|].
  replace (n / 262144 * 262144 + (n / 4096) mod 64 * 4096
           + (n / 64) mod 64 * 64 + n mod 64)%N with n by (subst n; div_lia).
  replace (n / 65536)%N with (Byte.to_N a) by (subst n; div_lia).
  replace ((n / 256) mod 256)%N with (Byte.to_N b) by (subst n; div_lia).
  replace (n mod 256)%N with (Byte.to_N c) by (subst n; div_lia).
  by rewrite !to_byte_to_N.
Qed.

Lemma b64_group_of_two a b :
  let n := (Byte.to_N a * 65536 + Byte.to_N b * 256)%N in
  b64_group (b64_digit (n / 262144)) (b64_digit ((n / 4096) mod 64))
            (b64_digit ((n / 64) mod 64)) "="
  = [a; b].
Proof.
  intros n. pose proof (Byte.to_N_bounded a). pose proof (Byte.to_N_bounded b).
  unfold b64_group.
  destruct (b64_digit_value (n / 262144)) as [-> _]; [subst n; div_lia|].
  destruct (b64_digit_value ((n / 4096) mod 64)) as [-> _]; [div_lia|].
  destruct (b64_digit_value ((n / 64) mod 64)) as [-> ->]; [div_lia|].
  change (b64_value "=") with 0%N. change (Ascii.eqb "=" "=") with true.
  replace (n / 262144 * 262144 + (n / 4096) mod 64 * 4096
           + (n / 64) mod 64 * 64 + 0)%N with n by (subst n; div_lia).
  replace (n / 65536)%N with (Byte.to_N a) by (subst n; div_lia).
  replace ((n / 256) mod 256)%N with (Byte.to_N b) by (subst n; div_lia).
  simpl. by rewrite !to_byte_to_N.
Qed.

Lemma b64_group_of_one a :
  let n := (Byte.to_N a * 65536)%N in
  b64_group (b64_digit (n / 262144)) (b64_digit ((n / 4096) mod 64)) "=" "="
  = [a].
Proof.
  intros n. pose proof (Byte.to_N_bounded a).
  unfold b64_group.
  destruct (b64_digit_value (n / 262144)) as [-> _]; [subst n; div_lia|].
  destruct (b64_digit_value ((n / 4096) mod 64)) as [-> _]; [div_lia|].
  change (b64_value "=") with 0%N. change (Ascii.eqb "=" "=") with true.
  replace (n / 262144 * 262144 + (n / 4096) mod 64 * 4096 + 0 * 64 + 0)%N
    with n by (subst n; div_lia).
  replace (n / 65536)%N with (Byte.to_N a) by (subst n; div_lia).
  simpl. by rewrite to_byte_to_N.
Qed.

(** Decoding what [b64encode] wrote gives the bytes back. *)
Lemma b64_round_trip (content : list byte) :
  b64decode (b64encode content) = content.
Proof.
  induction content as [|a|a b|a b c rest IH] using list_ind3.
  - reflexivity.
  - change (b64_group (b64_digit (Byte.to_N a * 65536 / 262144))
              (b64_digit ((Byte.to_N a * 65536 / 4096) mod 64)) "=" "=" ++ []
            = [a]).
    by rewrite (b64_group_of_one a).
  - change (b64_group
              (b64_digit ((Byte.to_N a * 65536 + Byte.to_N b * 256) / 262144))
              (b64_digit (((Byte.to_N a * 65536 + Byte.to_N b * 256) / 4096) mod 64))
              (b64_digit (((Byte.to_N a * 65536 + Byte.to_N b * 256) / 64) mod 64))
              "=" ++ []
            = [a; b]).
    by rewrite (b64_group_of_two a b).
  - change (b64_group
              (b64_digit ((Byte.to_N a * 65536 + Byte.to_N b * 256 + Byte.to_N c)
                          / 262144))
              (b64_digit (((Byte.to_N a * 65536 + Byte.to_N b * 256 + Byte.to_N c)
                           / 4096) mod 64))
              (b64_digit (((Byte.to_N a * 65536 + Byte.to_N b * 256 + Byte.to_N c)
                           / 64) mod 64))
              (b64_digit ((Byte.to_N a * 65536 + Byte.to_N b * 256 + Byte.to_N c)
                          mod 64))
              ++ b64decode (b64encode rest)
            = a :: b :: c :: rest).
    by rewrite (b64_group_of_three a b c), IH.
Qed.

(** ** The image loop *)

Lemma base64_key_not_blob i j : base64_key i ≠ blob_attribute j.
Proof. unfold base64_key, blob_attribute. discriminate. Qed.




Lemma blob_present_agrees (cur row : dict) i :
  cur !! blob_attribute i = row !! blob_attribute i →
  blob_present cur i = blob_present row i ∧ image_url_of cur i = image_url_of row i.
Proof. unfold blob_present, image_url_of, get. by intros ->. Qed.






Lemma combine_lookup (business_unit row : dict) k :
  business_unit !! k = None → combine business_unit row !! k = row !! k.
Proof.
  intros Hbu. unfold combine. rewrite lookup_union, Hbu.
  by destruct (row !! k).
Qed.




Lemma get_combine (business_unit row : dict) k d :
  business_unit !! k = None → get (combine business_unit row) k d = get row k d.
Proof. intros Hbu. unfold get. by rewrite combine_lookup. Qed.


Ltac key_mapped := apply (bool_decide_unpack _); vm_compute; exact I.




(** ** Programs that respect a relation between worlds *)

Section Respects.
Context (R : world → world → Prop) `{!PreOrder R}.

Lemma respects_still {A} (c : M A) :
  (∀ w, final (c w) = w) → respects R c.
Proof. intros H w. by rewrite H. Qed.

Lemma respects_ret {A} (a : A) : respects R (mret a).
Proof. by apply respects_still. Qed.

Lemma respects_lift {A} (r : outcome A) : respects R (lift r).
Proof. by apply respects_still. Qed.

Lemma respects_exit {A} code : respects R (exit (A := A) code).
Proof. by apply respects_still. Qed.

Lemma respects_raise {A} e : respects R (raise (A := A) e).
Proof. by apply respects_still. Qed.

Lemma respects_ask {A} (oracle : list event → A) : respects R (ask oracle).
Proof. by apply respects_still. Qed.

Lemma respects_path_exists path : respects R (path_exists path).
Proof. by apply respects_still. Qed.

Lemma respects_read_json path : respects R (read_json path).
Proof.
  apply respects_still. intros w. unfold read_json, final.
  by destruct (files w !! path).
Qed.

Lemma respects_bind {A B} (c : M A) (k : A → M B) :
  respects R c → (∀ a, respects R (k a)) → respects R (c ≫= k).
Proof.
  intros Hc Hk w. unfold final. rewrite bind_run.
  specialize (Hc w). unfold final in Hc.
  destruct (c w) as [[a| |] w1]; simpl in *; [|done..].
  etrans; [exact Hc | apply Hk].
Qed.

(** The rule of [≫=] at one world, when what follows depends on how the
    first part ended. *)
Lemma related_bind {A B} (c : M A) (k : A → M B) w :
  R w (final (c w)) →
  (∀ a w1, c w = (Returned a, w1) → R w1 (final (k a w1))) →
  R w (final ((c ≫= k) w)).
Proof.
  intros Hc Hk. unfold final in *. rewrite bind_run.
  destruct (c w) as [[a| |] w1] eqn:Hrun; simpl in *; [|done..].
  etrans; [exact Hc | by apply Hk].
Qed.

Lemma respects_bind_lift {A B} (r : outcome A) (k : A → M B) :
  (∀ a, r = Returned a → respects R (k a)) → respects R (lift r ≫= k).
Proof.
  intros Hk w. unfold final. rewrite bind_run. unfold lift.
  destruct r as [a| |]; simpl; [|done..]. by apply Hk.
Qed.

Lemma respects_try_except {A} (body : M A) (handler : exn → M A) :
  respects R body → (∀ e, respects R (handler e)) →
  respects R (try_except body handler).
Proof.
  intros Hb Hh w. unfold final, try_except.
  specialize (Hb w). unfold final in Hb.
  destruct (body w) as [[a| |e] w1]; simpl in *; [done..|].
  etrans; [exact Hb | apply Hh].
Qed.

Lemma related_try_except {A} (body : M A) (handler : exn → M A) w :
  R w (final (body w)) → (∀ e, respects R (handler e)) →
  R w (final (try_except body handler w)).
Proof.
  intros Hb Hh. unfold final, try_except in *.
  destruct (body w) as [[a| |e] w1]; simpl in *; [done..|].
  etrans; [exact Hb | apply Hh].
Qed.

Lemma respects_for_fold {A S} (xs : list A) (state : S) (body : S → A → M S) :
  (∀ s x, x ∈ xs → respects R (body s x)) → respects R (for_fold xs state body).
Proof.
  revert state. induction xs as [|x rest IH]; intros state Hbody.
  - apply respects_ret.
  - simpl. apply respects_bind.
    + apply Hbody. apply list_elem_of_here.
    + intros s. apply IH. intros s' y Hy. apply Hbody.
      by apply list_elem_of_further.
Qed.

Lemma respects_for_each {A} (xs : list A) (body : A → M unit) :
  (∀ x, x ∈ xs → respects R (body x)) → respects R (for_each xs body).
Proof. intros Hbody. apply respects_for_fold. intros _ x. apply Hbody. Qed.

Lemma respects_for_map {A B} (xs : list A) (body : A → M B) :
  (∀ x, respects R (body x)) → respects R (for_map xs body).
Proof.
  intros Hbody. induction xs as [|x rest IH]; simpl.
  - apply respects_ret.
  - apply respects_bind; [apply Hbody|]. intros y.
    apply respects_bind; [apply IH|]. intros ys. apply respects_ret.
Qed.
End Respects.

Lemma observed_emit R `{!Observer R} ev :
  is_detail_query ev = false → respects R (emit ev).
Proof. intros Hev w. by apply observer_emit. Qed.

Lemma observed_print R `{!Observer R} text : respects R (print text).
Proof. by apply observed_emit. Qed.

Lemma observed_input R `{!Observer R} prompt : respects R (input prompt).
Proof. intros w. apply observer_input. Qed.

(** Takes a program apart into pieces that respect the relation, and leaves
    those it does not know. *)
Ltac respect :=
  cbv zeta;
  repeat
    match goal with
    | |- respects ?R (mret _) => apply (respects_ret R)
    | |- respects ?R (lift _) => apply (respects_lift R)
    | |- respects ?R (exit _) => apply (respects_exit R)
    | |- respects ?R (raise _) => apply (respects_raise R)
    | |- respects ?R (ask _) => apply (respects_ask R)
    | |- respects ?R (path_exists _) => apply (respects_path_exists R)
    | |- respects ?R (read_json _) => apply (respects_read_json R)
    | |- respects ?R (print _) => apply (observed_print R)
    | |- respects ?R (input _) => apply (observed_input R)
    | |- respects ?R (emit _) => apply (observed_emit R); [reflexivity]
    | |- respects ?R (mbind _ (lift _)) =>
        apply (respects_bind_lift R); intros ? _
    | |- respects ?R (mbind _ _) => apply (respects_bind R); [|intros ?]
    | |- respects ?R (try_except _ _) =>
        apply (respects_try_except R); [|intros ?]
    | |- respects _ (match ?x with _ => _ end) => destruct x
    end.

(** ** What every observer lets pass *)

Section Observed.
Context (R : world → world → Prop) `{!Observer R} (E : env).

Lemma observed_get_access_token : respects R (get_access_token E).
Proof. unfold get_access_token. respect. Qed.

Lemma observed_resolve_month month_input : respects R (resolve_month month_input).
Proof. unfold resolve_month. respect. Qed.

Lemma observed_rows_of reply : respects R (rows_of reply).
Proof. unfold rows_of. respect. Qed.

Lemma observed_select_matching names business_units :
  respects R (select_matching names business_units).
Proof.
  unfold select_matching. apply (respects_for_fold R).
  intros matching business_unit _. respect.
Qed.

Lemma observed_download image_url :
  respects R (download_and_convert_to_base64 E image_url).
Proof. unfold download_and_convert_to_base64. respect. Qed.

Lemma observed_process_slot (row : dict) i : respects R (process_slot E row i).
Proof. unfold process_slot. respect. apply observed_download. Qed.

Lemma observed_enrich_rows related_data : respects R (enrich_rows E related_data).
Proof.
  unfold enrich_rows. apply (respects_for_map R). intros row.
  unfold enrich_row. apply (respects_for_fold R). intros cur i _.
  apply observed_process_slot.
Qed.

(** [remap_and_save_data], given that the relation lets the appended
    records and the checkpoint update of this unit pass. *)
Lemma observed_remap_and_save
    year_input path related_data (business_unit : dict) month_name :
  (∀ file_name combined_row,
     respects R (append_record E file_name (remap_row key_mapping combined_row))) →
  (∀ total,
     respects R (record_processed E path
                   (get business_unit "businessunitid" (VStr "unknown_id"))
                   (get business_unit "name" (VStr "Unknown")) total)) →
  respects R (remap_and_save_data E year_input path related_data business_unit
                                  key_mapping month_name).
Proof.
  intros Happend Hrecord. unfold remap_and_save_data. cbv zeta.
  apply (respects_bind R).
  - destruct related_data; respect.
    apply (respects_for_fold R). intros total indexed_row _.
    unfold save_row. respect. apply Happend.
  - intros total. apply (respects_bind R); [apply Hrecord|]. intros _. respect.
Qed.

(** [process_unit], given in addition that the relation lets the detail
    query of the unit pass when the unit is not skipped. *)
Lemma observed_process_unit
    year_input month_numeric month_name path processed_units
    (business_unit : dict) :
  let business_unit_id := get business_unit "businessunitid" (VStr "unknown_id") in
  (∀ file_name combined_row,
     respects R (append_record E file_name (remap_row key_mapping combined_row))) →
  (any_processed business_unit_id processed_units = Returned false →
   respects R (emit (DetailQuery business_unit_id year_input month_numeric)) ∧
   ∀ total,
     respects R (record_processed E path business_unit_id
                   (get business_unit "name" (VStr "Unknown")) total)) →
  respects R (process_unit E year_input month_numeric month_name path
                           processed_units business_unit).
Proof.
  intros id Happend Hunit. subst id. unfold process_unit. cbv zeta.
  apply (respects_bind_lift R). intros [] Hany; [respect|].
  destruct (Hunit Hany) as [Hquery Hrecord].
  apply (respects_bind R); [respect|]. intros _.
  apply (respects_bind R); [exact Hquery|]. intros _. respect.
  all: first [ apply observed_rows_of
             | apply observed_enrich_rows
             | by apply observed_remap_and_save ].
Qed.
End Observed.

(** ** The checkpoint file *)

Lemma load_checkpoint_run file w :
  load_checkpoint file w = (Returned (stored w file), w).
Proof.
  unfold load_checkpoint, stored. rewrite bind_run. unfold path_exists, read_json.
  destruct (files w !! file) as [data|] eqn:Hfile.
  - rewrite bool_decide_eq_true_2 by eauto. by rewrite Hfile.
  - by rewrite bool_decide_eq_false_2 by (intros [? [=]]).
Qed.

(** [record_processed] either leaves the world as it is, or dumps the
    updated list to the checkpoint file. *)
Lemma record_processed_run E file id name total w :
  final (record_processed E file id name total w) = w ∨
  ∃ updated,
    update_checkpoint id name total (stored w file) = Returned updated ∧
    final (record_processed E file id name total w)
    = final (write_json E file updated w).
Proof.
  unfold record_processed, final.
  rewrite bind_run, load_checkpoint_run, bind_run. unfold lift.
  destruct (update_checkpoint id name total (stored w file)) as [updated| |];
    [right; eauto | by left..].
Qed.

Lemma remap_row_no_id (combined_row : dict) :
  remap_row key_mapping combined_row !! "business_unit_id" = None.
Proof.
  apply not_elem_of_dom. rewrite remap_row_dom, elem_of_list_to_set.
  apply (bool_decide_unpack _). vm_compute. exact I.
Qed.

(** ** The frame of a listed unit *)

Section Frame.
Context (u : value) (path : string).

#[global] Instance frame_preorder : PreOrder (frame u path).
Proof.
  split.
  - intros w. split; [|done]. exists []. split; [apply extends_by_nil | constructor].
  - intros w1 w2 w3 [(new1 & Hext1 & Hq1) Hf1] [(new2 & Hext2 & Hq2) Hf2].
    split; [|by rewrite Hf2].
    exists (new2 ++ new1). split; [by eapply extends_by_trans|].
    by apply Forall_app.
Qed.

Lemma frame_emit ev : queries u ev = false → respects (frame u path) (emit ev).
Proof.
  intros Hev w. split; [|done].
  exists [ev]. split; [done | by repeat constructor].
Qed.

#[global] Instance frame_observer : Observer (frame u path).
Proof.
  split; [apply _ | |].
  - intros ev w Hev. apply frame_emit. by destruct ev.
  - intros prompt w. unfold input, final. destruct (stdin w); simpl.
    + split; [|done]. eexists [_]. split; [done | by repeat constructor].
    + split; [|done]. eexists [_]. split; [done | by repeat constructor].
Qed.

(** A dump respects the frame when it goes to another file, or keeps the
    entries of [u]. *)
Lemma frame_write_json E file data w :
  (file = path →
   List.filter (entry_of u) data = List.filter (entry_of u) (stored w path)) →
  frame u path w (final (write_json E file data w)).
Proof.
  intros Hdata. unfold write_json, final.
  destruct (open_error E (history w) file); [reflexivity|]. split.
  - exists []. split; [done | constructor].
  - unfold stored. simpl.
    destruct (decide (file = path)) as [->|Hne].
    + rewrite lookup_insert_eq. simpl. by apply Hdata.
    + by rewrite lookup_insert_ne.
Qed.

Lemma filter_entry_of_app (r : dict) cp :
  entry_of u r = false →
  List.filter (entry_of u) (cp ++ [r]) = List.filter (entry_of u) cp.
Proof.
  intros Hr. rewrite List.filter_app. simpl. rewrite Hr. apply app_nil_r.
Qed.

Lemma frame_append_record E file_name combined_row :
  respects (frame u path)
    (append_record E file_name (remap_row key_mapping combined_row)).
Proof.
  intros w. rewrite append_record_run. apply frame_write_json. intros ->.
  apply filter_entry_of_app. unfold entry_of. by rewrite remap_row_no_id.
Qed.

Lemma entry_of_set_total_rows (unit : dict) total :
  entry_of u (<["total_rows" := VNum total]> unit) = entry_of u unit.
Proof. unfold entry_of. by rewrite lookup_insert_ne. Qed.

Lemma set_total_rows_frame v total cp cp' :
  PyValue.eq v u = false →
  set_total_rows v total cp = Returned cp' →
  List.filter (entry_of u) cp' = List.filter (entry_of u) cp.
Proof.
  intros Hvu. revert cp'. induction cp as [|unit rest IH]; intros cp'; simpl.
  - by intros [= <-].
  - destruct (unit !! "business_unit_id") as [v'|] eqn:Hid; [|done].
    destruct (PyValue.eq v' v) eqn:Hv'.
    + intros [= <-]. simpl. rewrite entry_of_set_total_rows.
      assert (entry_of u unit = false) as ->; [|done].
      unfold entry_of. rewrite Hid.
      destruct (PyValue.eq v' u) eqn:Hv'u; [|done].
      rewrite py_eq_sym in Hv'.
      by rewrite (py_eq_trans v v' u Hv' Hv'u) in Hvu.
    + destruct (set_total_rows v total rest) as [rest'| |]; try done.
      intros [= <-]. simpl. by rewrite (IH rest').
Qed.

Lemma update_checkpoint_frame v name total cp cp' :
  PyValue.eq v u = false →
  update_checkpoint v name total cp = Returned cp' →
  List.filter (entry_of u) cp' = List.filter (entry_of u) cp.
Proof.
  intros Hvu. unfold update_checkpoint.
  destruct (any_processed v cp) as [[]| |]; try done.
  - by apply set_total_rows_frame.
  - intros [= <-]. apply filter_entry_of_app.
    unfold entry_of. by rewrite checkpoint_entry_id.
Qed.

(** Lines 397-413 for a unit other than [u]. *)
Lemma frame_record_processed E v name total :
  PyValue.eq v u = false →
  respects (frame u path) (record_processed E path v name total).
Proof.
  intros Hvu w.
  destruct (record_processed_run E path v name total w)
    as [->|(updated & Hupd & ->)];
    [reflexivity|].
  apply frame_write_json. intros _. by eapply update_checkpoint_frame.
Qed.

(** A unit that the loaded checkpoint does not skip is not [u]. *)
Lemma not_skipped_not_listed v processed_units :
  listed u processed_units →
  any_processed v processed_units = Returned false →
  PyValue.eq v u = false.
Proof.
  intros Hlisted Hany. apply any_processed_false in Hany.
  unfold listed in Hlisted. rewrite Exists_exists in Hlisted.
  destruct Hlisted as (unit & Hin & Hentry).
  rewrite Forall_forall in Hany.
  destruct (Hany (unit !! "business_unit_id")) as (v0 & Hv0 & Hne).
  { unfold entry_ids.
    by apply (list_elem_of_fmap_2 (λ unit : dict, unit !! "business_unit_id")). }
  unfold entry_of in Hentry. rewrite Hv0 in Hentry.
  destruct (PyValue.eq v u) eqn:Hvu; [|done].
  rewrite py_eq_sym in Hvu.
  by rewrite (py_eq_trans v0 u v Hentry Hvu) in Hne.
Qed.

Lemma frame_process_unit
    E year_input month_numeric month_name processed_units (business_unit : dict) :
  listed u processed_units →
  respects (frame u path)
    (process_unit E year_input month_numeric month_name path
                  processed_units business_unit).
Proof.
  intros Hlisted.
  apply (observed_process_unit (frame u path)); [apply frame_append_record|].
  intros Hany. pose proof (not_skipped_not_listed _ _ Hlisted Hany) as Hvu.
  split; [by apply frame_emit|]. intros total. by apply frame_record_processed.
Qed.
End Frame.

(** The [try] block, from a world whose checkpoint lists [u]. *)
Lemma frame_fetch_and_process `{!Text}
    E u names_input year_input month_numeric month_name w :
  let CHECKPOINT_FILE := checkpoint_file month_name year_input in
  listed u (stored w CHECKPOINT_FILE) →
  frame u CHECKPOINT_FILE w
    (final (fetch_and_process E names_input year_input month_numeric
                              month_name w)).
Proof.
  unfold fetch_and_process. cbv zeta.
  generalize (checkpoint_file month_name year_input). intros file Hlisted.
  apply (related_bind (frame u file)); [by apply frame_emit|].
  intros [] w1 [= <-].
  apply (related_bind (frame u file)); [apply (respects_ask (frame u file))|].
  intros reply w2 [= <- <-].
  apply (related_bind (frame u file));
    [apply (observed_rows_of (frame u file))|].
  intros business_units w3 Hrows.
  assert (w3 = World (stdin w) (files w) (UnitsQuery :: history w)) as ->.
  { unfold rows_of in Hrows. destruct (units_reply E _); by injection Hrows. }
  apply (related_bind (frame u file)); [apply (observed_print (frame u file))|].
  intros [] w4 [= <-].
  apply (related_bind (frame u file)).
  { rewrite load_checkpoint_run. reflexivity. }
  intros processed_units w5. rewrite load_checkpoint_run. intros [= <- <-].
  match goal with
  | |- context [stored ?w' file] => change (stored w' file) with (stored w file)
  end.
  apply (respects_bind (frame u file));
    [apply (observed_select_matching (frame u file))|].
  intros matching. destruct matching; [apply (observed_print (frame u file))|].
  apply (respects_for_each (frame u file)). intros business_unit _.
  by apply frame_process_unit.
Qed.

(** ** The whole run *)

Lemma get_access_token_keeps_input_and_files E w token w1 :
  get_access_token E w = (Returned token, w1) →
  stdin w1 = stdin w ∧ files w1 = files w.
Proof.
  unfold get_access_token. step.
  destruct (client_init E _); simpl; [done|].
  destruct (token_reply E _) as [reply|e]; simpl.
  - destruct (reply !! "access_token"); simpl; [|done]. by intros [= _ <-].
  - by intros [= _ <-].
Qed.

Lemma resolve_month_returns month_input month_name w p w1 :
  lookup_item month_mapping month_input = Some month_name →
  resolve_month month_input w = (Returned p, w1) →
  p.2 = month_name ∧ files w1 = files w.
Proof.
  intros Hmonth. unfold resolve_month. rewrite Hmonth. step.
  destruct (month_numeric_of month_name); simpl; [|done..].
  by intros [= <- <-].
Qed.

(** C5: in a run whose checkpoint, as found on disk, lists the unit id
    [u], no detail query is made for [u], and the entries of [u] in the
    checkpoint file are after the run what they were before it, row count
    included. *)
Theorem listed_unit_is_skipped_and_kept `{!Text}
    E w names year line rest month_name (u : value) :
  stdin w = names :: year :: line :: rest →
  lookup_item month_mapping (normalize_month line) = Some month_name →
  let CHECKPOINT_FILE := checkpoint_file month_name year in
  listed u (stored w CHECKPOINT_FILE) →
  let w' := final (fetch_business_units_and_related_data E w) in
  (∃ new, extends_by new w w' ∧ Forall (λ ev, queries u ev = false) new) ∧
  List.filter (entry_of u) (stored w' CHECKPOINT_FILE)
  = List.filter (entry_of u) (stored w CHECKPOINT_FILE).
Proof.
  intros Hstdin Hmonth cpf Hlisted w'. subst w'.
  change (frame u cpf w (final (fetch_business_units_and_related_data E w))).
  unfold fetch_business_units_and_related_data. cbv zeta.
  apply (related_bind (frame u cpf));
    [apply (observed_get_access_token (frame u cpf))|].
  intros token w1 Htoken.
  destruct (get_access_token_keeps_input_and_files _ _ _ _ Htoken) as [Hin Hfiles].
  rewrite Hstdin in Hin. destruct w1 as [inp1 fs1 h1]. simpl in Hin, Hfiles.
  subst inp1 fs1.
  apply (related_bind (frame u cpf)); [apply (observed_input (frame u cpf))|].
  intros names' w2. unfold input at 1. simpl. intros [= <- <-].
  apply (related_bind (frame u cpf)); [apply (observed_input (frame u cpf))|].
  intros year' w3. unfold input at 1. simpl. intros [= <- <-].
  apply (related_bind (frame u cpf)); [apply (observed_input (frame u cpf))|].
  intros line' w4. unfold input at 1. simpl. intros [= <- <-].
  apply (related_bind (frame u cpf));
    [apply (observed_resolve_month (frame u cpf))|].
  intros [month_numeric month_name'] w5 Hresolved.
  destruct (resolve_month_returns _ _ _ _ _ Hmonth Hresolved) as [Hname Hfiles].
  simpl in Hname, Hfiles. subst month_name'.
  apply (related_try_except (frame u cpf)).
  - apply frame_fetch_and_process. unfold stored. by rewrite Hfiles.
  - intros e. respect.
Qed.

Lemma listed_unit_is_skipped_and_kept_witness :
  let w' := final (fetch_business_units_and_related_data sample_env sample_rerun_world) in
  (∃ new, extends_by new sample_rerun_world w' ∧
          Forall (λ ev, queries (VStr "u1") ev = false) new) ∧
  List.filter (entry_of (VStr "u1")) (stored w' (checkpoint_file "MAR" "2024"))
  = List.filter (entry_of (VStr "u1"))
      (stored sample_rerun_world (checkpoint_file "MAR" "2024")).
Proof.
  apply (listed_unit_is_skipped_and_kept sample_env sample_rerun_world
           "acme" "2024" "march" [] "MAR" (VStr "u1")).
  - reflexivity.
  - vm_compute. reflexivity.
  - apply Exists_cons_hd. vm_compute. reflexivity.
Defined.

(** ** Uniqueness of ids through a whole run *)

Section KeepsUnique.
Context (path : string).

#[global] Instance keeps_unique_preorder : PreOrder (keeps_unique path).
Proof. split; unfold keeps_unique; [by intros w | intros w1 w2 w3; eauto]. Qed.

Lemma keeps_unique_same_files w w' :
  files w' = files w → keeps_unique path w w'.
Proof. intros Hfiles. unfold keeps_unique, stored. by rewrite Hfiles. Qed.

#[global] Instance keeps_unique_observer : Observer (keeps_unique path).
Proof.
  split; [apply _ | |].
  - intros ev w _. by apply keeps_unique_same_files.
  - intros prompt w. apply keeps_unique_same_files.
    unfold input, final. by destruct (stdin w).
Qed.

Lemma keeps_unique_write_json E file data w :
  (file = path → unique_ids (stored w path) → unique_ids data) →
  keeps_unique path w (final (write_json E file data w)).
Proof.
  intros Hdata. unfold write_json, final.
  destruct (open_error E (history w) file); [reflexivity|].
  intros Huniq. unfold stored in *. simpl.
  destruct (decide (file = path)) as [->|Hne].
  - rewrite lookup_insert_eq. simpl. by apply Hdata.
  - by rewrite lookup_insert_ne.
Qed.

Lemma unique_ids_without_id (unit : dict) cp :
  unit !! "business_unit_id" = None → unique_ids cp → unique_ids (cp ++ [unit]).
Proof.
  intros Hnone Huniq i j vi vj Hi Hj Heq.
  unfold entry_ids in Hi, Hj. rewrite fmap_app in Hi, Hj. simpl in Hi, Hj.
  rewrite Hnone in Hi, Hj. fold (entry_ids cp) in Hi, Hj.
  assert (∀ k v, (entry_ids cp ++ [None]) !! k = Some (Some v) →
                 entry_ids cp !! k = Some (Some v)) as Hold.
  { intros k v Hk. apply lookup_app_Some in Hk as [Hk|[_ Hk]]; [done|].
    by destruct (k - length (entry_ids cp))%nat. }
  eapply Huniq; eauto.
Qed.

Lemma keeps_unique_append_record E file_name combined_row :
  respects (keeps_unique path)
    (append_record E file_name (remap_row key_mapping combined_row)).
Proof.
  intros w. rewrite append_record_run. apply keeps_unique_write_json.
  intros -> Huniq. by apply unique_ids_without_id, Huniq; apply remap_row_no_id.
Qed.

Lemma keeps_unique_record_processed E file id name total :
  respects (keeps_unique path) (record_processed E file id name total).
Proof.
  intros w.
  destruct (record_processed_run E file id name total w)
    as [->|(updated & Hupd & ->)]; [reflexivity|].
  apply keeps_unique_write_json. intros -> Huniq.
  by destruct (update_checkpoint_unique _ _ _ _ _ Huniq Hupd).
Qed.

(** X29: whatever the environment and the input, a run leaves at most one
    entry per unit id in a file that had at most one. *)
Lemma run_keeps_ids_unique `{!Text} E w :
  unique_ids (stored w path) →
  unique_ids (stored (final (fetch_business_units_and_related_data E w)) path).
Proof.
  revert w. change (respects (keeps_unique path)
                      (fetch_business_units_and_related_data E)).
  unfold fetch_business_units_and_related_data. respect.
  - apply observed_get_access_token; apply _.
  - apply observed_resolve_month; apply _.
  - unfold fetch_and_process. respect.
    + apply observed_rows_of; apply _.
    + unfold load_checkpoint. respect.
    + apply observed_select_matching; apply _.
    + apply (respects_for_each (keeps_unique path)). intros business_unit _.
      apply (observed_process_unit (keeps_unique path));
        [apply keeps_unique_append_record|].
      intros _. split; [|intros total; apply keeps_unique_record_processed].
      intros w'. by apply keeps_unique_same_files.
Qed.
End KeepsUnique.

(** * Further properties of the script *)

(** ** Console input: case and blanks *)

Lemma isspace_upper_char c : Py.ascii_isspace (Py.ascii_upper_char c) = Py.ascii_isspace c.
Proof. by destruct c as [[] [] [] [] [] [] [] []]. Qed.

Lemma upper_char_idempotent c : Py.ascii_upper_char (Py.ascii_upper_char c) = Py.ascii_upper_char c.
Proof. by destruct c as [[] [] [] [] [] [] [] []]. Qed.

Lemma upper_char_comma c : Ascii.eqb (Py.ascii_upper_char c) "," = Ascii.eqb c ",".
Proof. by destruct c as [[] [] [] [] [] [] [] []]. Qed.

Lemma upper_idempotent s : Py.ascii_upper (Py.ascii_upper s) = Py.ascii_upper s.
Proof. induction s as [|c r IH]; simpl; [done|]. by rewrite upper_char_idempotent, IH. Qed.

Lemma lstrip_upper s : Py.ascii_lstrip (Py.ascii_upper s) = Py.ascii_upper (Py.ascii_lstrip s).
Proof.
  induction s as [|c r IH]; simpl; [done|].
  rewrite isspace_upper_char. by destruct (Py.ascii_isspace c).
Qed.

Lemma rstrip_upper s : Py.ascii_rstrip (Py.ascii_upper s) = Py.ascii_upper (Py.ascii_rstrip s).
Proof.
  induction s as [|c r IH]; simpl; [done|].
  rewrite IH, isspace_upper_char.
  destruct (Py.ascii_rstrip r); simpl; [by destruct (Py.ascii_isspace c) | done].
Qed.

Lemma strip_upper s : Py.ascii_strip (Py.ascii_upper s) = Py.ascii_upper (Py.ascii_strip s).
Proof. unfold Py.ascii_strip. by rewrite lstrip_upper, rstrip_upper. Qed.

Lemma lstrip_blank s : blank s = true → Py.ascii_lstrip s = "".
Proof.
  induction s as [|c r IH]; simpl; [done|].
  intros [-> Hr]%andb_true_iff. by apply IH.
Qed.

Lemma rstrip_blank s : blank s = true → Py.ascii_rstrip s = "".
Proof.
  induction s as [|c r IH]; simpl; [done|].
  intros [-> Hr]%andb_true_iff. by rewrite IH.
Qed.

Lemma rstrip_append_blank s post :
  blank post = true → Py.ascii_rstrip (s +:+ post) = Py.ascii_rstrip s.
Proof.
  intros Hpost. induction s as [|c r IH].
  - by rewrite rstrip_blank.
  - rewrite append_cons. simpl. by rewrite IH.
Qed.

Lemma lstrip_blank_append pre s :
  blank pre = true → Py.ascii_lstrip (pre +:+ s) = Py.ascii_lstrip s.
Proof.
  induction pre as [|c r IH]; [done|]. rewrite append_cons. simpl.
  intros [-> Hr]%andb_true_iff. by apply IH.
Qed.

Lemma strip_append_blank s post :
  blank post = true → Py.ascii_strip (s +:+ post) = Py.ascii_strip s.
Proof.
  intros Hpost. unfold Py.ascii_strip. induction s as [|c r IH].
  - change (Py.ascii_rstrip (Py.ascii_lstrip post) = ""). by rewrite lstrip_blank.
  - rewrite append_cons. simpl. destruct (Py.ascii_isspace c); [done|].
    by rewrite <- append_cons, rstrip_append_blank.
Qed.

Lemma strip_padded pre s post :
  blank pre = true → blank post = true →
  Py.ascii_strip (pre +:+ s +:+ post) = Py.ascii_strip s.
Proof.
  intros Hpre Hpost. rewrite <- (strip_append_blank s post Hpost).
  unfold Py.ascii_strip. by rewrite lstrip_blank_append.
Qed.

Lemma is_ascii_append a b :
  Py.is_ascii (a +:+ b) = Py.is_ascii a && Py.is_ascii b.
Proof.
  induction a as [|c r IH]; [done|]. rewrite append_cons. simpl.
  by rewrite IH, andb_assoc.
Qed.

Lemma isspace_is_ascii c : Py.ascii_isspace c = true → (N_of_ascii c <? 128)%N = true.
Proof. by destruct c as [[] [] [] [] [] [] [] []]. Qed.

Lemma upper_char_is_ascii c :
  (N_of_ascii (Py.ascii_upper_char c) <? 128)%N = (N_of_ascii c <? 128)%N.
Proof. by destruct c as [[] [] [] [] [] [] [] []]. Qed.

Lemma blank_is_ascii s : blank s = true → Py.is_ascii s = true.
Proof.
  induction s as [|c r IH]; simpl; [done|].
  intros [Hc Hr]%andb_true_iff. by rewrite (isspace_is_ascii c Hc), IH.
Qed.

Lemma is_ascii_upper s : Py.is_ascii (Py.ascii_upper s) = Py.is_ascii s.
Proof.
  induction s as [|c r IH]; simpl; [done|]. by rewrite upper_char_is_ascii, IH.
Qed.

Lemma is_ascii_lstrip s :
  Py.is_ascii s = true → Py.is_ascii (Py.ascii_lstrip s) = true.
Proof.
  induction s as [|c r IH]; simpl; [done|].
  intros [Hc Hr]%andb_true_iff.
  destruct (Py.ascii_isspace c); [by apply IH|]. simpl. by rewrite Hc, Hr.
Qed.

Lemma is_ascii_rstrip s :
  Py.is_ascii s = true → Py.is_ascii (Py.ascii_rstrip s) = true.
Proof.
  induction s as [|c r IH]; simpl; [done|].
  intros [Hc Hr]%andb_true_iff. specialize (IH Hr).
  destruct (Py.ascii_rstrip r) as [|c' r'].
  - destruct (Py.ascii_isspace c); simpl; [done|]. by rewrite Hc.
  - change (Py.is_ascii (String c (String c' r')) = true).
    simpl in *. by rewrite Hc, IH.
Qed.

Lemma is_ascii_strip s :
  Py.is_ascii s = true → Py.is_ascii (Py.ascii_strip s) = true.
Proof. intros Hs. by apply is_ascii_rstrip, is_ascii_lstrip. Qed.

(** On an ASCII line, line 93 computes with the functions of [Py]. *)
Lemma normalize_month_ascii `{T : !Text} line :
  agrees_on_ascii T → Py.is_ascii line = true →
  normalize_month line = Py.ascii_upper (Py.ascii_strip line).
Proof.
  intros Hascii Hline. unfold normalize_month.
  destruct (Hascii line Hline) as [_ ->].
  by destruct (Hascii (Py.ascii_strip line) (is_ascii_strip _ Hline)) as [-> _].
Qed.

(** X1: on ASCII text the month prompt ignores letter case and surrounding
    blanks: two answers that upper-case to the same text, each padded with
    blanks on either side, are normalised to the same month input. *)
Theorem month_input_ignores_case_and_padding `{T : !Text}
    (s t pre post pre' post' : string) :
  agrees_on_ascii T →
  Py.is_ascii s = true → Py.is_ascii t = true →
  str_upper s = str_upper t →
  blank pre = true → blank post = true →
  blank pre' = true → blank post' = true →
  normalize_month (pre +:+ s +:+ post) = normalize_month (pre' +:+ t +:+ post').
Proof.
  intros Hascii Hs Ht Hcase Hpre Hpost Hpre' Hpost'.
  destruct (Hascii s Hs) as [Hus _]. destruct (Hascii t Ht) as [Hut _].
  rewrite Hus, Hut in Hcase.
  rewrite !normalize_month_ascii
    by (try done; rewrite !is_ascii_append, ?Hs, ?Ht;
        by rewrite !blank_is_ascii by done).
  rewrite !strip_padded by done. by rewrite <- !strip_upper, Hcase.
Qed.

Lemma month_input_ignores_case_and_padding_witness :
  normalize_month ("  " +:+ "March" +:+ " ") = normalize_month ("" +:+ "mARCH" +:+ "").
Proof.
  apply (month_input_ignores_case_and_padding "March" "mARCH" "  " " " "" "");
    first [ done | vm_compute; reflexivity ].
Defined.

(** ** The month table *)

Lemma accepted_forms_resolve :
  Forall (λ s, Exists (λ m, s ∈ spellings m ∧
                            resolution s = Returned (m.1.1, m.2)) calendar)
         accepted_forms.
Proof. apply (bool_decide_unpack _). vm_compute. exact I. Qed.

(** X2: whatever the month input, line 96 never fails: the input is one of
    the spellings of a month of the calendar and resolves to that month's
    two-digit number and abbreviation, or it is not and the script exits with
    status 1. *)
Theorem month_resolves_or_exits (month_input : string) (w : world) :
  (∃ m, m ∈ calendar ∧ month_input ∈ spellings m ∧
        result (resolve_month month_input w) = Returned (m.1.1, m.2))
  ∨ ((month_input ∉ accepted_forms) ∧
     result (resolve_month month_input w) = SysExit 1).
Proof.
  rewrite resolve_month_result.
  destruct (decide (month_input ∈ accepted_forms)) as [Hin|Hout].
  - left. pose proof accepted_forms_resolve as H.
    rewrite Forall_forall in H. specialize (H _ Hin).
    apply Exists_exists in H as (m & Hm & Hs & Hr). eauto.
  - right. split; [done|]. unfold resolution.
    destruct (lookup_item month_mapping month_input) eqn:Hlook; [|done].
    destruct Hout. apply lookup_item_accepts. eauto.
Qed.


(** ** The search terms *)

Lemma split_not_nil sep s : Py.split sep s ≠ [].
Proof.
  destruct s as [|c r]; simpl; [done|].
  destruct (Ascii.eqb c sep); [done|]. by destruct (Py.split sep r).
Qed.

Lemma split_upper s :
  Py.split "," (Py.ascii_upper s) = map Py.ascii_upper (Py.split "," s).
Proof.
  induction s as [|c r IH]; simpl; [done|].
  rewrite upper_char_comma, IH.
  destruct (Ascii.eqb c ","); [done|]. by destruct (Py.split "," r).
Qed.

Lemma rstrip_idempotent s : Py.ascii_rstrip (Py.ascii_rstrip s) = Py.ascii_rstrip s.
Proof.
  induction s as [|c r IH]; simpl; [done|].
  destruct (Py.ascii_rstrip r) as [|c' r'] eqn:Hr.
  - destruct (Py.ascii_isspace c) eqn:Hc; simpl; [done|]. by rewrite Hc.
  - change (Py.ascii_rstrip (String c (String c' r'))) with
      (match Py.ascii_rstrip (String c' r') with
       | EmptyString => if Py.ascii_isspace c then EmptyString else String c EmptyString
       | r'' => String c r''
       end).
    by rewrite IH.
Qed.

Lemma lstrip_head s :
  match Py.ascii_lstrip s with
  | EmptyString => True
  | String c _ => Py.ascii_isspace c = false
  end.
Proof.
  induction s as [|c r IH]; simpl; [done|].
  by destruct (Py.ascii_isspace c) eqn:Hc.
Qed.

Lemma lstrip_rstrip_clean c r :
  Py.ascii_isspace c = false →
  Py.ascii_lstrip (Py.ascii_rstrip (String c r)) = Py.ascii_rstrip (String c r).
Proof.
  intros Hc. simpl. destruct (Py.ascii_rstrip r); rewrite ?Hc; simpl; by rewrite Hc.
Qed.

Lemma strip_idempotent s : Py.ascii_strip (Py.ascii_strip s) = Py.ascii_strip s.
Proof.
  unfold Py.ascii_strip. pose proof (lstrip_head s) as Hhead.
  destruct (Py.ascii_lstrip s) as [|c r]; [done|].
  by rewrite lstrip_rstrip_clean, rstrip_idempotent.
Qed.

Lemma search_terms_nonempty `{!Text} line : business_unit_names_of line ≠ [].
Proof.
  unfold business_unit_names_of.
  intros Hnil. apply fmap_nil_inv in Hnil. by apply split_not_nil in Hnil.
Qed.

Lemma is_ascii_split sep s :
  Py.is_ascii s = true → Forall (λ t, Py.is_ascii t = true) (Py.split sep s).
Proof.
  induction s as [|c r IH]; simpl; [by repeat constructor|].
  intros [Hc Hr]%andb_true_iff. specialize (IH Hr).
  destruct (Ascii.eqb c sep); [by constructor|].
  destruct (Py.split sep r) as [|w ws]; [repeat constructor; simpl; by rewrite Hc|].
  apply Forall_cons in IH as [Hw Hws]. constructor; [|done].
  simpl. by rewrite Hc, Hw.
Qed.

(** X3: the list of search terms is never empty; and when the answer is
    ASCII text, every term is stripped of surrounding blanks and has no
    lower-case letter left, the line having been upper-cased at line 91. *)
Theorem search_terms_are_trimmed_and_upper `{T : !Text} (line : string) :
  agrees_on_ascii T → Py.is_ascii line = true →
  let business_unit_names := business_unit_names_of (str_upper line) in
  business_unit_names ≠ [] ∧
  Forall (λ name, str_strip name = name ∧ str_upper name = name)
         business_unit_names.
Proof.
  intros Hascii Hline. split; [apply search_terms_nonempty|].
  unfold business_unit_names_of.
  destruct (Hascii line Hline) as [-> _].
  pose proof (is_ascii_split "," (Py.ascii_upper line)) as Hpieces.
  rewrite is_ascii_upper in Hpieces. specialize (Hpieces Hline).
  rewrite split_upper in Hpieces |- *.
  rewrite Forall_forall in Hpieces.
  apply Forall_forall. intros name Hin.
  apply list_elem_of_In, in_map_iff in Hin as (piece & <- & Hin).
  apply list_elem_of_In in Hin. specialize (Hpieces piece Hin).
  apply list_elem_of_In, in_map_iff in Hin as (t & <- & _).
  destruct (Hascii _ Hpieces) as [_ ->].
  destruct (Hascii _ (is_ascii_strip _ Hpieces)) as [-> ->].
  split; [apply strip_idempotent|].
  by rewrite <- strip_upper, upper_idempotent.
Qed.

Lemma search_terms_are_trimmed_and_upper_witness :
  business_unit_names_of (str_upper " acme ,north") ≠ [] ∧
  Forall (λ name, str_strip name = name ∧ str_upper name = name)
         (business_unit_names_of (str_upper " acme ,north")).
Proof.
  apply (search_terms_are_trimmed_and_upper " acme ,north").
  - intros s _. done.
  - reflexivity.
Defined.

(** ** The selection loop *)

Lemma contains_empty s : Py.contains "" s = true.
Proof. by destruct s. Qed.

Lemma select_matching_run names units w :
  Forall text_named units →
  select_matching names units w
  = (Returned (List.filter (name_hit names) units),
     World (stdin w) (files w)
           (rev (map found_line (List.filter (name_hit names) units))
            ++ history w)).
Proof.
  intros Htext. unfold select_matching.
  match goal with |- context [for_fold _ _ ?b] => set (body := b) end.
  enough (∀ acc w,
            for_fold units acc body w
            = (Returned (acc ++ List.filter (name_hit names) units),
               World (stdin w) (files w)
                     (rev (map found_line (List.filter (name_hit names) units))
                      ++ history w)))
    as H by apply (H []).
  clear w. induction Htext as [|bu rest [s Hs] _ IH]; intros acc w.
  - rewrite for_fold_nil, app_nil_r. by destruct w.
  - rewrite for_fold_cons.
    assert (body acc bu w
            = (Returned (if name_hit names bu then acc ++ [bu] else acc),
               if name_hit names bu
               then World (stdin w) (files w) (found_line bu :: history w)
               else w)) as ->.
    { unfold body, name_hit, found_line. step. rewrite Hs, any_name_in_text.
      by destruct (existsb _ names). }
    simpl. destruct (name_hit names bu); rewrite IH; simpl.
    + by rewrite <- !app_assoc.
    + done.
Qed.

(** X4: with text names throughout, the selection loop returns the units
    of the response that contain a term, in the order of the response and
    each once; it prints one line per selected unit and touches neither the
    files nor the pending input. *)
Theorem selection_is_an_ordered_filter
    (business_unit_names : list string) (business_units : list dict) (w : world) :
  Forall text_named business_units →
  let selected := List.filter (name_hit business_unit_names) business_units in
  select_matching business_unit_names business_units w
  = (Returned selected,
     World (stdin w) (files w) (rev (map found_line selected) ++ history w)).
Proof. apply select_matching_run. Qed.

Lemma selection_is_an_ordered_filter_witness :
  select_matching ["ACME"; "NORTH"]
    [<["name" := VStr "ACME NORTH"]> ∅; <["name" := VStr "Acme South"]> ∅; ∅]
    (World [] ∅ [])
  = (Returned [<["name" := VStr "ACME NORTH"]> ∅],
     World [] ∅ [Print "Found matching business unit: ACME NORTH"]).
Proof.
  rewrite (selection_is_an_ordered_filter ["ACME"; "NORTH"]
             [<["name" := VStr "ACME NORTH"]> ∅;
              <["name" := VStr "Acme South"]> ∅; ∅] (World [] ∅ [])).
  - vm_compute. reflexivity.
  - repeat constructor; eexists; vm_compute; reflexivity.
Defined.

(** X5: an empty search term (an empty line, a trailing comma, two commas
    in a row) selects every unit of the response, since the empty text occurs
    in every name. *)
Theorem empty_term_selects_every_unit `{!Text}
    (line : string) (business_units : list dict) (w : world) :
  "" ∈ business_unit_names_of (str_upper line) →
  Forall text_named business_units →
  result (select_matching (business_unit_names_of (str_upper line)) business_units w)
  = Returned business_units.
Proof.
  intros Hempty Htext. rewrite select_matching_run by done. unfold result. simpl.
  f_equal. induction Htext as [|bu rest [s Hs] _ IH]; simpl; [done|].
  assert (name_hit (business_unit_names_of (str_upper line)) bu = true) as ->.
  { unfold name_hit. rewrite Hs. apply existsb_exists. exists "".
    split; [by apply list_elem_of_In | apply contains_empty]. }
  by rewrite IH.
Qed.

Lemma empty_term_selects_every_unit_witness :
  result (select_matching (business_unit_names_of (str_upper "acme, "))
            [<["name" := VStr "Zeta"]> ∅; ∅] (World [] ∅ []))
  = Returned [<["name" := VStr "Zeta"]> ∅; ∅].
Proof.
  apply (empty_term_selects_every_unit "acme, ").
  - apply (bool_decide_unpack _). vm_compute. exact I.
  - repeat constructor; eexists; vm_compute; reflexivity.
Defined.

(** X6: a unit whose name is not text (a JSON null, a number) makes the
    selection loop raise TypeError at that unit, whatever the search terms:
    the units after it are not looked at. *)
Theorem non_text_name_raises_type_error `{!Text}
    (line : string) (before after : list dict) (business_unit : dict) (w : world) :
  Forall text_named before →
  ¬ text_named business_unit →
  ∃ text,
    result (select_matching (business_unit_names_of (str_upper line))
              (before ++ business_unit :: after) w)
    = Raised (Exn TypeError text).
Proof.
  intros Hbefore Hbad. unfold select_matching.
  match goal with |- context [for_fold _ _ ?b] => set (body := b) end.
  generalize (@nil dict). intros acc. revert w acc.
  induction Hbefore as [|bu rest [s Hs] _ IH]; intros w acc.
  - simpl app. rewrite for_fold_cons.
    destruct (business_unit_names_of (str_upper line)) as [|name names] eqn:Hnames.
    { by destruct (search_terms_nonempty (str_upper line)). }
    unfold body at 1. step.
    destruct (get business_unit "name" (VStr "Unknown")) as [| | |s] eqn:Hname;
      simpl; eauto.
    destruct Hbad. by exists s.
  - simpl app. rewrite for_fold_cons.
    assert (∃ acc' w', body acc bu w = (Returned acc', w')) as (acc' & w' & ->).
    { unfold body. step. rewrite Hs, any_name_in_text.
      destruct (existsb _ _); simpl; eauto. }
    apply IH.
Qed.


Lemma non_text_name_raises_type_error_witness :
  ∃ text,
    result (select_matching (business_unit_names_of (str_upper "acme"))
              ([] ++ <["name" := VNull]> ∅ :: [<["name" := VStr "ACME"]> ∅])
              (World [] ∅ []))
    = Raised (Exn TypeError text).
Proof.
  apply (non_text_name_raises_type_error "acme" [] _ (<["name" := VNull]> ∅)).
  - constructor.
  - intros [s Hs]. vm_compute in Hs. discriminate Hs.
Defined.

(** ** The authenticator *)

(** X7: the authenticator makes one attempt: whatever the identity
    provider answers, the network calls of [get_access_token] are the
    construction of the MSAL client and, if the client could be built,
    exactly one token request; it reads no input and writes no file. *)
Theorem authenticator_makes_one_attempt E w :
  let run := get_access_token E w in
  stdin (final run) = stdin w ∧ files (final run) = files w ∧
  ∃ new, extends_by new w (final run) ∧ network_calls new = token_traffic E w.
Proof.
  unfold get_access_token, token_traffic. step.
  destruct (client_init E (ClientInit :: history w)); simpl.
  { repeat split; try done. eexists. split; [history|]. done. }
  destruct (token_reply E _) as [reply|e]; simpl.
  - destruct (reply !! "access_token"); simpl;
      (repeat split; try done; eexists; split; [history|]; done).
  - repeat split; try done. eexists. split; [history|]. done.
Qed.

(** X8: when the identity provider answers without a token, the whole
    script exits with status 1 right there: it has printed the provider's
    error description (or the stock text when there is none), prompted for
    nothing, queried nothing and written nothing. *)
Theorem missing_token_exits_before_prompts `{!Text} E w reply :
  client_init E (ClientInit :: history w) = None →
  token_reply E (TokenRequest :: ClientInit :: history w) = TokenResult reply →
  reply !! "access_token" = None →
  fetch_business_units_and_related_data E w
  = (SysExit 1,
     World (stdin w) (files w)
       (Print ("Failed to acquire Dataverse token: "
               +:+ PyValue.str (get reply "error_description"
                                    (VStr "No error description provided.")))
        :: TokenRequest :: ClientInit :: history w)).
Proof.
  intros Hinit Hreply Htoken.
  unfold fetch_business_units_and_related_data, get_access_token. step.
  rewrite Hinit. simpl. rewrite Hreply. simpl. by rewrite Htoken.
Qed.

Lemma missing_token_exits_before_prompts_witness :
  fetch_business_units_and_related_data
    (token_env (TokenResult (<["error" := VStr "invalid_client"]> ∅)))
    (World ["ACME"; "2024"; "03"] ∅ [])
  = (SysExit 1,
     World ["ACME"; "2024"; "03"] ∅
       [Print "Failed to acquire Dataverse token: No error description provided.";
        TokenRequest; ClientInit]).
Proof.
  rewrite (missing_token_exits_before_prompts
             (token_env (TokenResult (<["error" := VStr "invalid_client"]> ∅)))
             (World ["ACME"; "2024"; "03"] ∅ [])
             (<["error" := VStr "invalid_client"]> ∅) eq_refl eq_refl).
  - vm_compute. reflexivity.
  - vm_compute. reflexivity.
Defined.

(** ** Blob downloads *)

(** X9: of the failures of a download, [download_and_convert_to_base64]
    turns the request errors into None and lets every other exception
    out. *)
Theorem download_swallows_only_request_errors E image_url w e :
  image_reply E (ImageDownload image_url
                 :: Print ("Attempting to download image from: " +:+ image_url)
                 :: history w) image_url = ImageError e →
  result (download_and_convert_to_base64 E image_url w)
  = if decide (exn_class e = RequestException) then Returned None else Raised e.
Proof.
  intros Hreply. unfold download_and_convert_to_base64. step. rewrite Hreply.
  simpl. destruct e as [[] text]; simpl; try case_decide; done.
Qed.

Lemma download_swallows_only_request_errors_witness :
  result (download_and_convert_to_base64 sample_env (base_url +:+ "bad.png")
            (World [] ∅ []))
  = Returned None.
Proof.
  rewrite (download_swallows_only_request_errors sample_env
             (base_url +:+ "bad.png") (World [] ∅ [])
             (Exn RequestException "404 Client Error")).
  - reflexivity.
  - vm_compute. reflexivity.
Defined.

(** ** The image loop *)

Lemma insert_base64_blob i v (cur : dict) j :
  <[base64_key i := v]> cur !! blob_attribute j = cur !! blob_attribute j.
Proof. rewrite lookup_insert_ne; [done | apply base64_key_not_blob]. Qed.

(** One turn of the loop, when downloads fail by request errors only. *)
Lemma process_slot_soft E (cur : dict) i w :
  request_errors_only E →
  ∃ cur' w' new,
    process_slot E cur i w = (Returned cur', w') ∧
    extends_by new w w' ∧ stdin w' = stdin w ∧ files w' = files w ∧
    downloads new
    = (if blob_present cur i then [ImageDownload (image_url_of cur i)] else []) ∧
    (∀ j, cur' !! blob_attribute j = cur !! blob_attribute j) ∧
    (∀ k, k ≠ base64_key i → cur' !! k = cur !! k).
Proof.
  intros Hsoft. unfold process_slot.
  destruct (blob_present cur i).
  2: { exists cur, w, []. by repeat split. }
  rewrite bind_run. unfold download_and_convert_to_base64. step.
  destruct (image_reply E _ (image_url_of cur i)) as [content|e] eqn:Hreply; simpl.
  - destruct (b64encode content) as [|c r]; simpl.
    + eexists cur, _, _. split; [reflexivity|]. split; [history|]. by repeat split.
    + eexists _, _, _. split; [reflexivity|]. split; [history|].
      repeat split; try done.
      * intros j. apply insert_base64_blob.
      * intros k Hk. by rewrite lookup_insert_ne.
  - rewrite (Hsoft _ _ _ Hreply). simpl.
    eexists cur, _, _. split; [reflexivity|]. split; [history|]. by repeat split.
Qed.

Lemma enrich_fold_soft E (indices : list nat) (cur : dict) w :
  request_errors_only E →
  ∃ cur' w' new,
    for_fold indices cur (process_slot E) w = (Returned cur', w') ∧
    extends_by new w w' ∧ stdin w' = stdin w ∧ files w' = files w ∧
    downloads new
    = rev (map (λ i, ImageDownload (image_url_of cur i))
               (List.filter (blob_present cur) indices)) ∧
    (∀ j, cur' !! blob_attribute j = cur !! blob_attribute j) ∧
    (∀ k, k ∉ base64_key <$> indices → cur' !! k = cur !! k).
Proof.
  intros Hsoft. revert cur w. induction indices as [|i rest IH]; intros cur w.
  - exists cur, w, []. by repeat split.
  - rewrite for_fold_cons.
    destruct (process_slot_soft E cur i w Hsoft)
      as (cur1 & w1 & new1 & -> & Hext1 & Hin1 & Hf1 & Hd1 & Hblob1 & Hkeep1).
    destruct (IH cur1 w1)
      as (cur2 & w2 & new2 & -> & Hext2 & Hin2 & Hf2 & Hd2 & Hblob2 & Hkeep2).
    assert (Hsame : ∀ j, blob_present cur1 j = blob_present cur j ∧
                         image_url_of cur1 j = image_url_of cur j).
    { intros j. apply blob_present_agrees, Hblob1. }
    exists cur2, w2, (new2 ++ new1). split; [done|].
    split; [by eapply extends_by_trans|].
    split; [congruence|]. split; [congruence|]. split; [|split].
    + unfold downloads in *. rewrite List.filter_app, Hd2, Hd1. simpl.
      rewrite (List.filter_ext _ _ (λ j, proj1 (Hsame j))).
      rewrite (map_ext _ _ (λ j, f_equal ImageDownload (proj2 (Hsame j)))).
      destruct (blob_present cur i); simpl; [done | by rewrite app_nil_r].
    + intros j. by rewrite Hblob2.
    + intros k Hk. rewrite fmap_cons in Hk. apply not_elem_of_cons in Hk as [Hki Hk].
      by rewrite Hkeep2, Hkeep1.
Qed.

(** X10: for one row, when downloads fail by request errors only, the
    image loop returns; it has tried each slot that holds a blob reference
    exactly once, in the order 1 to 5, and no other; it has changed no field
    of the row but [gambar<i>_base64], and no file. *)
Theorem image_loop_tries_each_present_slot_once E (row : dict) w :
  request_errors_only E →
  ∃ row' w' new,
    enrich_row E row w = (Returned row', w') ∧
    extends_by new w w' ∧ files w' = files w ∧
    downloads new
    = rev (map (λ i, ImageDownload (image_url_of row i))
               (List.filter (blob_present row) slots)) ∧
    ∀ k, k ∉ base64_key <$> slots → row' !! k = row !! k.
Proof.
  intros Hsoft.
  destruct (enrich_fold_soft E slots row w Hsoft)
    as (row' & w' & new & Hrun & Hext & _ & Hfiles & Hd & _ & Hkeep).
  exists row', w', new. by repeat split.
Qed.


Lemma sample_env_request_errors_only : request_errors_only sample_env.
Proof.
  intros h url e. unfold sample_env. simpl.
  destruct (String.eqb url _); [by intros [= <-] | done].
Qed.

Lemma image_loop_tries_each_present_slot_once_witness :
  ∃ row' w' new,
    enrich_row sample_env sample_row (World [] ∅ []) = (Returned row', w') ∧
    extends_by new (World [] ∅ []) w' ∧ files w' = ∅ ∧
    downloads new
    = rev (map (λ i, ImageDownload (image_url_of sample_row i))
               (List.filter (blob_present sample_row) slots)) ∧
    ∀ k, k ∉ base64_key <$> slots → row' !! k = sample_row !! k.
Proof.
  exact (image_loop_tries_each_present_slot_once sample_env sample_row
           (World [] ∅ []) sample_env_request_errors_only).
Defined.

Lemma image_loop_row_returns E (row : dict) w :
  request_errors_only E →
  ∃ row' w', enrich_row E row w = (Returned row', w') ∧ files w' = files w.
Proof.
  intros Hsoft.
  destruct (enrich_fold_soft E (seq 1 5) row w Hsoft)
    as (row' & w' & new & Hrun & _ & _ & Hfiles & _).
  by exists row', w'.
Qed.

(** X11: when downloads fail by request errors only, the image loop gets
    through all the rows of a unit: it returns as many rows as it was given
    and has written no file. *)
Theorem image_loop_survives_request_errors E (related_data : list dict) w :
  request_errors_only E →
  ∃ enriched w',
    enrich_rows E related_data w = (Returned enriched, w') ∧
    length enriched = length related_data ∧ files w' = files w.
Proof.
  intros Hsoft. unfold enrich_rows. revert w.
  induction related_data as [|row rest IH]; intros w.
  - by exists [], w.
  - rewrite for_map_cons.
    destruct (image_loop_row_returns E row w Hsoft) as (row' & w1 & -> & Hf1).
    destruct (IH w1) as (rest' & w2 & -> & Hlen & Hf2).
    exists (row' :: rest'), w2. simpl. repeat split; congruence.
Qed.

Lemma image_loop_survives_request_errors_witness :
  ∃ enriched w',
    enrich_rows sample_env [sample_row; sample_row] (World [] ∅ [])
    = (Returned enriched, w') ∧
    length enriched = 2%nat ∧ files w' = ∅.
Proof.
  exact (image_loop_survives_request_errors sample_env [sample_row; sample_row]
           (World [] ∅ []) sample_env_request_errors_only).
Defined.

(** X12: a row none of whose five slots holds a blob reference goes
    through the image loop untouched and without a trace: no download, no
    message, whatever the environment; and if neither the row nor its unit
    has a [gambar<i>_base64] field, all five image fields of its output record
    are the empty string. *)
Theorem row_without_blobs_needs_no_download E (row business_unit : dict) w :
  Forall (λ i, blob_present row i = false) slots →
  Forall (λ i, row !! base64_key i = None) slots →
  Forall (λ i, business_unit !! base64_key i = None) slots →
  enrich_row E row w = (Returned row, w) ∧
  Forall (λ i, remap_row key_mapping (combine business_unit row) !! image_key i
               = Some (VStr ""))
         slots.
Proof.
  intros Hblob Hrow Hunit. split.
  - unfold enrich_row. fold slots. revert Hblob. generalize slots.
    intros indices Hblob. induction Hblob as [|i rest Hi _ IH]; [done|].
    rewrite for_fold_cons. unfold process_slot at 1. by rewrite Hi.
  - rewrite Forall_forall in Hrow, Hunit. apply Forall_forall. intros i Hi.
    rewrite (remap_row_lookup _ (base64_key i) (image_key i))
      by (revert i Hi; apply Forall_forall; key_mapped).
    rewrite get_combine by by apply Hunit. unfold get. by rewrite Hrow.
Qed.

Lemma row_without_blobs_needs_no_download_witness :
  enrich_row sample_env (<["crd8d_id" := VStr "r2"]> ∅) (World [] ∅ [])
  = (Returned (<["crd8d_id" := VStr "r2"]> ∅), World [] ∅ []) ∧
  Forall (λ i, remap_row key_mapping
                 (combine sample_unit (<["crd8d_id" := VStr "r2"]> ∅)) !! image_key i
               = Some (VStr ""))
         slots.
Proof.
  apply (row_without_blobs_needs_no_download sample_env
           (<["crd8d_id" := VStr "r2"]> ∅) sample_unit (World [] ∅ []));
    apply (bool_decide_unpack _); vm_compute; exact I.
Defined.

Lemma b64encode_empty content : b64encode content = "" ↔ content = [].
Proof.
  split; [|by intros ->].
  destruct content as [|a [|b [|c rest]]]; simpl; [done|discriminate..].
Qed.

(** X13: a slot that holds a blob reference and whose download succeeds
    gets the Base64 text of the content under [gambar<i>_base64]; but an
    empty content counts as a failure: nothing is stored. *)
Theorem downloaded_image_is_stored_unless_empty E (row : dict) i w content :
  blob_present row i = true →
  image_reply E
    (ImageDownload (image_url_of row i)
     :: Print ("Attempting to download image from: " +:+ image_url_of row i)
     :: history w)
    (image_url_of row i) = ImageContent content →
  result (process_slot E row i w)
  = Returned (match content with
              | [] => row
              | _ => <[base64_key i := VStr (b64encode content)]> row
              end).
Proof.
  intros Hpresent Hreply. unfold process_slot. rewrite Hpresent.
  unfold download_and_convert_to_base64. step. rewrite Hreply. simpl.
  destruct (b64encode content) as [|c r] eqn:Hb64.
  - apply b64encode_empty in Hb64. by subst content.
  - destruct content; [done|]. simpl. done.
Qed.

Lemma downloaded_image_is_stored_unless_empty_witness :
  result (process_slot sample_env sample_row 1 (World [] ∅ []))
  = Returned (<[base64_key 1 := VStr "TWFu"]> sample_row).
Proof.
  rewrite (downloaded_image_is_stored_unless_empty sample_env sample_row 1
             (World [] ∅ []) [x4d; x61; x6e]%byte).
  - vm_compute. reflexivity.
  - vm_compute. reflexivity.
  - vm_compute. reflexivity.
Defined.


(** ** Base64 *)

(** X14: the Base64 text loses nothing: decoding what [b64encode] wrote
    gives the downloaded bytes back, so two different contents never get the
    same text. *)
Theorem b64decode_b64encode (content : list byte) :
  b64decode (b64encode content) = content.
Proof. exact (b64_round_trip content). Qed.

(** X15: the Base64 text of n bytes has 4 characters for every 3 bytes,
    the last group being padded: 4 * ceil(n / 3) characters. *)
Theorem b64encode_length (content : list byte) :
  String.length (b64encode content) = (4 * ((length content + 2) / 3))%nat.
Proof.
  induction content as [|a|a b|a b c rest IH] using list_ind3; try reflexivity.
  change (S (S (S (S (String.length (b64encode rest)))))
          = (4 * ((S (S (S (length rest))) + 2) / 3))%nat).
  rewrite IH.
  replace (S (S (S (length rest))) + 2)%nat with (1 * 3 + (length rest + 2))%nat
    by lia.
  rewrite Nat.div_add_l by done. lia.
Qed.


(** ** The checkpoint, further *)

Lemma py_eq_refl v : PyValue.eq v v = true.
Proof.
  unfold PyValue.eq. destruct (PyValue.as_number v).
  - apply Z.eqb_refl.
  - by apply bool_decide_eq_true_2.
Qed.

Lemma any_processed_same_ids id cp cp' :
  entry_ids cp = entry_ids cp' → any_processed id cp = any_processed id cp'.
Proof.
  revert cp'. induction cp as [|unit rest IH]; intros [|unit' rest']; try done.
  rewrite !entry_ids_cons. intros [= Hhead Hrest]. simpl.
  rewrite Hhead, (IH rest' Hrest). done.
Qed.

Lemma any_processed_after_misses id cp tail :
  any_processed id cp = Returned false →
  any_processed id (cp ++ tail) = any_processed id tail.
Proof.
  induction cp as [|unit rest IH]; simpl; [done|].
  destruct (unit !! "business_unit_id") as [v|]; [|done].
  destruct (PyValue.eq v id); [done | exact IH].
Qed.

Lemma update_checkpoint_lists_unit id name total cp updated :
  update_checkpoint id name total cp = Returned updated →
  any_processed id updated = Returned true.
Proof.
  unfold update_checkpoint.
  destruct (any_processed id cp) as [[]| |] eqn:Hany; try done.
  - intros Hset. by rewrite (any_processed_same_ids id updated cp)
      by (by eapply set_total_rows_ids).
  - intros [= <-]. rewrite any_processed_after_misses by done. simpl.
    by rewrite checkpoint_entry_id, py_eq_refl.
Qed.

(** X16: once [record_processed] has returned for a unit, the checkpoint
    file lists it: the test of lines 186-189 on the stored list is true, so a
    later run of the same month skips the unit. *)
Theorem recorded_unit_is_skipped_later E file id name total w w' :
  record_processed E file id name total w = (Returned (), w') →
  any_processed id (stored w' file) = Returned true.
Proof.
  intros Hrun. unfold record_processed in Hrun.
  rewrite bind_run, load_checkpoint_run, bind_run in Hrun. unfold lift in Hrun.
  destruct (update_checkpoint id name total (stored w file)) as [updated| |] eqn:Hupd;
    try discriminate Hrun.
  unfold save_checkpoint, write_json in Hrun.
  destruct (open_error E (history w) file); [discriminate Hrun|].
  injection Hrun as <-.
  unfold stored at 1. simpl. rewrite lookup_insert_eq. simpl.
  by eapply update_checkpoint_lists_unit.
Qed.

Lemma recorded_unit_is_skipped_later_witness :
  any_processed (VStr "u2")
    (stored (final (record_processed sample_env (checkpoint_file "MAR" "2024")
                      (VStr "u2") (VStr "ACME SOUTH") 3 sample_rerun_world))
            (checkpoint_file "MAR" "2024"))
  = Returned true.
Proof.
  apply (recorded_unit_is_skipped_later sample_env (checkpoint_file "MAR" "2024")
           (VStr "u2") (VStr "ACME SOUTH") 3 sample_rerun_world).
  vm_compute. reflexivity.
Defined.




(** X18: where there is no checkpoint file yet and the file can be
    opened for writing, recording a unit creates it, holding the one entry of
    the unit with its id, name and row count. *)
Theorem first_record_creates_checkpoint E file id name total w :
  files w !! file = None →
  open_error E (history w) file = None →
  record_processed E file id name total w
  = (Returned (),
     World (stdin w) (<[file := [checkpoint_entry id name total]]> (files w))
           (history w)).
Proof.
  intros Hnone Hopen. unfold record_processed.
  rewrite bind_run, load_checkpoint_run. unfold stored. rewrite Hnone.
  cbn [from_option]. rewrite bind_run. unfold lift.
  cbn [update_checkpoint any_processed app].
  unfold save_checkpoint, write_json. by rewrite Hopen.
Qed.

Lemma first_record_creates_checkpoint_witness :
  record_processed sample_env "processed_business_units_MAR_2024.json" (VStr "u1")
    (VStr "ACME NORTH") 2 (World [] ∅ [])
  = (Returned (),
     World [] (<["processed_business_units_MAR_2024.json"
                 := [checkpoint_entry (VStr "u1") (VStr "ACME NORTH") 2]]> ∅) []).
Proof.
  apply (first_record_creates_checkpoint sample_env
           "processed_business_units_MAR_2024.json" (VStr "u1")
           (VStr "ACME NORTH") 2 (World [] ∅ [])).
  - reflexivity.
  - reflexivity.
Defined.

(** ** File names *)

Lemma length_append (s t : string) :
  String.length (s +:+ t) = (String.length s + String.length t)%nat.
Proof. induction s as [|c r IH]; [done|]. rewrite append_cons. simpl. by rewrite IH. Qed.

Lemma append_cancel_r (s1 s2 t : string) : s1 +:+ t = s2 +:+ t → s1 = s2.
Proof.
  revert s2. induction s1 as [|c r IH]; intros [|c' r'] H.
  - done.
  - apply (f_equal String.length) in H.
    rewrite !length_append in H. simpl in H. lia.
  - apply (f_equal String.length) in H.
    rewrite !length_append in H. simpl in H. lia.
  - rewrite !append_cons in H. injection H as -> H. f_equal. by apply IH.
Qed.

Lemma month_names_of_the_table :
  ∀ name, name ∈ month_mapping.*2 ↔ name ∈ month_names.
Proof.
  assert (month_mapping.*2 ⊆ month_names ∧ month_names ⊆ month_mapping.*2)
    as [H1 H2] by (split; apply (bool_decide_unpack _); vm_compute; exact I).
  intros name. split; [apply H1 | apply H2].
Qed.

(** X19: the checkpoint files of two different months or years are
    different files: with abbreviations of the month table, the file name
    determines the month and the year. *)
Theorem checkpoint_file_determines_month_and_year
    (month_name month_name' year_input year_input' : string) :
  month_name ∈ month_names → month_name' ∈ month_names →
  checkpoint_file month_name year_input = checkpoint_file month_name' year_input' →
  month_name = month_name' ∧ year_input = year_input'.
Proof.
  intros Hm Hm'. unfold checkpoint_file. intros H.
  apply (inj (String.app "processed_business_units_")) in H.
  unfold month_names in Hm, Hm'.
  repeat (apply elem_of_cons in Hm as [->|Hm]); [..|by apply elem_of_nil in Hm];
    (repeat (apply elem_of_cons in Hm' as [->|Hm']);
       [..|by apply elem_of_nil in Hm']);
    first [ discriminate H
          | split; [done|];
            rewrite !append_cons in H; injection H as H;
            exact (append_cancel_r year_input year_input' ".json" H) ].
Qed.

Lemma checkpoint_file_determines_month_and_year_witness :
  "MAR" = "MAR" ∧ "2024" = "2024".
Proof.
  apply (checkpoint_file_determines_month_and_year "MAR" "MAR" "2024" "2024").
  - apply (bool_decide_unpack _). vm_compute. exact I.
  - apply (bool_decide_unpack _). vm_compute. exact I.
  - reflexivity.
Defined.


(** ** The row loop and the files of a unit *)

Lemma append_record_returns E file_name (r : dict) w :
  open_error E (history w) file_name = None →
  append_record E file_name r w
  = (Returned (),
     World (stdin w) (<[file_name := stored w file_name ++ [r]]> (files w))
           (history w)).
Proof. intros Hopen. rewrite append_record_run. unfold write_json. by rewrite Hopen. Qed.

Lemma append_record_raises E file_name (r : dict) w e :
  open_error E (history w) file_name = Some e →
  append_record E file_name r w = (Raised e, w).
Proof. intros Hopen. rewrite append_record_run. unfold write_json. by rewrite Hopen. Qed.

Lemma save_row_run E file_name business_unit_name business_unit km total index row w :
  opens E file_name →
  ∃ line,
    save_row E file_name business_unit_name business_unit km total (index, row) w
    = (Returned (total + 1),
       World (stdin w)
             (<[file_name := stored w file_name
                             ++ [remap_row km (combine business_unit row)]]> (files w))
             (Print line :: history w)).
Proof.
  intros Hopen. eexists. unfold save_row, try_except. cbn [fst snd].
  rewrite bind_run. unfold print at 1, emit at 1.
  rewrite bind_run, append_record_returns by apply Hopen. reflexivity.
Qed.

(** The row whose file cannot be opened: lines 385-387. *)
Lemma save_row_fails E file_name business_unit_name business_unit km total index row
    w e :
  (∀ h, open_error E h file_name = Some e) →
  ∃ h,
    save_row E file_name business_unit_name business_unit km total (index, row) w
    = (Returned total, World (stdin w) (files w) h).
Proof.
  intros Hopen. eexists. unfold save_row, try_except. cbn [fst snd].
  rewrite bind_run. unfold print at 1, emit at 1.
  rewrite bind_run, (append_record_raises _ _ _ _ e) by apply Hopen.
  rewrite bind_run. unfold print at 1, emit at 1. reflexivity.
Qed.

Lemma row_loop_run E file_name business_unit_name business_unit km rows :
  opens E file_name →
  ∀ start total w, ∃ h,
    for_fold (zip (seq start (length rows)) rows) total
      (save_row E file_name business_unit_name business_unit km) w
    = (Returned (total + Z.of_nat (length rows)),
       World (stdin w)
             (match rows with
              | [] => files w
              | _ => <[file_name := stored w file_name
                        ++ map (λ row, remap_row km (combine business_unit row)) rows]>
                       (files w)
              end)
             h).
Proof.
  intros Hopen. induction rows as [|row rest IH]; intros start total w.
  - exists (history w). cbn [length seq zip_with].
    rewrite for_fold_nil, Z.add_0_r. by destruct w.
  - cbn [length seq zip_with]. rewrite for_fold_cons.
    destruct (save_row_run E file_name business_unit_name business_unit km
                total start row w Hopen) as [line ->].
    destruct (IH (S start) (total + 1) (World (stdin w)
        (<[file_name := stored w file_name
                        ++ [remap_row km (combine business_unit row)]]> (files w))
        (Print line :: history w))) as [h ->].
    exists h. f_equal; [f_equal; lia|]. cbn [stdin files]. f_equal.
    destruct rest as [|row' rest']; [done|].
    unfold stored at 1. cbn [files]. rewrite lookup_insert_eq. cbn [from_option id].
    rewrite insert_insert_eq, <- app_assoc. done.
Qed.

Lemma row_loop_fails E file_name business_unit_name business_unit km e
    (indexed_rows : list (nat * dict)) :
  (∀ h, open_error E h file_name = Some e) →
  ∀ total w, ∃ h,
    for_fold indexed_rows total
      (save_row E file_name business_unit_name business_unit km) w
    = (Returned total, World (stdin w) (files w) h).
Proof.
  intros Hopen. induction indexed_rows as [|[index row] rest IH]; intros total w.
  - exists (history w). rewrite for_fold_nil. by destruct w.
  - rewrite for_fold_cons.
    destruct (save_row_fails E file_name business_unit_name business_unit km
                total index row w e Hopen) as [h1 ->].
    destruct (IH total (World (stdin w) (files w) h1)) as [h ->]. by exists h.
Qed.

(** X20: when the output file can be opened, the row loop saves every row:
    it returns the number of rows, and the output file then holds what it
    held before followed by the remapped rows, in the order of the query's
    reply; no other file changes and no row is dropped. *)
Theorem row_loop_appends_every_row E file_name business_unit_name business_unit
    km related_data w :
  opens E file_name →
  let run := for_fold (enumerate related_data) 0
               (save_row E file_name business_unit_name business_unit km) w in
  result run = Returned (Z.of_nat (length related_data)) ∧
  stdin (final run) = stdin w ∧
  files (final run)
  = match related_data with
    | [] => files w
    | _ => <[file_name := stored w file_name
              ++ map (λ row, remap_row km (combine business_unit row)) related_data]>
             (files w)
    end.
Proof.
  intros Hopen. cbv zeta. unfold enumerate.
  destruct (row_loop_run E file_name business_unit_name business_unit km
              related_data Hopen 0%nat 0 w) as [h ->].
  unfold result, final. cbn [fst snd stdin files]. done.
Qed.

Lemma row_loop_appends_every_row_witness :
  let run := for_fold (enumerate [sample_row; sample_row]) 0
               (save_row sample_env "out.json" (VStr "ACME NORTH") sample_unit
                         key_mapping) (World [] ∅ []) in
  result run = Returned 2 ∧
  stdin (final run) = [] ∧
  files (final run)
  = <["out.json" := stored (World [] ∅ []) "out.json"
        ++ map (λ row, remap_row key_mapping (combine sample_unit row))
               [sample_row; sample_row]]> ∅.
Proof.
  apply (row_loop_appends_every_row sample_env "out.json" (VStr "ACME NORTH")
           sample_unit key_mapping [sample_row; sample_row] (World [] ∅ [])).
  intros h. reflexivity.
Defined.

Lemma record_processed_returns E file id name total w updated :
  open_error E (history w) file = None →
  update_checkpoint id name total (stored w file) = Returned updated →
  record_processed E file id name total w
  = (Returned (), World (stdin w) (<[file := updated]> (files w)) (history w)).
Proof.
  intros Hopen Hupd. unfold record_processed.
  rewrite bind_run, load_checkpoint_run, bind_run. unfold lift. rewrite Hupd.
  unfold save_checkpoint, write_json. by rewrite Hopen.
Qed.

(** The end of [remap_and_save_data], lines 397-418, from a world [w1]
    whose checkpoint file is that of [w]. *)
Lemma checkpoint_epilogue E CHECKPOINT_FILE (business_unit : dict) total w1 updated :
  opens E CHECKPOINT_FILE →
  update_checkpoint (get business_unit "businessunitid" (VStr "unknown_id"))
    (get business_unit "name" (VStr "Unknown")) total (stored w1 CHECKPOINT_FILE)
  = Returned updated →
  ∃ h,
    (record_processed E CHECKPOINT_FILE
       (get business_unit "businessunitid" (VStr "unknown_id"))
       (get business_unit "name" (VStr "Unknown")) total;;
     if 0 <? total
     then print ("Saved combined data for business unit '"
                 +:+ PyValue.str (get business_unit "name" (VStr "Unknown"))
                 +:+ "' and updated checkpoint.")
     else print ("No data processed for business unit '"
                 +:+ PyValue.str (get business_unit "name" (VStr "Unknown"))
                 +:+ "', but checkpoint updated.")) w1
    = (Returned (),
       World (stdin w1) (<[CHECKPOINT_FILE := updated]> (files w1)) h).
Proof.
  intros Hopen Hupd. rewrite bind_run.
  rewrite (record_processed_returns _ _ _ _ _ _ updated) by (apply Hopen || done).
  destruct (0 <? total); eexists; reflexivity.
Qed.

(** The final read of lines 390-395 prints one line and goes on, whether
    the file is there or not. *)
Lemma final_read_run file_name w :
  ∃ h,
    try_except
      (final_data ← read_json file_name;
       print ("Total rows saved in '" +:+ file_name +:+ "': "
              +:+ pretty (length final_data)))
      (λ e,
         print ("Error reading final JSON file '" +:+ file_name +:+ "': "
                +:+ exn_text e)) w
    = (Returned (), World (stdin w) (files w) h).
Proof.
  unfold try_except. rewrite bind_run. unfold read_json.
  destruct (files w !! file_name); eexists; reflexivity.
Qed.

Lemma remap_and_save_run E year_input CHECKPOINT_FILE related_data
    (business_unit : dict) km month_name w updated :
  let business_unit_name := get business_unit "name" (VStr "Unknown") in
  let business_unit_id := get business_unit "businessunitid" (VStr "unknown_id") in
  let file_name :=
    output_file business_unit_name
      (get business_unit
         "zon.crd8d_negeri@OData.Community.Display.V1.FormattedValue" (VStr "Unknown"))
      month_name year_input in
  opens E file_name → opens E CHECKPOINT_FILE →
  CHECKPOINT_FILE ≠ file_name →
  update_checkpoint business_unit_id business_unit_name
    (Z.of_nat (length related_data)) (stored w CHECKPOINT_FILE) = Returned updated →
  ∃ h,
    remap_and_save_data E year_input CHECKPOINT_FILE related_data
      business_unit km month_name w
    = (Returned (),
       World (stdin w)
         (<[CHECKPOINT_FILE := updated]>
            (match related_data with
             | [] => files w
             | _ => <[file_name := stored w file_name
                       ++ map (λ row, remap_row km (combine business_unit row))
                              related_data]>
                      (files w)
             end))
         h).
Proof.
  cbv zeta. intros Hout Hcp Hne Hupd. unfold remap_and_save_data.
  rewrite bind_run. destruct related_data as [|row rest].
  - rewrite bind_run. unfold print at 1, emit at 1. cbn [mret M_ret].
    destruct (checkpoint_epilogue E CHECKPOINT_FILE business_unit 0
                (World (stdin w) (files w)
                   (Print ("No data retrieved for business unit '"
                           +:+ PyValue.str (get business_unit "name" (VStr "Unknown"))
                           +:+ "'. No file will be saved.") :: history w))
                updated Hcp Hupd) as [h ->].
    by exists h.
  - rewrite bind_run. unfold enumerate.
    set (rows := row :: rest) in *.
    destruct (row_loop_run E
                (output_file (get business_unit "name" (VStr "Unknown"))
                   (get business_unit
                      "zon.crd8d_negeri@OData.Community.Display.V1.FormattedValue"
                      (VStr "Unknown")) month_name year_input)
                (get business_unit "name" (VStr "Unknown")) business_unit km
                rows Hout 0%nat 0 w) as [h ->].
    rewrite bind_run.
    match goal with |- context [try_except ?b ?hd ?w1] =>
      destruct (final_read_run
                  (output_file (get business_unit "name" (VStr "Unknown"))
                     (get business_unit
                        "zon.crd8d_negeri@OData.Community.Display.V1.FormattedValue"
                        (VStr "Unknown")) month_name year_input) w1) as [h1 Hread]
    end.
    rewrite Hread. cbn [mret M_ret stdin files]. rewrite Z.add_0_l.
    match goal with |- context [World ?i ?f h1] =>
      destruct (checkpoint_epilogue E CHECKPOINT_FILE business_unit
                  (Z.of_nat (length rows)) (World i f h1) updated Hcp)
        as [h2 Hend]
    end.
    { unfold stored at 1. subst rows. cbn [files].
      rewrite lookup_insert_ne by done. exact Hupd. }
    rewrite Hend. subst rows. by exists h2.
Qed.

(** X21: what [remap_and_save_data] leaves on disk.  When the output file
    of the unit and the checkpoint file can be opened, are not the same file,
    and the checkpoint can be updated, the call returns; the output file has
    gained the remapped rows, in order (and is not created when there are
    none), and the checkpoint file holds the updated list, with the number of
    rows as the unit's count. *)
Theorem unit_rows_are_saved_then_recorded E year_input CHECKPOINT_FILE related_data
    (business_unit : dict) km month_name w updated :
  let business_unit_name := get business_unit "name" (VStr "Unknown") in
  let business_unit_id := get business_unit "businessunitid" (VStr "unknown_id") in
  let file_name :=
    output_file business_unit_name
      (get business_unit
         "zon.crd8d_negeri@OData.Community.Display.V1.FormattedValue" (VStr "Unknown"))
      month_name year_input in
  let run := remap_and_save_data E year_input CHECKPOINT_FILE related_data
               business_unit km month_name w in
  opens E file_name → opens E CHECKPOINT_FILE →
  CHECKPOINT_FILE ≠ file_name →
  update_checkpoint business_unit_id business_unit_name
    (Z.of_nat (length related_data)) (stored w CHECKPOINT_FILE) = Returned updated →
  result run = Returned () ∧
  files (final run)
  = <[CHECKPOINT_FILE := updated]>
      (match related_data with
       | [] => files w
       | _ => <[file_name := stored w file_name
                 ++ map (λ row, remap_row km (combine business_unit row)) related_data]>
                (files w)
       end).
Proof.
  cbv zeta. intros Hout Hcp Hne Hupd.
  destruct (remap_and_save_run E year_input CHECKPOINT_FILE related_data
              business_unit km month_name w updated Hout Hcp Hne Hupd) as [h ->].
  done.
Qed.

Lemma unit_rows_are_saved_then_recorded_witness :
  let run := remap_and_save_data sample_env "2024" (checkpoint_file "MAR" "2024")
               [sample_row] sample_unit key_mapping "MAR"
               sample_rerun_world in
  result run = Returned () ∧
  files (final run)
  = <[checkpoint_file "MAR" "2024"
      := [checkpoint_entry (VStr "u1") (VStr "ACME NORTH") 1]]>
      (<["ACME NORTH_Unknown_MAR_2024.json"
         := stored sample_rerun_world "ACME NORTH_Unknown_MAR_2024.json"
            ++ map (λ row, remap_row key_mapping (combine sample_unit row))
                   [sample_row]]>
         (files sample_rerun_world)).
Proof.
  apply (unit_rows_are_saved_then_recorded sample_env "2024"
           (checkpoint_file "MAR" "2024")
           [sample_row] sample_unit key_mapping "MAR" sample_rerun_world
           [checkpoint_entry (VStr "u1") (VStr "ACME NORTH") 1]).
  - intros h. reflexivity.
  - intros h. reflexivity.
  - vm_compute. discriminate.
  - vm_compute. reflexivity.
Defined.

(** X31: a unit whose output file cannot be opened (its name holds a [/],
    say) loses its rows and is recorded all the same: every row is reported
    and skipped by the handler of lines 385-387, no output file is written,
    and the checkpoint lists the unit with a count of zero, so that a later
    run skips it. *)
Theorem unwritable_unit_is_recorded_with_no_rows
    E year_input CHECKPOINT_FILE related_data
    (business_unit : dict) km month_name w updated e :
  let business_unit_name := get business_unit "name" (VStr "Unknown") in
  let business_unit_id := get business_unit "businessunitid" (VStr "unknown_id") in
  let file_name :=
    output_file business_unit_name
      (get business_unit
         "zon.crd8d_negeri@OData.Community.Display.V1.FormattedValue" (VStr "Unknown"))
      month_name year_input in
  let run := remap_and_save_data E year_input CHECKPOINT_FILE related_data
               business_unit km month_name w in
  (∀ h, open_error E h file_name = Some e) → opens E CHECKPOINT_FILE →
  update_checkpoint business_unit_id business_unit_name 0
    (stored w CHECKPOINT_FILE) = Returned updated →
  result run = Returned () ∧
  files (final run) = <[CHECKPOINT_FILE := updated]> (files w) ∧
  any_processed business_unit_id (stored (final run) CHECKPOINT_FILE)
  = Returned true.
Proof.
  cbv zeta. intros Hout Hcp Hupd.
  assert (∃ h, remap_and_save_data E year_input CHECKPOINT_FILE related_data
                 business_unit km month_name w
               = (Returned (),
                  World (stdin w) (<[CHECKPOINT_FILE := updated]> (files w)) h))
    as [h ->].
  { unfold remap_and_save_data. rewrite bind_run.
    destruct related_data as [|row rest].
    - rewrite bind_run. unfold print at 1, emit at 1. cbn [mret M_ret].
      match goal with |- context [World ?i ?f ?h0] =>
        destruct (checkpoint_epilogue E CHECKPOINT_FILE business_unit 0
                    (World i f h0) updated Hcp Hupd) as [h ->]
      end.
      by exists h.
    - rewrite bind_run.
      match goal with |- context [for_fold ?xs 0 (save_row E ?f ?n ?b ?k) w] =>
        destruct (row_loop_fails E f n b k e xs Hout 0 w) as [h ->]
      end.
      rewrite bind_run.
      match goal with |- context [try_except ?b ?hd ?w1] =>
        destruct (final_read_run
                    (output_file (get business_unit "name" (VStr "Unknown"))
                       (get business_unit
                          "zon.crd8d_negeri@OData.Community.Display.V1.FormattedValue"
                          (VStr "Unknown")) month_name year_input) w1) as [h1 Hread]
      end.
      rewrite Hread. cbn [mret M_ret stdin files].
      match goal with |- context [World ?i ?f h1] =>
        destruct (checkpoint_epilogue E CHECKPOINT_FILE business_unit 0
                    (World i f h1) updated Hcp Hupd) as [h2 Hend]
      end.
      rewrite Hend. by exists h2. }
  unfold result, final, stored. cbn [fst snd files].
  split; [done|]. split; [done|].
  rewrite lookup_insert_eq. cbn [from_option id].
  by eapply update_checkpoint_lists_unit.
Qed.

Lemma unwritable_unit_is_recorded_with_no_rows_witness :
  let E := with_locked_path sample_env "ACME N/S_Unknown_MAR_2024.json"
             (Exn FileNotFoundError "[Errno 2] No such file or directory") in
  let business_unit : dict :=
    <["name" := VStr "ACME N/S"]> (<["businessunitid" := VStr "u7"]> ∅) in
  let run := remap_and_save_data E "2024" (checkpoint_file "MAR" "2024")
               [sample_row; sample_row] business_unit key_mapping "MAR"
               (World [] ∅ []) in
  result run = Returned () ∧
  files (final run)
  = <[checkpoint_file "MAR" "2024"
      := [checkpoint_entry (VStr "u7") (VStr "ACME N/S") 0]]> ∅ ∧
  any_processed (get business_unit "businessunitid" (VStr "unknown_id"))
    (stored (final run) (checkpoint_file "MAR" "2024"))
  = Returned true.
Proof.
  cbv zeta.
  apply (unwritable_unit_is_recorded_with_no_rows
           (with_locked_path sample_env "ACME N/S_Unknown_MAR_2024.json"
              (Exn FileNotFoundError "[Errno 2] No such file or directory"))
           "2024" (checkpoint_file "MAR" "2024") [sample_row; sample_row]
           (<["name" := VStr "ACME N/S"]> (<["businessunitid" := VStr "u7"]> ∅))
           key_mapping "MAR" (World [] ∅ [])
           [checkpoint_entry (VStr "u7") (VStr "ACME N/S") 0]
           (Exn FileNotFoundError "[Errno 2] No such file or directory")).
  - intros h. vm_compute. reflexivity.
  - intros h. vm_compute. reflexivity.
  - vm_compute. reflexivity.
Defined.


(** ** The record of a row *)

(** X22: in the record saved for a row, every field comes from the row when
    the row has the source key (a null included), else from the unit, else it
    is the empty text. *)
Theorem row_fields_override_unit_fields (business_unit row : dict) :
  Forall (λ kv, remap_row key_mapping (combine business_unit row) !! kv.2
                = Some (match row !! kv.1 with
                        | Some v => v
                        | None => default (VStr "") (business_unit !! kv.1)
                        end))
         key_mapping.
Proof.
  apply Forall_forall. intros [old new] Hin.
  rewrite (remap_row_lookup _ old new Hin). cbn [fst snd]. f_equal.
  unfold get, combine. rewrite lookup_union.
  destruct (row !! old), (business_unit !! old); done.
Qed.

(** X23: the key under which the image loop stores the Base64 text of a
    slot is a source key of the field table: the text of slot [i] is saved as
    [image<i>_full]. *)
Theorem image_text_is_saved_as_image_full (business_unit row : dict) :
  Forall (λ i, remap_row key_mapping (combine business_unit row)
                 !! image_key i
               = Some (get (combine business_unit row) (base64_key i) (VStr "")))
         slots.
Proof.
  apply Forall_forall. intros i Hi. apply remap_row_lookup.
  revert i Hi. apply Forall_forall.
  apply (bool_decide_unpack _). vm_compute. exact I.
Qed.

(** ** No exit from the processing block *)

Lemma never_exits_ret {A} (a : A) : never_exits (mret a : M A).
Proof. by intros w code. Qed.

Lemma never_exits_lift {A} (r : outcome A) :
  (∀ code, r ≠ SysExit code) → never_exits (lift r).
Proof. intros Hr w code. apply Hr. Qed.

Lemma never_exits_raise {A} (e : exn) : never_exits (raise e : M A).
Proof. by intros w code. Qed.

Lemma never_exits_ask {A} (oracle : list event → A) : never_exits (ask oracle).
Proof. by intros w code. Qed.

Lemma never_exits_bind {A B} (c : M A) (k : A → M B) :
  never_exits c → (∀ a, never_exits (k a)) → never_exits (c ≫= k).
Proof.
  intros Hc Hk w code. unfold result. rewrite bind_run.
  destruct (c w) as [[a|code'|e] w'] eqn:Hcw; simpl.
  - apply Hk.
  - specialize (Hc w code'). unfold result in Hc. by rewrite Hcw in Hc.
  - done.
Qed.

Lemma never_exits_try_except {A} (body : M A) (handler : exn → M A) :
  never_exits body → (∀ e, never_exits (handler e)) →
  never_exits (try_except body handler).
Proof.
  intros Hb Hh w code. unfold result, try_except.
  destruct (body w) as [[a|code'|e] w'] eqn:Hbw; simpl.
  - done.
  - specialize (Hb w code'). unfold result in Hb. by rewrite Hbw in Hb.
  - apply Hh.
Qed.

Lemma never_exits_for_fold {A B} (xs : list B) (state : A) (body : A → B → M A) :
  (∀ s x, never_exits (body s x)) → never_exits (for_fold xs state body).
Proof.
  intros Hbody. revert state. induction xs as [|x rest IH]; intros state.
  - apply never_exits_ret.
  - cbn [for_fold]. apply never_exits_bind; [apply Hbody | apply IH].
Qed.

Lemma never_exits_emit ev : never_exits (emit ev).
Proof. by intros w code. Qed.

Lemma never_exits_print text : never_exits (print text).
Proof. by intros w code. Qed.

Lemma never_exits_path_exists path : never_exits (path_exists path).
Proof. by intros w code. Qed.

Lemma never_exits_read_json path : never_exits (read_json path).
Proof. intros w code. unfold result, read_json. by destruct (files w !! path). Qed.

Lemma never_exits_write_json E path data : never_exits (write_json E path data).
Proof.
  intros w code. unfold result, write_json.
  by destruct (open_error E (history w) path).
Qed.

Lemma never_exits_for_each {A} (xs : list A) (body : A → M unit) :
  (∀ x, never_exits (body x)) → never_exits (for_each xs body).
Proof. intros Hbody. apply never_exits_for_fold. intros _ x. apply Hbody. Qed.

Lemma never_exits_for_map {A B} (xs : list A) (body : A → M B) :
  (∀ x, never_exits (body x)) → never_exits (for_map xs body).
Proof.
  intros Hbody. induction xs as [|x rest IH].
  - apply never_exits_ret.
  - cbn [for_map]. apply never_exits_bind; [apply Hbody|]. intros y.
    apply never_exits_bind; [apply IH|]. intros ys. apply never_exits_ret.
Qed.

Lemma any_processed_never_exits id cp code : any_processed id cp ≠ SysExit code.
Proof.
  induction cp as [|unit rest IH]; simpl; [done|].
  destruct (unit !! "business_unit_id") as [v|]; [|done].
  by destruct (PyValue.eq v id).
Qed.

Lemma set_total_rows_never_exits id total cp code :
  set_total_rows id total cp ≠ SysExit code.
Proof.
  induction cp as [|unit rest IH]; simpl; [done|].
  destruct (unit !! "business_unit_id") as [v|]; [|done].
  destruct (PyValue.eq v id); [done|].
  by destruct (set_total_rows id total rest).
Qed.

Lemma update_checkpoint_never_exits id name total cp code :
  update_checkpoint id name total cp ≠ SysExit code.
Proof.
  unfold update_checkpoint.
  pose proof (any_processed_never_exits id cp) as Hany.
  destruct (any_processed id cp) as [[]|code'|e]; try done.
  - apply set_total_rows_never_exits.
  - by destruct (Hany code').
Qed.

Lemma any_name_in_never_exits names name code :
  any_name_in names name ≠ SysExit code.
Proof.
  induction names as [|n rest IH]; simpl; [done|].
  destruct name as [| | |s]; try done. by destruct (Py.contains n s).
Qed.

(** Splits a command at its binds, handlers, loops and branches. *)
Ltac quiet :=
  repeat first
    [ apply never_exits_ret | apply never_exits_print | apply never_exits_emit
    | apply never_exits_ask | apply never_exits_raise
    | apply never_exits_path_exists | apply never_exits_read_json
    | apply never_exits_write_json
    | apply never_exits_for_each; intros ?
    | apply never_exits_for_map; intros ?
    | apply never_exits_for_fold; intros ? ?
    | apply never_exits_try_except; [|intros ?]
    | apply never_exits_bind; [|intros ?]
    | match goal with
      | |- never_exits (match ?x with _ => _ end) => destruct x
      end ].

Lemma never_exits_download E image_url :
  never_exits (download_and_convert_to_base64 E image_url).
Proof. unfold download_and_convert_to_base64. quiet. Qed.

Lemma never_exits_process_slot E row i : never_exits (process_slot E row i).
Proof.
  unfold process_slot. destruct (blob_present row i); [|quiet].
  apply never_exits_bind; [apply never_exits_download|]. intros image. quiet.
Qed.

Lemma never_exits_enrich_rows E related_data :
  never_exits (enrich_rows E related_data).
Proof.
  unfold enrich_rows, enrich_row. apply never_exits_for_map. intros row.
  apply never_exits_for_fold. intros s i. apply never_exits_process_slot.
Qed.

Lemma never_exits_append_record E file_name r :
  never_exits (append_record E file_name r).
Proof. intros w code. rewrite append_record_run. apply never_exits_write_json. Qed.

Lemma never_exits_save_row E file_name name business_unit km total indexed_row :
  never_exits (save_row E file_name name business_unit km total indexed_row).
Proof.
  unfold save_row. apply never_exits_try_except; [|intros e; quiet].
  apply never_exits_bind; [apply never_exits_print|]. intros _.
  apply never_exits_bind; [apply never_exits_append_record|]. intros _.
  apply never_exits_ret.
Qed.

Lemma never_exits_load_checkpoint file : never_exits (load_checkpoint file).
Proof. intros w code. by rewrite load_checkpoint_run. Qed.

Lemma never_exits_record_processed E file id name total :
  never_exits (record_processed E file id name total).
Proof.
  unfold record_processed.
  apply never_exits_bind; [apply never_exits_load_checkpoint|]. intros cp.
  apply never_exits_bind;
    [apply never_exits_lift, update_checkpoint_never_exits|]. intros cp'.
  apply never_exits_write_json.
Qed.

Lemma never_exits_remap_and_save E year_input file related_data business_unit km
    month_name :
  never_exits (remap_and_save_data E year_input file related_data business_unit km
                                   month_name).
Proof.
  unfold remap_and_save_data.
  apply never_exits_bind.
  - destruct related_data as [|row rest]; [quiet|].
    apply never_exits_bind.
    + apply never_exits_for_fold. intros s x. apply never_exits_save_row.
    + intros total. quiet.
  - intros total.
    apply never_exits_bind; [apply never_exits_record_processed|]. intros _.
    destruct (0 <? total); apply never_exits_print.
Qed.

Lemma never_exits_rows_of reply : never_exits (rows_of reply).
Proof. destruct reply; [apply never_exits_ret | apply never_exits_raise]. Qed.

Lemma never_exits_select_matching names business_units :
  never_exits (select_matching names business_units).
Proof.
  unfold select_matching. apply never_exits_for_fold. intros acc business_unit.
  apply never_exits_bind;
    [apply never_exits_lift, any_name_in_never_exits|].
  intros [|]; quiet.
Qed.

Lemma never_exits_process_unit E year_input month_numeric month_name file
    processed_units business_unit :
  never_exits (process_unit E year_input month_numeric month_name file
                            processed_units business_unit).
Proof.
  unfold process_unit.
  apply never_exits_bind;
    [apply never_exits_lift, any_processed_never_exits|].
  intros [|]; [apply never_exits_print|].
  apply never_exits_bind; [apply never_exits_print|]. intros _.
  apply never_exits_bind; [apply never_exits_emit|]. intros _.
  apply never_exits_bind; [apply never_exits_ask|]. intros reply.
  apply never_exits_bind; [apply never_exits_rows_of|]. intros related_data.
  apply never_exits_bind.
  { destruct related_data; apply never_exits_print. }
  intros _.
  apply never_exits_bind; [apply never_exits_enrich_rows|]. intros rows.
  apply never_exits_remap_and_save.
Qed.

Lemma never_exits_fetch_and_process `{!Text} E names year_input month_numeric month_name :
  never_exits (fetch_and_process E names year_input month_numeric month_name).
Proof.
  unfold fetch_and_process.
  apply never_exits_bind; [apply never_exits_emit|]. intros _.
  apply never_exits_bind; [apply never_exits_ask|]. intros reply.
  apply never_exits_bind; [apply never_exits_rows_of|]. intros business_units.
  apply never_exits_bind; [apply never_exits_print|]. intros _.
  apply never_exits_bind; [apply never_exits_load_checkpoint|]. intros cp.
  apply never_exits_bind; [apply never_exits_select_matching|]. intros matching.
  destruct matching as [|unit rest]; [apply never_exits_print|].
  apply never_exits_for_each. intros business_unit.
  apply never_exits_process_unit.
Qed.

(** ** The ways a run ends *)

Lemma get_access_token_ends E w :
  ∃ w1, stdin w1 = stdin w ∧
    ((∃ token, get_access_token E w = (Returned token, w1)) ∨
     get_access_token E w = (SysExit 1, w1) ∨
     (∃ e, get_access_token E w = (Raised e, w1) ∧
           client_init E (ClientInit :: history w) = Some e)).
Proof.
  unfold get_access_token. step.
  destruct (client_init E (ClientInit :: history w)) as [e|]; simpl.
  { eexists. split; [|right; right; eauto]. done. }
  destruct (token_reply E _) as [reply|e]; simpl.
  - destruct (reply !! "access_token"); simpl;
      (eexists; split; [|eauto]; done).
  - eexists. split; [|eauto]. done.
Qed.

Lemma accepted_month_resolves month_input :
  month_input ∈ accepted_forms → ∃ pair, resolution month_input = Returned pair.
Proof.
  intros Hin. pose proof accepted_forms_resolve as H. rewrite Forall_forall in H.
  apply H, Exists_exists in Hin as (m & _ & _ & Hr). eauto.
Qed.

Lemma resolution_never_raises month_input e : resolution month_input ≠ Raised e.
Proof.
  unfold resolution.
  destruct (lookup_item month_mapping month_input) as [name|] eqn:Hlook; [|done].
  assert (Hin : month_input ∈ accepted_forms) by (apply lookup_item_accepts; eauto).
  pose proof accepted_forms_resolve as H. rewrite Forall_forall in H.
  apply H, Exists_exists in Hin as (m & _ & _ & Hr).
  unfold resolution in Hr. rewrite Hlook in Hr.
  by destruct (month_numeric_of name).
Qed.

Lemma resolution_exit_code month_input code :
  resolution month_input = SysExit code → code = 1.
Proof.
  unfold resolution.
  destruct (lookup_item month_mapping month_input) as [name|] eqn:Hlook.
  - assert (Hin : month_input ∈ accepted_forms)
      by (apply lookup_item_accepts; eauto).
    pose proof accepted_forms_resolve as H. rewrite Forall_forall in H.
    apply H, Exists_exists in Hin as (m & _ & _ & Hr).
    unfold resolution in Hr. rewrite Hlook in Hr.
    by destruct (month_numeric_of name).
  - by intros [= <-].
Qed.

(** The [try] statement of lines 155-426 returns, whatever its block
    does. *)
Lemma guarded_block_returns `{!Text} E names year_input month_numeric month_name w :
  result
    (try_except
       (fetch_and_process E names year_input month_numeric month_name)
       (λ e,
          match exn_class e with
          | RequestException => print ("Error fetching data: " +:+ exn_text e)
          | _ => print ("Unexpected error: " +:+ exn_text e)
          end) w)
  = Returned ().
Proof.
  unfold result, try_except.
  pose proof (never_exits_fetch_and_process E names year_input month_numeric
                month_name w) as Hquiet. unfold result in Hquiet.
  destruct (fetch_and_process E names year_input month_numeric month_name w)
    as [[[]|code|e] w'].
  - done.
  - by destruct (Hquiet code).
  - by destruct (exn_class e).
Qed.

(** X24: a run ends in one of four ways only: it returns; it exits with
    status 1; the MSAL client could not be built and its exception escapes;
    or the input ended before the three answers were read.  No error of a
    query, a download or a file ever escapes, and no other exit status
    occurs. *)
Theorem run_ends_in_one_of_four_ways `{!Text} E w :
  match result (fetch_business_units_and_related_data E w) with
  | Returned _ => True
  | SysExit code => code = 1
  | Raised e =>
      client_init E (ClientInit :: history w) = Some e ∨ e = end_of_input
  end.
Proof.
  unfold fetch_business_units_and_related_data, result. rewrite bind_run.
  destruct (get_access_token_ends E w)
    as (w1 & _ & [[token ->]|[->|(e & -> & Hinit)]]); cbn [fst];
    [|done|by left].
  rewrite bind_run. unfold input at 1.
  destruct (stdin w1) as [|names rest1]; cbn [fst]; [by right|].
  rewrite bind_run. unfold input at 1. cbn [stdin].
  destruct rest1 as [|year rest2]; cbn [fst]; [by right|].
  rewrite bind_run. unfold input at 1. cbn [stdin].
  destruct rest2 as [|line rest3]; cbn [fst]; [by right|].
  rewrite bind_run.
  match goal with |- context [resolve_month ?s ?w0] =>
    pose proof (resolve_month_result s w0) as Hres;
    destruct (resolve_month s w0) as [[[month_numeric month_name]|code|e] w4]
  end; unfold result in Hres; cbn [fst] in Hres |- *.
  - match goal with |- context [try_except ?b ?h ?w0] =>
      change (match result (try_except b h w0) with
              | Returned _ => True
              | SysExit code => code = 1
              | Raised e => client_init E (ClientInit :: history w) = Some e
                            ∨ e = end_of_input
              end)
    end.
    by rewrite guarded_block_returns.
  - by eapply resolution_exit_code.
  - symmetry in Hres. by apply resolution_never_raises in Hres.
Qed.

(** X25: once the token request has been answered, the three answers have
    been read and the month is accepted, the run returns normally, whatever
    the queries, the downloads and the files do: every failure after that
    point is caught and printed. *)
Theorem run_returns_once_month_is_accepted `{!Text} E w token names year line rest :
  result (get_access_token E w) = Returned token →
  stdin w = names :: year :: line :: rest →
  normalize_month line ∈ accepted_forms →
  result (fetch_business_units_and_related_data E w) = Returned ().
Proof.
  intros Htoken Hin Hmonth.
  unfold fetch_business_units_and_related_data, result. rewrite bind_run.
  unfold result in Htoken.
  destruct (get_access_token_ends E w)
    as (w1 & Hstdin & [[token' Hrun]|[Hrun|(e & Hrun & _)]]);
    rewrite Hrun in Htoken |- *; try discriminate Htoken.
  rewrite Hin in Hstdin.
  rewrite bind_run. unfold input at 1. rewrite Hstdin.
  rewrite bind_run. unfold input at 1. cbn [stdin].
  rewrite bind_run. unfold input at 1. cbn [stdin].
  rewrite bind_run.
  match goal with |- context [resolve_month ?s ?w0] =>
    pose proof (resolve_month_result s w0) as Hres;
    destruct (resolve_month s w0) as [[[month_numeric month_name]|code|e] w4]
  end; unfold result in Hres; cbn [fst] in Hres |- *.
  - apply guarded_block_returns.
  - destruct (accepted_month_resolves _ Hmonth) as [pair Hpair]. congruence.
  - destruct (accepted_month_resolves _ Hmonth) as [pair Hpair]. congruence.
Qed.

Lemma run_returns_once_month_is_accepted_witness :
  result (fetch_business_units_and_related_data sample_env sample_rerun_world)
  = Returned ().
Proof.
  apply (run_returns_once_month_is_accepted sample_env sample_rerun_world
           (VStr "t") "acme" "2024" "march" []).
  - vm_compute. reflexivity.
  - reflexivity.
  - apply (bool_decide_unpack _). vm_compute. exact I.
Defined.


(** ** Runs that write nothing *)

Lemma get_access_token_keeps_input E w :
  stdin (final (get_access_token E w)) = stdin w ∧
  files (final (get_access_token E w)) = files w.
Proof.
  unfold get_access_token. step.
  destruct (client_init E (ClientInit :: history w)); simpl; [done|].
  destruct (token_reply E _) as [reply|e]; simpl; [|done].
  by destruct (reply !! "access_token").
Qed.

Lemma resolve_month_run month_input month_numeric month_name w :
  resolution month_input = Returned (month_numeric, month_name) →
  resolve_month month_input w
  = (Returned (month_numeric, month_name),
     World (stdin w) (files w)
       (Print ("Month numeric: " +:+ month_numeric +:+ ", Month name: "
               +:+ month_name) :: history w)).
Proof.
  unfold resolution, resolve_month.
  destruct (lookup_item month_mapping month_input) as [name|]; [|done].
  destruct (month_numeric_of name) as [numeric| |]; try done.
  intros [= -> ->]. reflexivity.
Qed.

(** With a token answer, three lines of input and an accepted month, the run
    is the [try] statement, entered after the prologue. *)
Lemma run_reaches_block `{!Text} E w token names year line rest month_numeric month_name :
  result (get_access_token E w) = Returned token →
  stdin w = names :: year :: line :: rest →
  resolution (normalize_month line) = Returned (month_numeric, month_name) →
  fetch_business_units_and_related_data E w
  = try_except
      (fetch_and_process E (str_upper names) year month_numeric month_name)
      (λ e,
         match exn_class e with
         | RequestException => print ("Error fetching data: " +:+ exn_text e)
         | _ => print ("Unexpected error: " +:+ exn_text e)
         end)
      (World rest (files w)
         (prologue names year line month_numeric month_name
          ++ history (final (get_access_token E w)))).
Proof.
  intros Htoken Hin Hmonth.
  destruct (get_access_token_keeps_input E w) as [Hstdin Hfiles].
  unfold fetch_business_units_and_related_data. rewrite bind_run.
  unfold result, final in *.
  destruct (get_access_token E w) as [[token'| |] w1]; try discriminate Htoken.
  cbn [fst snd] in *. rewrite Hin in Hstdin.
  rewrite bind_run. unfold input at 1. rewrite Hstdin.
  rewrite bind_run. unfold input at 1. cbn [stdin].
  rewrite bind_run. unfold input at 1. cbn [stdin].
  rewrite bind_run. cbn [files history].
  rewrite (resolve_month_run _ _ _ _ Hmonth). cbn [stdin files history].
  by rewrite Hfiles.
Qed.

Lemma failed_units_query_run `{!Text} E names year_input month_numeric month_name w e :
  units_reply E (UnitsQuery :: history w) = HttpError e →
  fetch_and_process E names year_input month_numeric month_name w
  = (Raised e, World (stdin w) (files w) (UnitsQuery :: history w)).
Proof.
  intros Hreply. unfold fetch_and_process.
  rewrite bind_run. unfold emit at 1. rewrite bind_run. unfold ask at 1.
  cbn [history]. rewrite Hreply. rewrite bind_run. reflexivity.
Qed.

(** X26: a units query that fails ends the run at once and in the normal
    way: the failure is printed, as an error of fetching when it is a request
    error and as an unexpected error otherwise; nothing else is asked of the
    network and no file is touched. *)
Theorem failed_units_query_is_reported `{!Text}
    E w token names year line rest month_numeric month_name e :
  result (get_access_token E w) = Returned token →
  stdin w = names :: year :: line :: rest →
  resolution (normalize_month line) = Returned (month_numeric, month_name) →
  (∀ h, units_reply E h = HttpError e) →
  fetch_business_units_and_related_data E w
  = (Returned (),
     World rest (files w)
       (Print ((match exn_class e with
                | RequestException => "Error fetching data: "
                | _ => "Unexpected error: "
                end) +:+ exn_text e)
        :: UnitsQuery
        :: prologue names year line month_numeric month_name
        ++ history (final (get_access_token E w)))).
Proof.
  intros Htoken Hin Hmonth Hreply.
  rewrite (run_reaches_block E w token names year line rest month_numeric
             month_name Htoken Hin Hmonth).
  unfold try_except.
  rewrite (failed_units_query_run _ _ _ _ _ _ e) by apply Hreply.
  by destruct (exn_class e).
Qed.

Lemma failed_units_query_is_reported_witness :
  let E := with_units_reply sample_env
             (HttpError (Exn RequestException "503 Server Error")) in
  fetch_business_units_and_related_data E sample_rerun_world
  = (Returned (),
     World [] (files sample_rerun_world)
       (Print ("Error fetching data: " +:+ "503 Server Error")
        :: UnitsQuery
        :: prologue "acme" "2024" "march" "03" "MAR"
        ++ history (final (get_access_token E sample_rerun_world)))).
Proof.
  apply (failed_units_query_is_reported
           (with_units_reply sample_env
              (HttpError (Exn RequestException "503 Server Error")))
           sample_rerun_world (VStr "t") "acme" "2024" "march" [] "03" "MAR"
           (Exn RequestException "503 Server Error")).
  - vm_compute. reflexivity.
  - reflexivity.
  - vm_compute. reflexivity.
  - intros h. reflexivity.
Defined.

Lemma skipping_run E year_input month_numeric month_name file processed_units
    business_units :
  Forall (λ business_unit,
            any_processed (get business_unit "businessunitid" (VStr "unknown_id"))
                          processed_units = Returned true) business_units →
  ∀ w,
    for_each business_units
      (process_unit E year_input month_numeric month_name file processed_units) w
    = (Returned (),
       World (stdin w) (files w)
             (rev (map skipped_line business_units) ++ history w)).
Proof.
  unfold for_each. induction 1 as [|business_unit rest Hhead Htail IH]; intros w.
  - rewrite for_fold_nil. by destruct w.
  - rewrite for_fold_cons. unfold process_unit at 1.
    rewrite bind_run. unfold lift at 1. rewrite Hhead.
    unfold print at 1, emit at 1. rewrite IH. cbn [stdin files history map rev].
    by rewrite <- app_assoc.
Qed.

Lemma block_without_new_units `{!Text} E names_input year_input month_numeric month_name
    business_units w :
  let selected :=
    List.filter (name_hit (business_unit_names_of names_input)) business_units in
  units_reply E (UnitsQuery :: history w) = HttpRows business_units →
  Forall text_named business_units →
  Forall (λ business_unit,
            any_processed (get business_unit "businessunitid" (VStr "unknown_id"))
                          (stored w (checkpoint_file month_name year_input))
            = Returned true) selected →
  fetch_and_process E names_input year_input month_numeric month_name w
  = (Returned (),
     World (stdin w) (files w)
       ((match selected with
         | [] => [Print ("No matching business unit found for input: "
                         +:+ names_input)]
         | _ => rev (map skipped_line selected)
         end)
        ++ rev (map found_line selected)
        ++ Print ("Total business units retrieved: "
                  +:+ pretty (length business_units))
        :: UnitsQuery :: history w)).
Proof.
  cbv zeta. intros Hreply Htext Hlisted. unfold fetch_and_process.
  rewrite bind_run. unfold emit at 1. rewrite bind_run. unfold ask at 1.
  cbn [history]. rewrite Hreply. rewrite bind_run. unfold rows_of at 1.
  cbn [mret M_ret]. rewrite bind_run. unfold print at 1, emit at 1.
  cbn [stdin files history].
  rewrite bind_run, load_checkpoint_run, bind_run.
  rewrite select_matching_run by done. cbn [stdin files history].
  change (stored _ (checkpoint_file month_name year_input))
    with (stored w (checkpoint_file month_name year_input)).
  destruct (List.filter _ business_units) as [|unit rest] eqn:Hsel.
  - reflexivity.
  - by rewrite (skipping_run _ _ _ _ _ _ _ Hlisted).
Qed.

(** X27: when every unit the search terms select is already in the
    checkpoint of the month (and so too when they select none), the run asks
    for the units and nothing more, and leaves every file as it is: running a
    finished month again changes nothing.  It prints one line for each
    selected unit it skips, or the line that nothing matched. *)
Theorem finished_month_rerun_changes_nothing `{!Text}
    E w token names year line rest month_numeric month_name business_units :
  let selected :=
    List.filter (name_hit (business_unit_names_of (str_upper names)))
                business_units in
  result (get_access_token E w) = Returned token →
  stdin w = names :: year :: line :: rest →
  resolution (normalize_month line) = Returned (month_numeric, month_name) →
  (∀ h, units_reply E h = HttpRows business_units) →
  Forall text_named business_units →
  Forall (λ business_unit,
            any_processed (get business_unit "businessunitid" (VStr "unknown_id"))
                          (stored w (checkpoint_file month_name year))
            = Returned true) selected →
  fetch_business_units_and_related_data E w
  = (Returned (),
     World rest (files w)
       ((match selected with
         | [] => [Print ("No matching business unit found for input: "
                         +:+ str_upper names)]
         | _ => rev (map skipped_line selected)
         end)
        ++ rev (map found_line selected)
        ++ Print ("Total business units retrieved: "
                  +:+ pretty (length business_units))
        :: UnitsQuery
        :: prologue names year line month_numeric month_name
        ++ history (final (get_access_token E w)))).
Proof.
  cbv zeta. intros Htoken Hin Hmonth Hreply Htext Hlisted.
  rewrite (run_reaches_block E w token names year line rest month_numeric
             month_name Htoken Hin Hmonth).
  unfold try_except.
  match goal with |- context [fetch_and_process _ _ _ _ _ ?w0] =>
    pose proof (block_without_new_units E (str_upper names) year month_numeric
                  month_name business_units w0 (Hreply _) Htext Hlisted) as Hrun
  end.
  cbv zeta in Hrun. rewrite Hrun. reflexivity.
Qed.

Lemma finished_month_rerun_changes_nothing_witness :
  fetch_business_units_and_related_data sample_env sample_rerun_world
  = (Returned (),
     World [] (files sample_rerun_world)
       ([skipped_line sample_unit] ++ [found_line sample_unit]
        ++ Print "Total business units retrieved: 1"
        :: UnitsQuery
        :: prologue "acme" "2024" "march" "03" "MAR"
        ++ history (final (get_access_token sample_env sample_rerun_world)))).
Proof.
  refine (finished_month_rerun_changes_nothing sample_env sample_rerun_world
            (VStr "t") "acme" "2024" "march" [] "03" "MAR" [sample_unit]
            _ _ _ _ _ _).
  - vm_compute. reflexivity.
  - reflexivity.
  - vm_compute. reflexivity.
  - intros h. reflexivity.
  - repeat constructor. by eexists.
  - apply (bool_decide_unpack _). vm_compute. exact I.
Defined.


(** ** A failed detail query *)

(** X30: a detail query that fails ends the loop over the matching units:
    the exception leaves the loop at the failing unit, for which no file is
    written, and the units after it are neither queried nor recorded. *)
Theorem failed_detail_query_ends_the_unit_loop
    E year_input month_numeric month_name file processed_units
    (business_unit : dict) later_units w e :
  let business_unit_id := get business_unit "businessunitid" (VStr "unknown_id") in
  any_processed business_unit_id processed_units = Returned false →
  (∀ h, detail_reply E h business_unit_id year_input month_numeric = HttpError e) →
  for_each (business_unit :: later_units)
    (process_unit E year_input month_numeric month_name file processed_units) w
  = (Raised e,
     World (stdin w) (files w)
       (DetailQuery business_unit_id year_input month_numeric
        :: Print ("Processing business unit: "
                  +:+ PyValue.str (get business_unit "name" (VStr "Unknown")))
        :: history w)).
Proof.
  cbv zeta. intros Hnew Hreply. unfold for_each. rewrite for_fold_cons.
  unfold process_unit. rewrite bind_run. unfold lift at 1. rewrite Hnew.
  rewrite bind_run. unfold print at 1, emit at 1.
  rewrite bind_run. unfold emit at 1.
  rewrite bind_run. unfold ask at 1. rewrite Hreply.
  rewrite bind_run. reflexivity.
Qed.

Lemma failed_detail_query_ends_the_unit_loop_witness :
  for_each [sample_unit; <["businessunitid" := VStr "u2"]> sample_unit]
    (process_unit
       (with_detail_reply sample_env
          (HttpError (Exn RequestException "500 Server Error")))
       "2024" "03" "MAR" (checkpoint_file "MAR" "2024") [])
    (World [] ∅ [])
  = (Raised (Exn RequestException "500 Server Error"),
     World [] ∅
       [DetailQuery (VStr "u1") "2024" "03";
        Print ("Processing business unit: " +:+ "ACME NORTH")]).
Proof.
  apply (failed_detail_query_ends_the_unit_loop
           (with_detail_reply sample_env
              (HttpError (Exn RequestException "500 Server Error")))
           "2024" "03" "MAR" (checkpoint_file "MAR" "2024") [] sample_unit
           [<["businessunitid" := VStr "u2"]> sample_unit] (World [] ∅ [])
           (Exn RequestException "500 Server Error")).
  - reflexivity.
  - intros h. reflexivity.
Defined.

(** ** Uniqueness of ids, at a concrete input *)

Lemma run_keeps_ids_unique_witness :
  unique_ids
    (stored (final (fetch_business_units_and_related_data sample_env
                      (World ["acme"; "2024"; "march"] ∅ [])))
            (checkpoint_file "MAR" "2024")).
Proof.
  apply (run_keeps_ids_unique (checkpoint_file "MAR" "2024") sample_env
           (World ["acme"; "2024"; "march"] ∅ [])).
  apply unique_ids_nil.
Defined.
